(** * ai-facemaker browser demo: the generation pipeline of [app.js]

    A shallow embedding of [handleGenerate], [buildPrompt] and [generateImage]
    (the two copies of [app.js] carry the same three functions; they differ in
    how credentials are obtained and in one status message), with the part of
    the JavaScript runtime those functions rest on: strings, JSON values,
    property reads, truthiness, IEEE-754 doubles, exceptions, and the browser
    and SDK calls ([Math.random], [invokeModel], [atob]) as an explicit
    environment.  After these come the handlers around them: connecting
    with a pair of keys, disconnecting and downloading ([Console]), and the
    page that signs in with Cognito ([Portal]). *)

From Stdlib Require Import ZArith List String Ascii Bool Lia Arith.
From Stdlib Require Import Strings.Byte DecimalString.
From Stdlib Require Import SpecFloat.
Import ListNotations.

Set Implicit Arguments.
Set Warnings "-register-all,-abstract-large-number".
Open Scope list_scope.
Open Scope string_scope.

(* ================================================================== *)
(** ** JavaScript strings

    A JS string is a sequence of UTF-16 code units; [length], [substring],
    [startsWith] and [split] all count and compare code units.  A [string]
    of the model is such a sequence, one [ascii] standing for one unit. *)
(* ================================================================== *)

Module JsString.

(** [s.startsWith(p)] *)
Definition startsWith (s p : string) : bool := String.prefix p s.

(** [s.substring(indexStart, indexEnd)] for non-negative integer arguments:
    both are clamped to the length and swapped when out of order. *)
Definition substring (s : string) (indexStart indexEnd : nat) : string :=
  let len := String.length s in
  let a := Nat.min indexStart len in
  let b := Nat.min indexEnd len in
  String.substring (Nat.min a b) (Nat.max a b - Nat.min a b) s.

(** [s.split(sep)] for a separator of one code unit: the pieces between the
    occurrences of [sep]; the empty string gives one empty piece. *)
Fixpoint split (s : string) (sep : ascii) : list string :=
  match s with
  | EmptyString => [EmptyString]
  | String c rest =>
      if Ascii.eqb c sep then EmptyString :: split rest sep
      else match split rest sep with
           | [] => [String c EmptyString]
           | piece :: pieces => String c piece :: pieces
           end
  end.

(** [a.slice(start, end)] on an array, non-negative integer arguments. *)
Definition slice {A : Type} (a : list A) (start end_ : nat) : list A :=
  firstn (end_ - start) (skipn start a).

(** [a.join(sep)] on an array of strings. *)
Definition join (a : list string) (sep : string) : string := String.concat sep a.

(** A string is truthy when it is not empty. *)
Definition nonEmpty (s : string) : bool :=
  match s with EmptyString => false | String _ _ => true end.

(** Number of occurrences of a code unit. *)
Fixpoint count (c : ascii) (s : string) : nat :=
  match s with
  | EmptyString => 0
  | String d rest => (if Ascii.eqb d c then 1 else 0) + count c rest
  end.

(** [p] is an initial segment of [s]. *)
Definition isPrefixOf (p s : string) : Prop := exists rest, s = p ++ rest.

End JsString.

(* ================================================================== *)
(** ** Numbers: IEEE-754 binary64, as [SpecFloat] specifies them *)
(* ================================================================== *)

Module JsNumber.

Definition prec : Z := 53.
Definition emax : Z := 1024.

Definition number := spec_float.

(** The double of an integer literal. *)
Definition ofZ (z : Z) : number := binary_normalize prec emax z 0 false.

(** [x * y] *)
Definition mul (x y : number) : number := SFmul prec emax x y.

(** [Math.floor(x)]: the largest integral double not above [x].  A finite
    double with a negative exponent is [m * 2^e]; shifting the signed
    mantissa right by [-e] rounds toward minus infinity. *)
Definition Math_floor (x : number) : number :=
  match x with
  | S754_finite s m e =>
      if (0 <=? e)%Z then x
      else
        let q := Z.shiftr (if s then Zneg m else Zpos m) (- e) in
        if (q =? 0)%Z then S754_zero s else ofZ q
  | _ => x
  end.

(** What [Math.random()] promises: a double [u] of positive sign with
    [0 <= u < 1]. *)
Definition inUnitInterval (u : number) : bool :=
  match u with
  | S754_zero s => negb s
  | S754_finite s m e => negb s && bounded prec emax m e && SFltb u (ofZ 1)
  | _ => false
  end.

(** Zero (of either sign) and NaN are the falsy numbers. *)
Definition isFalsy (x : number) : bool :=
  match x with
  | S754_zero _ | S754_nan => true
  | _ => false
  end.

End JsNumber.

(* ================================================================== *)
(** ** Values, property reads, exceptions *)
(* ================================================================== *)

Module Js.
Import JsNumber.

(** The values the pipeline builds and receives: what [JSON.parse] can
    return, plus [undefined].  An object keeps its properties in insertion
    order, the order [JSON.stringify] writes them in. *)
Inductive value : Type :=
| Undefined
| Null
| Bool (b : bool)
| Num (x : number)
| Str (s : string)
| Arr (elems : list value)
| Obj (props : list (string * value)).

(** An exception value: an [Error] object with its [name] and [message]. *)
Record exn : Type := mkExn { name : string; message : string }.

(** [new Error(msg)] *)
Definition Error (msg : string) : exn := mkExn "Error" msg.

Inductive outcome (A : Type) : Type :=
| Ok (a : A)
| Throw (e : exn).
Arguments Ok {A} a.
Arguments Throw {A} e.

(** [if (v)], [!v], [v || w] *)
Definition truthy (v : value) : bool :=
  match v with
  | Undefined | Null => false
  | Bool b => b
  | Num x => negb (isFalsy x)
  | Str s => JsString.nonEmpty s
  | Arr _ | Obj _ => true
  end.

Fixpoint lookup (k : string) (props : list (string * value)) : value :=
  match props with
  | [] => Undefined
  | (k', v) :: rest => if String.eqb k' k then v else lookup k rest
  end.

(** The [TypeError] of a property read on [null] or [undefined] (V8's
    wording). *)
Definition readOfNullish (v : value) (k : string) : exn :=
  mkExn "TypeError"
    ("Cannot read properties of "
       ++ (match v with Null => "null" | _ => "undefined" end)
       ++ " (reading '" ++ k ++ "')").

(** [v.k] for a property name [k] that no prototype defines (the pipeline
    reads [images], [artifacts] and [base64]): an own property of an object,
    [undefined] on every other value, a [TypeError] on [null] and
    [undefined]. *)
Definition get (v : value) (k : string) : outcome value :=
  match v with
  | Undefined | Null => Throw (readOfNullish v k)
  | Obj props => Ok (lookup k props)
  | _ => Ok Undefined
  end.

(** [v[i]] for an index [i]: an array element, a one-unit string, the
    property named by the decimal digits of [i] on an object. *)
Definition index (v : value) (i : nat) : outcome value :=
  let key := NilZero.string_of_uint (Nat.to_uint i) in
  match v with
  | Undefined | Null => Throw (readOfNullish v key)
  | Arr elems => Ok (nth i elems Undefined)
  | Str s => Ok (match String.get i s with
                 | Some c => Str (String c EmptyString)
                 | None => Undefined
                 end)
  | Obj props => Ok (lookup key props)
  | _ => Ok Undefined
  end.

(** [o.k = v] on an object: the property is replaced where it stands, or
    added last. *)
Fixpoint assign (k : string) (v : value) (props : list (string * value))
  : list (string * value) :=
  match props with
  | [] => [(k, v)]
  | (k', v') :: rest =>
      if String.eqb k' k then (k', v) :: rest else (k', v') :: assign k v rest
  end.

Definition set (o : value) (k : string) (v : value) : value :=
  match o with
  | Obj props => Obj (assign k v props)
  | _ => o
  end.

(** An update of the object or array held by property [k] of [o]: the
    holder [o] sees the update, as with a shared reference. *)
Definition update (o : value) (k : string) (f : value -> value) : value :=
  match o with
  | Obj props => Obj (assign k (f (lookup k props)) props)
  | _ => o
  end.

(** [a.push(v)] *)
Definition push (a : value) (v : value) : value :=
  match a with
  | Arr elems => Arr (elems ++ [v])%list
  | _ => a
  end.

(** Whether an object value has an own property [k]. *)
Definition hasOwn (v : value) (k : string) : bool :=
  match v with
  | Obj props => existsb (fun p => String.eqb (fst p) k) props
  | _ => false
  end.

End Js.

(* ================================================================== *)
(** ** The page, the browser and the SDK *)
(* ================================================================== *)

Module Dom.
Import Js.

(** The form fields [handleGenerate] reads.  [size_select] is the value
    after [parseInt] (NaN when the field holds no number). *)
Record Form : Type := mkForm {
  world_context : string;
  world_style : string;
  negative_prompt : string;
  char_name : string;
  char_role : string;
  char_description : string;
  model_select : string;
  size_select : JsNumber.number;
  prompt_frame : string
}.

(** The parts of the page the generation functions write. *)
Record Page : Type := mkPage {
  statusText : string;             (* credentialsStatus.textContent *)
  statusClass : string;            (* credentialsStatus.className *)
  errorText : string;              (* errorDiv.textContent *)
  errorShown : bool;               (* errorDiv.style.display is 'block' *)
  loadingShown : bool;             (* loadingDiv.style.display is 'block' *)
  generateDisabled : bool;         (* generateBtn.disabled *)
  resultImage : option (list byte);(* the blob behind resultImage.src *)
  generatorShown : bool;           (* generatorSection is displayed *)
  resultsShown : bool              (* resultsSection is displayed *)
}.

(** One call of [bedrock.invokeModel]: the model and the request body
    (before [JSON.stringify]). *)
Record Invocation : Type := mkInvocation {
  modelId : string;
  body : value
}.

(** The mutable state: the module-level [awsCredentials], how many values
    [Math.random] has handed out, the remote calls made so far (oldest
    first), and the page. *)
Record World : Type := mkWorld {
  awsCredentials : option (string * string);
  randomCalls : nat;
  invocations : list Invocation;
  page : Page
}.

(** What the code cannot compute by itself.  [random n] is the value of the
    [n]-th call of [Math.random].  [respond n m b] is what the [n]-th
    [invokeModel] call, for model [m] with body [b], leads to once awaited,
    decoded and parsed: the parsed [responseBody], or the exception of a
    rejected call or of [JSON.parse].  [atob] is the browser's. *)
Record Browser : Type := mkBrowser {
  random : nat -> JsNumber.number;
  respond : nat -> string -> value -> outcome value;
  atob : value -> outcome string
}.

(** The same form with another size selected. *)
Definition withSize (f : Form) (size : JsNumber.number) : Form :=
  mkForm (world_context f) (world_style f) (negative_prompt f) (char_name f)
    (char_role f) (char_description f) (model_select f) size (prompt_frame f).

Definition setPage (f : Page -> Page) (w : World) : World :=
  mkWorld (awsCredentials w) (randomCalls w) (invocations w) (f (page w)).

Definition setStatus (text cls : string) (p : Page) : Page :=
  mkPage text cls (errorText p) (errorShown p) (loadingShown p)
    (generateDisabled p) (resultImage p) (generatorShown p) (resultsShown p).

Definition setError (text : string) (p : Page) : Page :=
  mkPage (statusText p) (statusClass p) text true (loadingShown p)
    (generateDisabled p) (resultImage p) (generatorShown p) (resultsShown p).

Definition hideError (p : Page) : Page :=
  mkPage (statusText p) (statusClass p) (errorText p) false (loadingShown p)
    (generateDisabled p) (resultImage p) (generatorShown p) (resultsShown p).

Definition setBusy (b : bool) (p : Page) : Page :=
  mkPage (statusText p) (statusClass p) (errorText p) (errorShown p) b
    b (resultImage p) (generatorShown p) (resultsShown p).

Definition setResult (bytes : list byte) (p : Page) : Page :=
  mkPage (statusText p) (statusClass p) (errorText p) (errorShown p)
    (loadingShown p) (generateDisabled p) (Some bytes) false true.

End Dom.

(* ================================================================== *)
(** ** The application: [buildPrompt], [generateImage], [handleGenerate] *)
(* ================================================================== *)

Module App.
Import Js Dom JsString.

(** The line feed of a template literal. *)
Definition LF : string := String "010" EmptyString.

(** [buildPrompt(context, style, name, role, description, frame)]: the
    template literal, piece by piece. *)
Definition buildPrompt (context style name role description frame : string)
  : string :=
  frame ++ LF
  ++ LF
  ++ "Character: " ++ name ++ ", " ++ role ++ "." ++ LF
  ++ description ++ LF
  ++ LF
  ++ "Setting: " ++ join (slice (split context ".") 0 2) "." ++ "." ++ LF
  ++ LF
  ++ "Style: " ++ style.

(** Computations that read and write the [World] and may throw. *)
Definition M (A : Type) : Type := World -> outcome A * World.

Definition ret {A : Type} (a : A) : M A := fun w => (Ok a, w).

Definition bind {A B : Type} (m : M A) (k : A -> M B) : M B :=
  fun w =>
    match m w with
    | (Ok a, w') => k a w'
    | (Throw e, w') => (Throw e, w')
    end.

(** A step that throws or returns without touching the world. *)
Definition lift {A : Type} (r : outcome A) : M A := fun w => (r, w).

(** Sequencing of property reads. *)
Definition andThen {A B : Type} (r : outcome A) (k : A -> outcome B)
  : outcome B :=
  match r with
  | Ok a => k a
  | Throw e => Throw e
  end.

Notation "x <- m ;; k" := (bind m (fun x => k))
  (at level 61, m at next level, right associativity).
Notation "x <~ r ;; k" := (andThen r (fun x => k))
  (at level 61, r at next level, right associativity).

Section WithBrowser.

Variable br : Browser.

(** [Math.random()] *)
Definition Math_random : M JsNumber.number :=
  fun w =>
    (Ok (random br (randomCalls w)),
     mkWorld (awsCredentials w) (S (randomCalls w)) (invocations w) (page w)).

(** [Math.floor(Math.random() * n)] *)
Definition randomBelow (n : Z) : M JsNumber.number :=
  u <- Math_random ;;
  ret (JsNumber.Math_floor (JsNumber.mul u (JsNumber.ofZ n))).

(** [await bedrock.invokeModel({modelId, body: JSON.stringify(requestBody),
    ...}).promise()] followed by [JSON.parse(new TextDecoder().decode(
    response.body))]: the call is recorded, then answered by the
    environment. *)
Definition invokeModel (model : string) (requestBody : value) : M value :=
  fun w =>
    (respond br (List.length (invocations w)) model requestBody,
     mkWorld (awsCredentials w) (randomCalls w)
       (invocations w ++ [mkInvocation model requestBody])%list (page w)).

(** The first half of [generateImage]: the [requestBody] variable once the
    [if]/[else if]/[else] chain has run. *)
Definition requestBody (model prompt negative : string) : M value :=
  if startsWith model "amazon.titan" then
    seed <- randomBelow 2147483646 ;;
    let requestBody :=
      Obj [ ("taskType", Str "TEXT_IMAGE");
            ("textToImageParams",
               Obj [ ("text", Str (substring prompt 0 512)) ]);
            ("imageGenerationConfig",
               Obj [ ("numberOfImages", Num (JsNumber.ofZ 1));
                     ("quality", Str "premium");
                     ("height", Num (JsNumber.ofZ 1024));
                     ("width", Num (JsNumber.ofZ 1024));
                     ("cfgScale", Num (JsNumber.ofZ 8));
                     ("seed", Num seed) ]) ] in
    if nonEmpty negative then
      ret (update requestBody "textToImageParams"
             (fun params =>
                set params "negativeText" (Str (substring negative 0 512))))
    else ret requestBody
  else if startsWith model "stability.sd3" then
    seed <- randomBelow 4294967294 ;;
    let requestBody :=
      Obj [ ("prompt", Str (substring prompt 0 10000));
            ("mode", Str "text-to-image");
            ("aspect_ratio", Str "1:1");
            ("output_format", Str "png");
            ("seed", Num seed) ] in
    if nonEmpty negative then
      ret (set requestBody "negative_prompt" (Str negative))
    else ret requestBody
  else
    seed <- randomBelow 4294967294 ;;
    let requestBody :=
      Obj [ ("text_prompts",
               Arr [ Obj [ ("text", Str (substring prompt 0 2000));
                           ("weight", Num (JsNumber.ofZ 1)) ] ]);
            ("cfg_scale", Num (JsNumber.ofZ 7));
            ("seed", Num seed);
            ("steps", Num (JsNumber.ofZ 50));
            ("width", Num (JsNumber.ofZ 1024));
            ("height", Num (JsNumber.ofZ 1024)) ] in
    if nonEmpty negative then
      ret (update requestBody "text_prompts"
             (fun prompts =>
                push prompts (Obj [ ("text", Str negative);
                                    ("weight", Num (JsNumber.ofZ (-1))) ])))
    else ret requestBody.

(** The second half: the [base64Image] variable, or the thrown error. *)
Definition base64Image (responseBody : value) : outcome value :=
  images <~ get responseBody "images" ;;
  if truthy images then
    index images 0
  else
    artifacts <~ get responseBody "artifacts" ;;
    if truthy artifacts then
      first <~ index artifacts 0 ;;
      get first "base64"
    else Throw (Error "No image in response").

(** [Uint8Array.from(binary, c => c.charCodeAt(0))] *)
Definition Uint8Array_from (binary : string) : list byte :=
  list_byte_of_string binary.

(** [generateImage(modelId, prompt, negative, size)] *)
Definition generateImage (model prompt negative : string)
    (size : JsNumber.number) : M (list byte) :=
  body <- requestBody model prompt negative ;;
  responseBody <- invokeModel model body ;;
  base64 <- lift (base64Image responseBody) ;;
  binary <- lift (atob br base64) ;;
  ret (Uint8Array_from binary).

(** [showStatus(message, type)], [showError(message)],
    [displayResult(imageBytes)] *)
Definition showStatus (msg type : string) (w : World) : World :=
  setPage (setStatus msg ("status " ++ type)) w.

Definition showError (msg : string) (w : World) : World :=
  setPage (setError msg) w.

Definition displayResult (imageBytes : list byte) (w : World) : World :=
  setPage (setResult imageBytes) w.

(** [handleGenerate()], on the form as the user left it.  The function
    returns nothing and lets no exception out: its effect is the new
    world. *)
Definition handleGenerate (f : Form) (w : World) : World :=
  match awsCredentials w with
  | None =>
      showStatus "Not connected. Please enter your AWS credentials." "error" w
  | Some _ =>
      if negb (nonEmpty (world_context f))
         || negb (nonEmpty (world_style f))
         || negb (nonEmpty (char_name f))
      then showError "Please fill in world context, style, and character name" w
      else
        let prompt :=
          buildPrompt (world_context f) (world_style f) (char_name f)
            (char_role f) (char_description f) (prompt_frame f) in
        let w1 := setPage hideError (setPage (setBusy true) w) in
        let (result, w2) :=
          generateImage (model_select f) prompt (negative_prompt f)
            (size_select f) w1 in
        let w3 :=
          match result with
          | Ok imageBytes => displayResult imageBytes w2
          | Throw err =>
              showError (if nonEmpty (message err) then message err
                         else "Generation failed") w2
          end in
        setPage (setBusy false) w3
  end.

End WithBrowser.

End App.

(* ================================================================== *)
(** ** Reading a request body back

    The three wire formats keep the prompt, the negative prompt and the seed
    in different places; these are the paths, per branch of the
    [if]/[else if]/[else] chain of [generateImage]. *)
(* ================================================================== *)

Module Wire.
Import Js JsString App.

Inductive Adapter : Type := Titan | SD35 | SDXL.

(** The branch [generateImage] takes for a model id. *)
Definition adapterFor (model : string) : Adapter :=
  if startsWith model "amazon.titan" then Titan
  else if startsWith model "stability.sd3" then SD35
  else SDXL.

(** The second argument of [prompt.substring(0, _)] in each branch. *)
Definition promptLimit (a : Adapter) : nat :=
  match a with
  | Titan => 512
  | SD35 => 10000
  | SDXL => 2000
  end.

(** The factor of [Math.random()] in each branch. *)
Definition seedFactor (a : Adapter) : Z :=
  match a with
  | Titan => 2147483646
  | SD35 | SDXL => 4294967294
  end.

(** Where the prompt text sits. *)
Definition promptText (a : Adapter) (req : value) : outcome value :=
  match a with
  | Titan => params <~ get req "textToImageParams" ;; get params "text"
  | SD35 => get req "prompt"
  | SDXL =>
      prompts <~ get req "text_prompts" ;;
      first <~ index prompts 0 ;;
      get first "text"
  end.

(** Where the seed sits. *)
Definition seedOf (a : Adapter) (req : value) : outcome value :=
  match a with
  | Titan => config <~ get req "imageGenerationConfig" ;; get config "seed"
  | SD35 | SDXL => get req "seed"
  end.

(** Where the size sits: Titan keeps [height] and [width] in
    [imageGenerationConfig], SDXL at the top of the request; SD3.5 has no
    such property (reading it gives [undefined]), only [aspect_ratio]. *)
Definition heightOf (a : Adapter) (req : value) : outcome value :=
  match a with
  | Titan => config <~ get req "imageGenerationConfig" ;; get config "height"
  | SD35 | SDXL => get req "height"
  end.

Definition widthOf (a : Adapter) (req : value) : outcome value :=
  match a with
  | Titan => config <~ get req "imageGenerationConfig" ;; get config "width"
  | SD35 | SDXL => get req "width"
  end.

(** The world after one more call of [Math.random]. *)
Definition afterDraw (w : Dom.World) : Dom.World :=
  Dom.mkWorld (Dom.awsCredentials w) (S (Dom.randomCalls w))
    (Dom.invocations w) (Dom.page w).

(** The seed a branch computes from the double [u] that [Math.random]
    returned. *)
Definition seedFrom (a : Adapter) (u : JsNumber.number) : JsNumber.number :=
  JsNumber.Math_floor (JsNumber.mul u (JsNumber.ofZ (seedFactor a))).

(** What [generateImage] makes of the reply to its request: the second half
    of the function, exceptions included. *)
Definition decoded (br : Dom.Browser) (reply : outcome value)
  : outcome (list byte) :=
  responseBody <~ reply ;;
  base64 <~ base64Image responseBody ;;
  binary <~ Dom.atob br base64 ;;
  Ok (Uint8Array_from binary).

(** The positive and the negative entry of SDXL's [text_prompts]. *)
Definition weighted (text : string) (weight : Z) : value :=
  Obj [ ("text", Str text); ("weight", Num (JsNumber.ofZ weight)) ].

End Wire.

(* ================================================================== *)
(** ** A concrete browser, for running the pipeline on examples *)
(* ================================================================== *)

Module Demo.
Import Js Dom.

(** The value of a base64 digit. *)
Definition sextet (c : ascii) : option N :=
  let n := N_of_ascii c in
  if ((65 <=? n) && (n <=? 90))%N then Some (n - 65)%N
  else if ((97 <=? n) && (n <=? 122))%N then Some (n - 71)%N
  else if ((48 <=? n) && (n <=? 57))%N then Some (n + 4)%N
  else if (n =? 43)%N then Some 62%N
  else if (n =? 47)%N then Some 63%N
  else None.

Fixpoint sextets (s : string) : option (list N) :=
  match s with
  | EmptyString => Some []
  | String c rest =>
      match sextet c, sextets rest with
      | Some d, Some ds => Some (d :: ds)
      | _, _ => None
      end
  end.

(** Four digits give three bytes; a last group of three gives two, of two
    gives one. *)
Fixpoint octets (ds : list N) : string :=
  match ds with
  | a :: b :: c :: d :: rest =>
      let n := (a * 262144 + b * 4096 + c * 64 + d)%N in
      String (ascii_of_N (n / 65536))
        (String (ascii_of_N ((n / 256) mod 256))
           (String (ascii_of_N (n mod 256)) (octets rest)))
  | [a; b; c] =>
      let n := ((a * 4096 + b * 64 + c) / 4)%N in
      String (ascii_of_N (n / 256)) (String (ascii_of_N (n mod 256)) EmptyString)
  | [a; b] => String (ascii_of_N ((a * 64 + b) / 16)) EmptyString
  | _ => EmptyString
  end.

Fixpoint dropWhitespace (s : string) : string :=
  match s with
  | EmptyString => EmptyString
  | String c rest =>
      let n := N_of_ascii c in
      if ((n =? 9) || (n =? 10) || (n =? 12) || (n =? 13) || (n =? 32))%N
      then dropWhitespace rest
      else String c (dropWhitespace rest)
  end.

(** Removes one or two [=] from the end. *)
Definition dropPadding (s : string) : string :=
  let n := String.length s in
  if String.eqb (String.substring (n - 2) 2 s) "==" then String.substring 0 (n - 2) s
  else if String.eqb (String.substring (n - 1) 1 s) "=" then String.substring 0 (n - 1) s
  else s.

Definition InvalidCharacterError : exn :=
  mkExn "InvalidCharacterError"
    "Failed to execute 'atob' on 'Window': The string to be decoded is not correctly encoded.".

(** [atob] on a string argument (forgiving base64 decoding). *)
Definition atobString (s : string) : outcome string :=
  let s := dropWhitespace s in
  let s := if (String.length s mod 4 =? 0)%nat then dropPadding s else s in
  if (String.length s mod 4 =? 1)%nat then Throw InvalidCharacterError
  else match sextets s with
       | Some ds => Ok (octets ds)
       | None => Throw InvalidCharacterError
       end.

(** [atob] of the demo browser.  A string is decoded; [undefined], [null],
    a boolean, a plain object, an empty array and an array of one string are
    decoded from the string [atob] first turns them into.  Numbers and other
    arrays, which a browser would print first, are refused here. *)
Definition atob (v : value) : outcome string :=
  match v with
  | Str s => atobString s
  | Undefined => atobString "undefined"
  | Null => atobString "null"
  | Bool b => atobString (if b then "true" else "false")
  | Obj _ => atobString "[object Object]"
  | Arr [] => atobString ""
  | Arr [Str s] => atobString s
  | _ => Throw InvalidCharacterError
  end.

(** One half, and the largest double below one. *)
Definition half : JsNumber.number := S754_finite false 4503599627370496 (-53).
Definition almostOne : JsNumber.number := S754_finite false 9007199254740991 (-53).

(** A Titan-style and an SDXL-style reply carrying the given base64 text. *)
Definition imagesReply (b64 : string) : value := Obj [("images", Arr [Str b64])].
Definition artifactsReply (b64 : string) : value :=
  Obj [("artifacts", Arr [Obj [("base64", Str b64); ("finishReason", Str "SUCCESS")]])].

(** A backend that paints a different picture on every call: base64
    ["QUJD"] (bytes ABC) first, ["WFla"] (bytes XYZ) afterwards. *)
Definition browser : Browser :=
  mkBrowser
    (fun n => match n with O => half | _ => almostOne end)
    (fun n _ _ => Ok (imagesReply (match n with O => "QUJD" | _ => "WFla" end)))
    atob.

(** A backend whose replies carry no image: the parsed body is [{}]. *)
Definition imagelessBrowser : Browser :=
  mkBrowser (fun _ => half) (fun _ _ _ => Ok (Obj [])) atob.

(** A reply whose [images] property is there, holding [null], beside an
    [artifacts] array. *)
Definition nullImagesReply (b64 : string) : value :=
  Obj [("images", Null); ("artifacts", Arr [Obj [("base64", Str b64)]])].

Definition titanModel : string := "amazon.titan-image-generator-v1".
Definition sd35Model : string := "stability.sd3-5-large-v1:0".
Definition sdxlModel : string := "stability.stable-diffusion-xl-v1".

Definition emptyPage : Page :=
  mkPage "" "" "" false false false None true false.

(** A connected session in which nothing has happened yet. *)
Definition connected : World :=
  mkWorld (Some ("AKIAEXAMPLE", "secret")) 0 [] emptyPage.

Definition tessa (frame context : string) (size : Z) : Form :=
  mkForm context
    "Clean sci-fi cartoon portraits"
    "text, watermark"
    "Tessa Quark" "Digger" "Optimistic smuggler-mechanic"
    titanModel
    (JsNumber.ofZ size)
    frame.

Definition stationContext : string :=
  "A far-future station. Humans trade lemonade. Second sentence. Third sentence.".

End Demo.

(* ================================================================== *)
(** ** More of the string library: [trim], [toLowerCase], [replace]

    These three look at what a code unit is, not only at whether two units
    are equal.  The strings of the model are those whose code units are
    below 256 (one [ascii] per unit); on them the functions are as follows. *)
(* ================================================================== *)

Module JsText.

(** White space and line terminators, the units [trim] strips and [\s]
    matches: TAB, LF, VT, FF, CR, SPACE and NO-BREAK SPACE (the others
    lie above 255). *)
Definition isWhiteSpace (c : ascii) : bool :=
  let n := nat_of_ascii c in
  (((9 <=? n) && (n <=? 13)) || (n =? 32) || (n =? 160))%nat.

(** [s.trimStart()] *)
Fixpoint trimStart (s : string) : string :=
  match s with
  | EmptyString => EmptyString
  | String c rest => if isWhiteSpace c then trimStart rest else s
  end.

(** [s.trimEnd()] *)
Fixpoint trimEnd (s : string) : string :=
  match s with
  | EmptyString => EmptyString
  | String c rest =>
      match trimEnd rest with
      | EmptyString => if isWhiteSpace c then EmptyString else String c EmptyString
      | kept => String c kept
      end
  end.

(** [s.trim()] *)
Definition trim (s : string) : string := trimEnd (trimStart s).

(** The lower-case unit of a unit: A to Z, and the capital letters of
    Latin-1 (U+00C0 to U+00DE but the multiplication sign U+00D7), move up
    by 32. *)
Definition lowerUnit (c : ascii) : ascii :=
  let n := nat_of_ascii c in
  if (((65 <=? n) && (n <=? 90))
      || ((192 <=? n) && (n <=? 222) && negb (n =? 215)))%nat
  then ascii_of_nat (n + 32)
  else c.

(** [s.toLowerCase()] *)
Fixpoint toLowerCase (s : string) : string :=
  match s with
  | EmptyString => EmptyString
  | String c rest => String (lowerUnit c) (toLowerCase rest)
  end.

(** [s.replace(/\s+/g, by)] for a [by] without [$], as the ['_'] of
    [handleDownload]: every maximal run of white space becomes one copy of
    [by]. *)
Fixpoint replaceWhiteSpaceRuns (s : string) (by_ : string) : string :=
  match s with
  | EmptyString => EmptyString
  | String c rest =>
      if isWhiteSpace c then
        match rest with
        | String d _ =>
            if isWhiteSpace d then replaceWhiteSpaceRuns rest by_
            else by_ ++ replaceWhiteSpaceRuns rest by_
        | EmptyString => by_
        end
      else String c (replaceWhiteSpaceRuns rest by_)
  end.

(** Every unit is white space. *)
Fixpoint blank (s : string) : bool :=
  match s with
  | EmptyString => true
  | String c rest => isWhiteSpace c && blank rest
  end.

(** No unit is white space. *)
Fixpoint spaceless (s : string) : bool :=
  match s with
  | EmptyString => true
  | String c rest => negb (isWhiteSpace c) && spaceless rest
  end.

End JsText.

(* ================================================================== *)
(** ** The rest of the page: connecting, disconnecting, downloading

    [handleConnect], [handleDisconnect], [showConnectedState],
    [showDisconnectedState], [handleDownload] and the listeners of
    [attachEventListeners], on a state that adds to the [World] what these
    functions read and write.  A handler is run to its end, the answer to
    its [await] included, before the next event is looked at: an event that
    arrives while a request is pending is outside the model.  The two
    buttons that show and hide the keys change nothing the other functions
    read and are left out. *)
(* ================================================================== *)

Module Console.
Import Js Dom JsString JsText App.

(** One call of [bedrock.listFoundationModels], with the region and the
    credentials the SDK was configured with. *)
Record Validation : Type := mkValidation {
  valRegion : string;
  valAccessKeyId : string;
  valSecretAccessKey : string
}.

(** One download started by a click on the temporary link. *)
Record Download : Type := mkDownload {
  fileName : string;               (* a.download *)
  content : list byte              (* the blob behind a.href *)
}.

Record Site : Type := mkSite {
  world : World;
  awsRegion : option string;                 (* the module-level awsRegion *)
  sdkRegion : option string;                 (* AWS.config.region *)
  sdkCredentials : option (string * string); (* AWS.config.credentials *)
  regionField : string;                      (* #aws-region *)
  accessKeyField : string;                   (* #access-key-id *)
  secretKeyField : string;                   (* #secret-access-key *)
  form : Form;                               (* the generator's fields *)
  credentialsFormShown : bool;               (* credentialsForm is displayed *)
  connectedViewShown : bool;                 (* connectedView is displayed *)
  connectedRegion : string;                  (* connectedRegion.textContent *)
  validations : list Validation;             (* calls made, oldest first *)
  downloads : list Download                  (* downloads started, oldest first *)
}.

(** What [await bedrock.listFoundationModels(...).promise()] leads to on
    its [n]-th call: it resolves (the models are not looked at) or rejects. *)
Record Aws : Type := mkAws {
  listFoundationModels : nat -> Validation -> outcome unit
}.

Definition withWorld (w : World) (s : Site) : Site :=
  mkSite w (awsRegion s) (sdkRegion s) (sdkCredentials s) (regionField s)
    (accessKeyField s) (secretKeyField s) (form s) (credentialsFormShown s)
    (connectedViewShown s) (connectedRegion s) (validations s) (downloads s).

(** [awsCredentials = c; awsRegion = r] *)
Definition setAccount (c : option (string * string)) (r : option string)
    (s : Site) : Site :=
  mkSite (mkWorld c (randomCalls (world s)) (invocations (world s))
            (page (world s)))
    r (sdkRegion s) (sdkCredentials s) (regionField s)
    (accessKeyField s) (secretKeyField s) (form s) (credentialsFormShown s)
    (connectedViewShown s) (connectedRegion s) (validations s) (downloads s).

(** [AWS.config.update({region, credentials})] and
    [AWS.config.credentials = null] *)
Definition setSdk (r : option string) (c : option (string * string))
    (s : Site) : Site :=
  mkSite (world s) (awsRegion s) r c (regionField s)
    (accessKeyField s) (secretKeyField s) (form s) (credentialsFormShown s)
    (connectedViewShown s) (connectedRegion s) (validations s) (downloads s).

Definition setCredentialFields (region accessKey secretKey : string)
    (s : Site) : Site :=
  mkSite (world s) (awsRegion s) (sdkRegion s) (sdkCredentials s) region
    accessKey secretKey (form s) (credentialsFormShown s)
    (connectedViewShown s) (connectedRegion s) (validations s) (downloads s).

Definition setForm (f : Form) (s : Site) : Site :=
  mkSite (world s) (awsRegion s) (sdkRegion s) (sdkCredentials s)
    (regionField s) (accessKeyField s) (secretKeyField s) f
    (credentialsFormShown s) (connectedViewShown s) (connectedRegion s)
    (validations s) (downloads s).

Definition setGeneratorShown (b : bool) (p : Page) : Page :=
  mkPage (statusText p) (statusClass p) (errorText p) (errorShown p)
    (loadingShown p) (generateDisabled p) (resultImage p) b (resultsShown p).

Definition setResultsShown (b : bool) (p : Page) : Page :=
  mkPage (statusText p) (statusClass p) (errorText p) (errorShown p)
    (loadingShown p) (generateDisabled p) (resultImage p) (generatorShown p) b.

(** [showStatus] of the application, on the larger state. *)
Definition showStatus (msg type : string) (s : Site) : Site :=
  withWorld (App.showStatus msg type (world s)) s.

(** The template [(${awsRegion})]. *)
Definition regionLabel (r : option string) : string :=
  "(" ++ (match r with Some region => region | None => "null" end) ++ ")".

(** [showConnectedState()] *)
Definition showConnectedState (s : Site) : Site :=
  mkSite (setPage (setGeneratorShown true) (world s))
    (awsRegion s) (sdkRegion s) (sdkCredentials s) (regionField s)
    (accessKeyField s) (secretKeyField s) (form s)
    false true (regionLabel (awsRegion s)) (validations s) (downloads s).

(** [showDisconnectedState()] *)
Definition showDisconnectedState (s : Site) : Site :=
  mkSite (setPage (setResultsShown false)
            (setPage (setGeneratorShown false) (world s)))
    (awsRegion s) (sdkRegion s) (sdkCredentials s) (regionField s)
    (accessKeyField s) (secretKeyField s) (form s)
    true false (connectedRegion s) (validations s) (downloads s).

Section WithServices.

Variable br : Browser.
Variable aws : Aws.

(** The call of [listFoundationModels]: recorded, then answered. *)
Definition validate (s : Site) : outcome unit * Site :=
  let call :=
    mkValidation
      (match sdkRegion s with Some r => r | None => EmptyString end)
      (match sdkCredentials s with Some c => fst c | None => EmptyString end)
      (match sdkCredentials s with Some c => snd c | None => EmptyString end) in
  (listFoundationModels aws (List.length (validations s)) call,
   mkSite (world s) (awsRegion s) (sdkRegion s) (sdkCredentials s)
     (regionField s) (accessKeyField s) (secretKeyField s) (form s)
     (credentialsFormShown s) (connectedViewShown s) (connectedRegion s)
     (validations s ++ [call])%list (downloads s)).

(** [handleConnect()] *)
Definition handleConnect (s : Site) : Site :=
  let region := regionField s in
  let accessKeyId := trim (accessKeyField s) in
  let secretAccessKey := trim (secretKeyField s) in
  if negb (nonEmpty accessKeyId) || negb (nonEmpty secretAccessKey) then
    showStatus "Please enter both Access Key ID and Secret Access Key" "error" s
  else if negb (startsWith accessKeyId "AKIA")
          && negb (startsWith accessKeyId "ASIA") then
    showStatus "Access Key ID should start with AKIA or ASIA" "error" s
  else
    let s1 := showStatus "Validating credentials..." "" s in
    let s2 := setSdk (Some region) (Some (accessKeyId, secretAccessKey)) s1 in
    match validate s2 with
    | (Ok _, s3) =>
        let s4 :=
          setAccount (Some (accessKeyId, secretAccessKey)) (Some region) s3 in
        showStatus "Connected successfully" "success" (showConnectedState s4)
    | (Throw err, s3) =>
        let s4 :=
          showStatus
            ("Connection failed: "
               ++ (if nonEmpty (message err) then message err
                   else "Invalid credentials"))
            "error" s3 in
        setAccount None None s4
    end.

(** [handleDisconnect()] *)
Definition handleDisconnect (s : Site) : Site :=
  let s1 := setAccount None None s in
  let s2 := setSdk (sdkRegion s1) None s1 in
  let s3 := setCredentialFields (regionField s2) "" "" s2 in
  showStatus "Disconnected" "" (showDisconnectedState s3).

(** [handleGenerate()], reading the generator's fields. *)
Definition handleGenerate (s : Site) : Site :=
  withWorld (App.handleGenerate br (form s) (world s)) s.

(** The name [handleDownload] gives the file. *)
Definition downloadName (charName : string) : string :=
  let charName := if nonEmpty charName then charName else "portrait" in
  let safeName := replaceWhiteSpaceRuns (toLowerCase charName) "_" in
  safeName ++ "_portrait.png".

(** [handleDownload()]: [resultImage.dataset.blob] is set together with
    [resultImage.src], by [displayResult]. *)
Definition handleDownload (s : Site) : Site :=
  match resultImage (page (world s)) with
  | None => s
  | Some blob =>
      mkSite (world s) (awsRegion s) (sdkRegion s) (sdkCredentials s)
        (regionField s) (accessKeyField s) (secretKeyField s) (form s)
        (credentialsFormShown s) (connectedViewShown s) (connectedRegion s)
        (validations s)
        (downloads s ++ [mkDownload (downloadName (char_name (form s))) blob])%list
  end.

(** The listener of [regenerateBtn]. *)
Definition regenerate (s : Site) : Site :=
  withWorld
    (setPage (setGeneratorShown true)
       (setPage (setResultsShown false) (world s))) s.

(** What can happen to the page: the clicks and the key press that
    [attachEventListeners] listens to, and the user editing the fields. *)
Inductive Event : Type :=
| ClickConnect
| ClickDisconnect
| ClickGenerate
| ClickDownload
| ClickRegenerate
| KeypressSecretKey (key : string)
| EditCredentials (region accessKey secretKey : string)
| EditForm (f : Form).

Definition dispatch (s : Site) (ev : Event) : Site :=
  match ev with
  | ClickConnect => handleConnect s
  | ClickDisconnect => handleDisconnect s
  | ClickGenerate => handleGenerate s
  | ClickDownload => handleDownload s
  | ClickRegenerate => regenerate s
  | KeypressSecretKey key =>
      if String.eqb key "Enter" then handleConnect s else s
  | EditCredentials region accessKey secretKey =>
      setCredentialFields region accessKey secretKey s
  | EditForm f => setForm f s
  end.

(** The page after a sequence of events, first to last. *)
Definition run (events : list Event) (s : Site) : Site :=
  fold_left dispatch events s.

End WithServices.

End Console.

(* ================================================================== *)
(** ** Notions the properties are stated with *)
(* ================================================================== *)

Module Observations.
Import Js Dom JsString JsText App Console.

(** The message [handleGenerate] shows for an exception:
    [err.message || 'Generation failed']. *)
Definition shownMessage (err : exn) : string :=
  if nonEmpty (message err) then message err else "Generation failed".

(** The keys pass the two checks [handleConnect] makes before it calls AWS. *)
Definition wellFormedKeys (key secret : string) : bool :=
  nonEmpty key && nonEmpty secret
  && (startsWith key "AKIA" || startsWith key "ASIA").

(** The account the page holds agrees with everything derived from it. *)
Definition accountConsistent (s : Site) : Prop :=
  match awsCredentials (world s) with
  | Some (key, secret) =>
      wellFormedKeys key secret = true
      /\ trim key = key /\ trim secret = secret
      /\ sdkCredentials s = Some (key, secret)
      /\ (exists region,
            awsRegion s = Some region /\ sdkRegion s = Some region
            /\ connectedRegion s = "(" ++ region ++ ")")
      /\ connectedViewShown s = true
      /\ credentialsFormShown s = false
  | None => awsRegion s = None
  end.

(** Nothing is in progress: the button is enabled, the spinner hidden. *)
Definition idle (s : Site) : Prop :=
  generateDisabled (page (world s)) = false
  /\ loadingShown (page (world s)) = false.

(** The results section is not shown without an image in it. *)
Definition resultsBacked (s : Site) : Prop :=
  resultsShown (page (world s)) = true -> resultImage (page (world s)) <> None.

(** The events that run [handleGenerate], and those that run
    [handleConnect]. *)
Definition isGenerate (ev : Event) : bool :=
  match ev with ClickGenerate => true | _ => false end.

Definition isConnect (ev : Event) : bool :=
  match ev with
  | ClickConnect => true
  | KeypressSecretKey key => String.eqb key "Enter"
  | _ => false
  end.

(** What a validation call was made with passed the local checks, as
    typed and after trimming. *)
Definition checkedCall (v : Validation) : Prop :=
  wellFormedKeys (valAccessKeyId v) (valSecretAccessKey v) = true
  /\ trim (valAccessKeyId v) = valAccessKeyId v
  /\ trim (valSecretAccessKey v) = valSecretAccessKey v.

End Observations.

(* ================================================================== *)
(** ** A visit to the page, for the examples *)
(* ================================================================== *)

Module Visit.
Import Js Dom JsString App Console.

(** AWS accepts every key, or none. *)
Definition accepting : Aws := mkAws (fun _ _ => Ok tt).
Definition refusing : Aws :=
  mkAws (fun _ _ =>
           Throw (mkExn "UnrecognizedClientException"
                    "The security token included in the request is invalid.")).

(** A backend that refuses every call, one that answers in the SDXL
    format, and one whose [artifacts] array is empty. *)
Definition rejectingBrowser : Browser :=
  mkBrowser (fun _ => Demo.half)
    (fun _ _ _ => Throw (mkExn "AccessDeniedException" "Access denied"))
    Demo.atob.

(** A backend that paints a different picture on every call, as
    [Demo.browser] does, behind a [Math.random] that returns one half every
    time: two generations then carry the same seed. *)
Definition sameDrawBrowser : Browser :=
  mkBrowser (fun _ => Demo.half)
    (fun n _ _ =>
       Ok (Demo.imagesReply (match n with O => "QUJD" | _ => "WFla" end)))
    Demo.atob.

Definition artifactsBrowser : Browser :=
  mkBrowser (fun _ => Demo.half)
    (fun _ _ _ => Ok (Demo.artifactsReply "QUJD")) Demo.atob.

Definition emptyArtifactsBrowser : Browser :=
  mkBrowser (fun _ => Demo.half)
    (fun _ _ _ => Ok (Obj [("artifacts", Arr [])])) Demo.atob.

Definition portraitForm : Form :=
  Demo.tessa "Centered face icon." Demo.stationContext 512.

(** The page as a visitor finds it, with the two keys as typed. *)
Definition arrival (accessKey secretKey : string) : Site :=
  mkSite
    (mkWorld None 0 [] (mkPage "" "" "" false false false None false false))
    None None None "us-east-1" accessKey secretKey portraitForm
    true false "" [] [].

(** The page of a connected visitor. *)
Definition signedIn : Site :=
  mkSite Demo.connected (Some "us-east-1") (Some "us-east-1")
    (Some ("AKIAEXAMPLE", "secret")) "us-east-1" "AKIAEXAMPLE" "secret"
    portraitForm false true "(us-east-1)" [] [].

(** A frame of 600 code units. *)
Definition longFrame : string :=
  String.concat "" (List.repeat "Centered face icon. " 30).

End Visit.

(* ================================================================== *)
(** ** The page of [docs/]: signing in with Cognito

    The second copy of [app.js] obtains its credentials from a Cognito
    identity pool: [isConfigured] of [aws-config.js], the listener of
    [DOMContentLoaded], [initCognito], [showSignInForm], [handleSignIn],
    [handleSignUp], [handleSignedIn], [handleSignOut], [getAWSCredentials]
    and its own [handleGenerate].  The Cognito SDK calls back later; here a
    handler is run together with the callbacks it leads to, before the next
    event is looked at. *)
(* ================================================================== *)

Module Portal.
Import Js Dom JsString App.

(** The object [AWS_CONFIG] of [aws-config.js]. *)
Record Config : Type := mkConfig {
  region : string;
  userPoolId : string;
  userPoolClientId : string;
  identityPoolId : string;
  defaultModel : string
}.

(** The file as it is shipped. *)
Definition AWS_CONFIG : Config :=
  mkConfig "us-east-1" "YOUR_USER_POOL_ID" "YOUR_APP_CLIENT_ID"
    "YOUR_IDENTITY_POOL_ID" "amazon.titan-image-generator-v1".

(** A Cognito session: [session.isValid()] and
    [session.getIdToken().getJwtToken()]. *)
Record Login : Type := mkLogin {
  isValid : bool;
  jwtToken : string
}.

(** What [new AWS.CognitoIdentityCredentials] was given: the identity pool
    and the one entry of [Logins]. *)
Record Identity : Type := mkIdentity {
  pool : string;
  login : string;                 (* the key of the entry *)
  token : string                  (* its value, the id token *)
}.

(** Which callback [authenticateUser] ends up calling. *)
Inductive Answer : Type :=
| OnSuccess (session : Login)
| OnFailure (err : exn)
| NewPasswordRequired.

(** The Cognito SDK: the user the pool remembers and that user's session,
    and the answers to the [n]-th call of [authenticateUser], [signUp] and
    [refresh].  An error carries its message as a string. *)
Record Cognito : Type := mkCognito {
  getCurrentUser : option string;
  getSession : string -> outcome Login;
  authenticateUser : nat -> string -> string -> Answer;
  signUp : nat -> string -> string -> option exn;
  refresh : nat -> Identity -> option exn
}.

Record Screen : Type := mkScreen {
  world : World;        (* awsCredentials: the pool and token of the object held *)
  cognitoUser : option string;          (* the user name of [cognitoUser] *)
  sdkRegion : option string;            (* AWS.config.region *)
  sdkCredentials : option Identity;     (* AWS.config.credentials *)
  emailField : string;                  (* #email *)
  passwordField : string;               (* #password *)
  form : Form;                          (* the generator's fields *)
  signInFormShown : bool;
  signedInViewShown : bool;
  userEmail : string;                   (* userEmailSpan.textContent *)
  setupShown : bool;                    (* setupSection is displayed *)
  listening : bool;                     (* attachEventListeners has run *)
  authentications : list (string * string);  (* Username, Password *)
  signUps : list (string * string);
  refreshes : list Identity;
  signOuts : list string;               (* users signed out of the pool *)
  downloads : list Console.Download
}.

Definition withWorld (w : World) (s : Screen) : Screen :=
  mkScreen w (cognitoUser s) (sdkRegion s) (sdkCredentials s) (emailField s)
    (passwordField s) (form s) (signInFormShown s) (signedInViewShown s)
    (userEmail s) (setupShown s) (listening s) (authentications s) (signUps s)
    (refreshes s) (signOuts s) (downloads s).

Definition setUser (u : option string) (s : Screen) : Screen :=
  mkScreen (world s) u (sdkRegion s) (sdkCredentials s) (emailField s)
    (passwordField s) (form s) (signInFormShown s) (signedInViewShown s)
    (userEmail s) (setupShown s) (listening s) (authentications s) (signUps s)
    (refreshes s) (signOuts s) (downloads s).

Definition setSdk (r : option string) (c : option Identity) (s : Screen) :
    Screen :=
  mkScreen (world s) (cognitoUser s) r c (emailField s)
    (passwordField s) (form s) (signInFormShown s) (signedInViewShown s)
    (userEmail s) (setupShown s) (listening s) (authentications s) (signUps s)
    (refreshes s) (signOuts s) (downloads s).

Definition setLoginFields (email password : string) (s : Screen) : Screen :=
  mkScreen (world s) (cognitoUser s) (sdkRegion s) (sdkCredentials s) email
    password (form s) (signInFormShown s) (signedInViewShown s)
    (userEmail s) (setupShown s) (listening s) (authentications s) (signUps s)
    (refreshes s) (signOuts s) (downloads s).

Definition setForm (f : Form) (s : Screen) : Screen :=
  mkScreen (world s) (cognitoUser s) (sdkRegion s) (sdkCredentials s)
    (emailField s) (passwordField s) f (signInFormShown s)
    (signedInViewShown s) (userEmail s) (setupShown s) (listening s)
    (authentications s) (signUps s) (refreshes s) (signOuts s) (downloads s).

(** [signInForm.style.display] and [signedInView.style.display] *)
Definition setViews (signInForm signedInView : bool) (s : Screen) : Screen :=
  mkScreen (world s) (cognitoUser s) (sdkRegion s) (sdkCredentials s)
    (emailField s) (passwordField s) (form s) signInForm signedInView
    (userEmail s) (setupShown s) (listening s) (authentications s) (signUps s)
    (refreshes s) (signOuts s) (downloads s).

Definition setUserEmail (email : string) (s : Screen) : Screen :=
  mkScreen (world s) (cognitoUser s) (sdkRegion s) (sdkCredentials s)
    (emailField s) (passwordField s) (form s) (signInFormShown s)
    (signedInViewShown s) email (setupShown s) (listening s)
    (authentications s) (signUps s) (refreshes s) (signOuts s) (downloads s).

Definition setSetupShown (b : bool) (s : Screen) : Screen :=
  mkScreen (world s) (cognitoUser s) (sdkRegion s) (sdkCredentials s)
    (emailField s) (passwordField s) (form s) (signInFormShown s)
    (signedInViewShown s) (userEmail s) b (listening s)
    (authentications s) (signUps s) (refreshes s) (signOuts s) (downloads s).

Definition setListening (b : bool) (s : Screen) : Screen :=
  mkScreen (world s) (cognitoUser s) (sdkRegion s) (sdkCredentials s)
    (emailField s) (passwordField s) (form s) (signInFormShown s)
    (signedInViewShown s) (userEmail s) (setupShown s) b
    (authentications s) (signUps s) (refreshes s) (signOuts s) (downloads s).

(** What the calls of the SDK leave in the logs. *)
Definition setLogs (auths ups : list (string * string)) (refs : list Identity)
    (outs : list string) (s : Screen) : Screen :=
  mkScreen (world s) (cognitoUser s) (sdkRegion s) (sdkCredentials s)
    (emailField s) (passwordField s) (form s) (signInFormShown s)
    (signedInViewShown s) (userEmail s) (setupShown s) (listening s)
    auths ups refs outs (downloads s).

Definition setDownloads (ds : list Console.Download) (s : Screen) : Screen :=
  mkScreen (world s) (cognitoUser s) (sdkRegion s) (sdkCredentials s)
    (emailField s) (passwordField s) (form s) (signInFormShown s)
    (signedInViewShown s) (userEmail s) (setupShown s) (listening s)
    (authentications s) (signUps s) (refreshes s) (signOuts s) ds.

(** [awsCredentials = c] *)
Definition setCredentials (c : option (string * string)) (s : Screen) : Screen :=
  withWorld
    (mkWorld c (randomCalls (world s)) (invocations (world s)) (page (world s)))
    s.

Definition onPage (f : Page -> Page) (s : Screen) : Screen :=
  withWorld (setPage f (world s)) s.

(** [showStatus], writing to [authStatus]. *)
Definition showStatus (msg type : string) (s : Screen) : Screen :=
  withWorld (App.showStatus msg type (world s)) s.

(** [isConfigured()] *)
Definition isConfigured (c : Config) : bool :=
  negb (String.eqb (userPoolId c) "YOUR_USER_POOL_ID")
  && negb (String.eqb (userPoolClientId c) "YOUR_APP_CLIENT_ID")
  && negb (String.eqb (identityPoolId c) "YOUR_IDENTITY_POOL_ID").

(** [showSignInForm()] *)
Definition showSignInForm (s : Screen) : Screen :=
  onPage (Console.setGeneratorShown false) (setViews true false s).

Section WithServices.

Variable config : Config.
Variable br : Browser.
Variable cognito : Cognito.

(** [getAWSCredentials(session)] *)
Definition getAWSCredentials (session : Login) (s : Screen) : Screen :=
  let idToken := jwtToken session in
  let loginKey :=
    "cognito-idp." ++ region config ++ ".amazonaws.com/" ++ userPoolId config in
  let credentials := mkIdentity (identityPoolId config) loginKey idToken in
  let s1 := setSdk (Some (region config)) (Some credentials) s in
  let answer := refresh cognito (List.length (refreshes s1)) credentials in
  let s2 :=
    setLogs (authentications s1) (signUps s1)
      (refreshes s1 ++ [credentials])%list (signOuts s1) s1 in
  match answer with
  | Some err =>
      showStatus ("Failed to get AWS credentials: " ++ message err) "error" s2
  | None =>
      setCredentials
        (match sdkCredentials s2 with
         | Some held => Some (pool held, token held)
         | None => None
         end) s2
  end.

(** [handleSignedIn(user, session)] *)
Definition handleSignedIn (user : string) (session : Login) (s : Screen) :
    Screen :=
  let email := user in
  let s1 := setUserEmail email s in
  let s2 := setViews false true s1 in
  let s3 := onPage (Console.setGeneratorShown true) s2 in
  let s4 := showStatus "Signed in successfully" "success" s3 in
  getAWSCredentials session s4.

(** [initCognito()] *)
Definition initCognito (s : Screen) : Screen :=
  let s1 := setUser (getCurrentUser cognito) s in
  match cognitoUser s1 with
  | Some user =>
      match getSession cognito user with
      | Throw _ => showSignInForm s1
      | Ok session =>
          if negb (isValid session) then showSignInForm s1
          else handleSignedIn user session s1
      end
  | None => showSignInForm s1
  end.

(** The listener of [DOMContentLoaded]. *)
Definition load (s : Screen) : Screen :=
  if negb (isConfigured config) then
    setSetupShown true
      (showStatus "Please configure AWS Cognito in aws-config.js" "error" s)
  else
    setListening true (initCognito (setSetupShown false s)).

(** [handleSignIn()] *)
Definition handleSignIn (s : Screen) : Screen :=
  let email := emailField s in
  let password := passwordField s in
  if negb (nonEmpty email) || negb (nonEmpty password) then
    showStatus "Please enter email and password" "error" s
  else
    let s1 := setUser (Some email) s in
    let s2 := showStatus "Signing in..." "" s1 in
    let answer :=
      authenticateUser cognito (List.length (authentications s2)) email password in
    let s3 :=
      setLogs (authentications s2 ++ [(email, password)])%list (signUps s2)
        (refreshes s2) (signOuts s2) s2 in
    match answer with
    | OnSuccess session =>
        match cognitoUser s3 with      (* the user created above *)
        | Some user => handleSignedIn user session s3
        | None => s3
        end
    | OnFailure err =>
        showStatus
          (if nonEmpty (message err) then message err else "Sign in failed")
          "error" s3
    | NewPasswordRequired =>
        showStatus
          "New password required. Please use AWS Console to set password."
          "error" s3
    end.

(** [handleSignUp()] *)
Definition handleSignUp (s : Screen) : Screen :=
  let email := emailField s in
  let password := passwordField s in
  if negb (nonEmpty email) || negb (nonEmpty password) then
    showStatus "Please enter email and password" "error" s
  else
    let s1 := showStatus "Creating account..." "" s in
    let answer := signUp cognito (List.length (signUps s1)) email password in
    let s2 :=
      setLogs (authentications s1) (signUps s1 ++ [(email, password)])%list
        (refreshes s1) (signOuts s1) s1 in
    match answer with
    | Some err =>
        showStatus
          (if nonEmpty (message err) then message err else "Sign up failed")
          "error" s2
    | None =>
        showStatus "Account created! Check your email for verification code."
          "success" s2
    end.

(** [handleSignOut()] *)
Definition handleSignOut (s : Screen) : Screen :=
  let s1 :=
    match cognitoUser s with
    | Some user =>
        setLogs (authentications s) (signUps s) (refreshes s)
          (signOuts s ++ [user])%list s
    | None => s
    end in
  let s2 := setUser None s1 in
  let s3 := setCredentials None s2 in
  showStatus "Signed out" "" (showSignInForm s3).

(** [handleGenerate()] of this copy: its first message differs, the rest is
    the text of the other copy. *)
Definition handleGenerate (s : Screen) : Screen :=
  match awsCredentials (world s) with
  | None => showStatus "Not authenticated. Please sign in." "error" s
  | Some _ => withWorld (App.handleGenerate br (form s) (world s)) s
  end.

(** [handleDownload()] *)
Definition handleDownload (s : Screen) : Screen :=
  match resultImage (page (world s)) with
  | None => s
  | Some blob =>
      setDownloads
        (downloads s
           ++ [Console.mkDownload (Console.downloadName (char_name (form s))) blob])%list
        s
  end.

(** The listener of [regenerateBtn]. *)
Definition regenerate (s : Screen) : Screen :=
  onPage (Console.setGeneratorShown true)
    (onPage (Console.setResultsShown false) s).

(** What can happen once the page is loaded. *)
Inductive Event : Type :=
| ClickSignIn
| ClickSignUp
| ClickSignOut
| ClickGenerate
| ClickDownload
| ClickRegenerate
| KeypressPassword (key : string)
| EditLogin (email password : string)
| EditForm (f : Form).

(** A click or a key press reaches a handler only when
    [attachEventListeners] has run. *)
Definition heard (handler : Screen -> Screen) (s : Screen) : Screen :=
  if listening s then handler s else s.

Definition dispatch (s : Screen) (ev : Event) : Screen :=
  match ev with
  | ClickSignIn => heard handleSignIn s
  | ClickSignUp => heard handleSignUp s
  | ClickSignOut => heard handleSignOut s
  | ClickGenerate => heard handleGenerate s
  | ClickDownload => heard handleDownload s
  | ClickRegenerate => heard regenerate s
  | KeypressPassword key =>
      if String.eqb key "Enter" then heard handleSignIn s else s
  | EditLogin email password => setLoginFields email password s
  | EditForm f => setForm f s
  end.

(** The page after it has loaded and a sequence of events has been
    handled, first to last. *)
Definition visit (events : list Event) (s : Screen) : Screen :=
  fold_left dispatch events (load s).

End WithServices.

End Portal.

(* ================================================================== *)
(** ** Notions the properties of the second page are stated with *)
(* ================================================================== *)

Module Watch.
Import Js Dom JsString App Portal.

(** Between two states no account has appeared, no request was sent and
    the result image and the downloads are the same. *)
Definition quiet (before after : Screen) : Prop :=
  awsCredentials (world after) = None
  /\ invocations (world after) = invocations (world before)
  /\ resultImage (page (world after)) = resultImage (page (world before))
  /\ downloads after = downloads before.

(** The events that run [handleSignIn], and the one that runs
    [handleSignUp]. *)
Definition isSignIn (ev : Event) : bool :=
  match ev with
  | ClickSignIn => true
  | KeypressPassword key => String.eqb key "Enter"
  | _ => false
  end.

Definition isSignUp (ev : Event) : bool :=
  match ev with ClickSignUp => true | _ => false end.

(** Both the user name and the password are there. *)
Definition filledIn (entry : string * string) : Prop :=
  fst entry <> "" /\ snd entry <> "".

(** What the e-mail and password fields hold at each event of [which] kind
    in a sequence, the events at which one of the two is empty left out.
    [email] and [password] are what the fields hold at the start; only
    typing changes them. *)
Fixpoint typed (which : Event -> bool) (email password : string)
    (events : list Event) : list (string * string) :=
  match events with
  | [] => []
  | EditLogin email' password' :: rest => typed which email' password' rest
  | ev :: rest =>
      ((if which ev && nonEmpty email && nonEmpty password
        then [(email, password)] else [])
       ++ typed which email password rest)%list
  end.

End Watch.

(* ================================================================== *)
(** ** A visit to the second page, for the examples *)
(* ================================================================== *)

Module Guest.
Import Js Dom JsString App Portal.

(** [aws-config.js] filled in. *)
Definition configured : Config :=
  mkConfig "us-east-1" "us-east-1_EXAMPLE" "exampleclient"
    "us-east-1:example-pool" "amazon.titan-image-generator-v1".

(** Cognito remembers nobody and accepts every sign-in; the identity pool
    grants credentials, or refuses them. *)
Definition welcoming : Cognito :=
  mkCognito None (fun _ => Throw (Error "No session"))
    (fun _ _ _ => OnSuccess (mkLogin true "token"))
    (fun _ _ _ => None)
    (fun _ _ => None).

Definition poolless : Cognito :=
  mkCognito None (fun _ => Throw (Error "No session"))
    (fun _ _ _ => OnSuccess (mkLogin true "token"))
    (fun _ _ _ => None)
    (fun _ _ => Some (Error "Invalid identity pool configuration.")).

(** The page before it has loaded, with the sign-in fields as typed. *)
Definition doorstep (email password : string) : Screen :=
  mkScreen
    (mkWorld None 0 [] (mkPage "" "" "" false false false None false false))
    None None None email password Visit.portraitForm
    false false "" false false [] [] [] [] [].

End Guest.

(* ================================================================== *)
(** ** Facts about strings *)
(* ================================================================== *)

Module StringFacts.
Import JsString.

Lemma take_spec (s : string) (k : nat) :
  String.length (String.substring 0 k s) = Nat.min k (String.length s)
  /\ exists rest, s = String.substring 0 k s ++ rest.
Proof.
  revert k; induction s as [|c s IH]; intros [|k]; simpl.
  - split; [reflexivity | now exists EmptyString].
  - split; [reflexivity | now exists EmptyString].
  - split; [reflexivity | now exists (String c s)].
  - destruct (IH k) as [Hlen [rest Hrest]].
    split; [now rewrite Hlen | exists rest; now rewrite <- Hrest].
Qed.

Lemma take_all (s : string) (k : nat) :
  String.length s <= k -> String.substring 0 k s = s.
Proof.
  revert k; induction s as [|c s IH]; intros [|k] H; simpl in *;
    try reflexivity; try lia.
  f_equal; apply IH; lia.
Qed.

Lemma substring_from_0 (s : string) (n : nat) :
  substring s 0 n = String.substring 0 (Nat.min n (String.length s)) s.
Proof.
  unfold substring.
  rewrite Nat.min_0_l, Nat.max_0_l, Nat.sub_0_r; reflexivity.
Qed.

Lemma substring_length (s : string) (n : nat) :
  String.length (substring s 0 n) = Nat.min n (String.length s).
Proof.
  rewrite substring_from_0.
  destruct (take_spec s (Nat.min n (String.length s))) as [H _].
  rewrite H. apply Nat.min_l, Nat.le_min_r.
Qed.

Lemma substring_le (s : string) (n : nat) :
  String.length (substring s 0 n) <= n.
Proof. rewrite substring_length; apply Nat.le_min_l. Qed.

Lemma substring_prefix (s : string) (n : nat) :
  isPrefixOf (substring s 0 n) s.
Proof.
  rewrite substring_from_0.
  destruct (take_spec s (Nat.min n (String.length s))) as [_ H]; exact H.
Qed.

Lemma substring_short (s : string) (n : nat) :
  String.length s <= n -> substring s 0 n = s.
Proof.
  intros H; rewrite substring_from_0, Nat.min_r by exact H.
  apply take_all; constructor.
Qed.

Lemma nonEmpty_true (s : string) : nonEmpty s = true <-> s <> EmptyString.
Proof. destruct s; simpl; split; congruence. Qed.

Lemma nonEmpty_false (s : string) : nonEmpty s = false <-> s = EmptyString.
Proof. destruct s; simpl; split; congruence. Qed.

Lemma append_assoc (a b c : string) : (a ++ b) ++ c = a ++ (b ++ c).
Proof. induction a as [|x a IH]; simpl; [reflexivity | now rewrite IH]. Qed.

Lemma append_nil_r (a : string) : a ++ EmptyString = a.
Proof. induction a as [|x a IH]; simpl; [reflexivity | now rewrite IH]. Qed.

Lemma count_append (c : ascii) (a b : string) :
  count c (a ++ b) = count c a + count c b.
Proof.
  induction a as [|x a IH]; simpl; [reflexivity | rewrite IH; lia].
Qed.

(** *** [split], [slice], [join] *)

Lemma split_not_nil (s : string) (sep : ascii) : split s sep <> [].
Proof.
  destruct s as [|c s]; simpl; [discriminate|].
  destruct (Ascii.eqb c sep); [discriminate|].
  destruct (split s sep); discriminate.
Qed.

Lemma join_cons (p : string) (ps : list string) (sep : string) :
  ps <> [] -> join (p :: ps) sep = p ++ sep ++ join ps sep.
Proof. destruct ps; [congruence | reflexivity]. Qed.

(** Joining the pieces with the separator gives the string back. *)
Lemma join_split (s : string) (sep : ascii) :
  join (split s sep) (String sep EmptyString) = s.
Proof.
  induction s as [|c s IH]; simpl; [reflexivity|].
  destruct (Ascii.eqb_spec c sep) as [->|Hne].
  - rewrite join_cons by apply split_not_nil. simpl. now rewrite IH.
  - destruct (split s sep) as [|p ps] eqn:E.
    + now destruct (split_not_nil s sep).
    + destruct ps as [|q qs]; simpl in *; now rewrite <- IH.
Qed.

(** No piece contains the separator. *)
Lemma split_pieces (s : string) (sep : ascii) :
  Forall (fun p => count sep p = 0) (split s sep).
Proof.
  induction s as [|c s IH]; simpl.
  - constructor; [reflexivity | constructor].
  - destruct (Ascii.eqb c sep) eqn:E.
    + constructor; [reflexivity | exact IH].
    + destruct (split s sep) as [|p ps]; inversion IH; subst;
        constructor; simpl; try rewrite E; auto.
Qed.

(** The first two pieces joined: the whole string when it has at most one
    separator, and otherwise the part before its second separator. *)
Lemma join_first_two (s : string) (sep : ascii) :
  let head := join (slice (split s sep) 0 2) (String sep EmptyString) in
  (head = s /\ count sep s <= 1)
  \/ (count sep head = 1 /\ isPrefixOf (head ++ String sep EmptyString) s).
Proof.
  cbv zeta. unfold slice. simpl skipn. simpl Nat.sub.
  pose proof (join_split s sep) as J.
  pose proof (split_pieces s sep) as P.
  destruct (split s sep) as [|a [|b [|c rest]]].
  - left. simpl in *. subst s. split; [reflexivity | simpl; lia].
  - left. simpl in *. subst s. inversion P; subst. split; [reflexivity | lia].
  - left. simpl firstn. split; [exact J|].
    pose proof (Forall_inv P) as Ha.
    pose proof (Forall_inv (Forall_inv_tail P)) as Hb. simpl in Ha, Hb.
    rewrite <- J. simpl. rewrite count_append. simpl.
    rewrite Ascii.eqb_refl, Ha, Hb. lia.
  - right. simpl firstn.
    pose proof (Forall_inv P) as Ha.
    pose proof (Forall_inv (Forall_inv_tail P)) as Hb. simpl in Ha, Hb.
    split.
    + simpl. rewrite count_append. simpl. rewrite Ascii.eqb_refl, Ha, Hb. lia.
    + exists (join (c :: rest) (String sep EmptyString)).
      rewrite <- J.
      rewrite !join_cons by discriminate.
      simpl. rewrite !append_assoc. simpl. reflexivity.
Qed.

End StringFacts.

(* ================================================================== *)
(** ** Facts about doubles: rounding a product, flooring it *)
(* ================================================================== *)

Module FloatFacts.
Import JsNumber.
Open Scope Z_scope.

(** *** Bit lengths *)

Lemma digits2_size (p : positive) : digits2_pos p = Pos.size p.
Proof. induction p; simpl; congruence. Qed.

Lemma digits2_bounds (p : positive) :
  2 ^ (Zpos (digits2_pos p) - 1) <= Zpos p < 2 ^ Zpos (digits2_pos p).
Proof.
  rewrite digits2_size. split.
  - pose proof (Pos.size_le p) as H.
    apply Pos2Z.pos_le_pos in H. rewrite Pos2Z.inj_pow in H.
    replace (Zpos (Pos.size p)) with (Z.succ (Zpos (Pos.size p) - 1)) in H by lia.
    rewrite Z.pow_succ_r in H by lia. lia.
  - pose proof (Pos.size_gt p) as H.
    apply Pos2Z.pos_lt_pos in H. now rewrite Pos2Z.inj_pow in H.
Qed.

(** *** Shifting right *)

Lemma iter_pos_nat {A : Type} (f : A -> A) (n : positive) (x : A) :
  iter_pos f n x = Nat.iter (Pos.to_nat n) f x.
Proof.
  revert x; induction n as [n IH|n IH|]; intros x.
  - change (iter_pos f n~1 x) with (iter_pos f n (iter_pos f n (f x))).
    rewrite !IH, Pos2Nat.inj_xI, <- Nat.iter_add, <- Nat.iter_succ_r.
    f_equal; lia.
  - change (iter_pos f n~0 x) with (iter_pos f n (iter_pos f n x)).
    rewrite !IH, Pos2Nat.inj_xO, <- Nat.iter_add.
    f_equal; lia.
  - reflexivity.
Qed.

Lemma shr_1_m (mrs : shr_record) :
  0 <= shr_m mrs -> shr_m (shr_1 mrs) = shr_m mrs / 2.
Proof.
  destruct mrs as [m r s]; simpl; intros Hm.
  destruct m as [|[p|p|]|p]; simpl; try lia; try reflexivity.
  - rewrite Pos2Z.inj_xI. apply Z.div_unique with 1; lia.
  - rewrite Pos2Z.inj_xO. apply Z.div_unique with 0; lia.
Qed.

Lemma shr_1_r (mrs : shr_record) :
  0 <= shr_m mrs -> shr_r (shr_1 mrs) = Z.odd (shr_m mrs).
Proof.
  destruct mrs as [m r s]; simpl; intros Hm.
  destruct m as [|[p|p|]|p]; simpl; try lia; reflexivity.
Qed.

(** After [k] steps the mantissa is the quotient by [2^k], and the round
    bit is the last bit shifted out. *)
Lemma shr_iter (m : Z) (r s : bool) (k : nat) :
  0 <= m ->
  let res := Nat.iter k shr_1 (Build_shr_record m r s) in
  shr_m res = m / 2 ^ Z.of_nat k
  /\ (forall j, k = S j -> shr_r res = Z.odd (m / 2 ^ Z.of_nat j)).
Proof.
  intros Hm. induction k as [|k [IHm IHr]]; cbv zeta.
  - simpl. split; [now rewrite Z.div_1_r | discriminate].
  - simpl Nat.iter.
    assert (Hpos : 0 <= shr_m (Nat.iter k shr_1 (Build_shr_record m r s))).
    { cbv zeta in IHm. rewrite IHm. apply Z.div_pos; [lia|]. apply Z.pow_pos_nonneg; lia. }
    split.
    + rewrite shr_1_m by exact Hpos. cbv zeta in IHm. rewrite IHm.
      rewrite Nat2Z.inj_succ, Z.pow_succ_r by lia.
      rewrite Z.div_div by (try apply Z.pow_pos_nonneg; lia).
      f_equal. lia.
    + intros j Hj. injection Hj as <-.
      rewrite shr_1_r by exact Hpos. cbv zeta in IHm. now rewrite IHm.
Qed.


(** [shr] on an exact record: the exponent grows by the shift, the mantissa
    is divided by [2^shift], and a set round bit means that the part shifted
    out is at least half a unit of the new last place. *)
Lemma shr_exact (m e n : Z) :
  0 <= m ->
  exists res,
    shr (Build_shr_record m false false) e n = (res, e + Z.max n 0)
    /\ shr_m res = m / 2 ^ Z.max n 0
    /\ (n <= 0 -> res = Build_shr_record m false false)
    /\ (shr_r res = true -> 0 < n /\ 2 ^ n * (m / 2 ^ n) + 2 ^ (n - 1) <= m).
Proof.
  intros Hm. destruct n as [|p|p]; simpl shr.
  - exists (Build_shr_record m false false). rewrite Z.add_0_r.
    simpl. rewrite Z.div_1_r. repeat split; try discriminate.
  - exists (iter_pos shr_1 p (Build_shr_record m false false)).
    rewrite Z.max_l by lia.
    rewrite iter_pos_nat.
    destruct (shr_iter false false (Pos.to_nat p) Hm) as [Hq Hr].
    rewrite positive_nat_Z in Hq.
    repeat split; try lia; try exact Hq.
    destruct (Nat.eq_dec (Pos.to_nat p) 0) as [H0|H0]; [lia|].
    destruct (Pos.to_nat p) as [|j] eqn:Ej; [congruence|].
    specialize (Hr j eq_refl). rewrite Hr in H. clear Hr H0.
    assert (Hj : Z.of_nat j = Z.pos p - 1) by lia.
    rewrite Hj in H.
    assert (Hpow : 2 ^ Z.pos p = 2 * 2 ^ (Z.pos p - 1)).
    { rewrite <- Z.pow_succ_r by lia. f_equal; lia. }
    assert (Hpos : 0 < 2 ^ (Z.pos p - 1)) by (apply Z.pow_pos_nonneg; lia).
    set (h := 2 ^ (Z.pos p - 1)) in *.
    rewrite Hpow.
    pose proof (Z.div_mod m h ltac:(lia)) as Hdm.
    pose proof (Z.mod_pos_bound m h Hpos) as Hmb.
    assert (Hdd : m / (2 * h) = m / h / 2)
      by (rewrite (Z.mul_comm 2 h), Z.div_div by lia; reflexivity).
    rewrite Hdd.
    set (q := m / h) in *.
    pose proof (Z.div_mod q 2 ltac:(lia)) as Hq2.
    assert (Hodd : q mod 2 = 1) by (rewrite Zmod_odd, H; reflexivity).
    nia.
  - exists (Build_shr_record m false false). rewrite Z.max_r by lia.
    rewrite Z.add_0_r. simpl. rewrite Z.div_1_r. repeat split; try discriminate.
Qed.


Lemma round_nearest_even_cases (res : shr_record) :
  let m2 := round_nearest_even (shr_m res) (loc_of_shr_record res) in
  m2 = shr_m res \/ (m2 = shr_m res + 1 /\ shr_r res = true).
Proof.
  destruct res as [m [|] [|]]; simpl; try destruct (Z.even m); auto.
Qed.

Lemma Zdigits2_le (m k : Z) : 0 <= m < 2 ^ k -> 0 <= k -> Zdigits2 m <= k.
Proof.
  intros [H0 Hk] Hk0. destruct m as [|p|p]; simpl; try lia.
  pose proof (digits2_bounds p) as [Hlo _].
  assert (Hlt : 2 ^ (Z.pos (digits2_pos p) - 1) < 2 ^ k) by lia.
  apply Z.pow_lt_mono_r_iff in Hlt; lia.
Qed.

Lemma pow2_pos (k : Z) : 0 <= k -> 0 < 2 ^ k.
Proof. intros; apply Z.pow_pos_nonneg; lia. Qed.

(** The heart of the seed bound.  A positive product [P * 2^E] that lies
    below the integer [B], and further below it than one part in [2^53] of
    itself, still lies below [B] after rounding to a double; so its floor is
    an integer of [0 .. B-1]. *)
Lemma floor_of_rounded_below (P : positive) (E B : Z) :
  E < 0 -> 1 <= B <= 2 ^ 52 ->
  Z.pos P < B * 2 ^ (- E) ->
  Z.pos P < (B * 2 ^ (- E) - Z.pos P) * 2 ^ 53 ->
  exists z,
    Math_floor (binary_round_aux prec emax false (Z.pos P) E loc_Exact) = ofZ z
    /\ 0 <= z < B.
Proof.
  intros HE HB Hlt Hgap.
  unfold binary_round_aux, shr_fexp.
  change (shr_record_of_loc (Z.pos P) loc_Exact)
    with (Build_shr_record (Z.pos P) false false).
  change (Zdigits2 (Z.pos P)) with (Z.pos (digits2_pos P)).
  pose proof (digits2_bounds P) as [Hdlo Hdhi].
  set (d := Z.pos (digits2_pos P)) in *.
  assert (Hd1 : 1 <= d) by (unfold d; lia).
  (* the product has at most 52 - E bits *)
  assert (HdE : d <= 52 - E).
  { assert (Hp : 2 ^ (d - 1) < 2 ^ (52 - E)).
    { replace (52 - E) with (52 + - E) by lia.
      rewrite Z.pow_add_r by lia.
      pose proof (@pow2_pos (- E) ltac:(lia)). nia. }
    apply Z.pow_lt_mono_r_iff in Hp; lia. }
  set (n := fexp prec emax (d + E) - E).
  assert (Hn : n = Z.max (d - 53) (-1074 - E))
    by (unfold n, fexp, emin, prec, emax; lia).
  destruct (@shr_exact (Z.pos P) E n ltac:(lia)) as (res & Hshr & Hm1 & Hid & Hr).
  rewrite Hshr. clear Hshr.
  set (e' := E + Z.max n 0) in *.
  assert (He' : e' < 0) by (unfold e'; lia).
  pose proof (round_nearest_even_cases res) as Hround. cbv zeta in Hround.
  set (m2 := round_nearest_even (shr_m res) (loc_of_shr_record res)) in *.
  pose proof (@pow2_pos (- e') ltac:(lia)) as HX.
  (* still below B after the first rounding *)
  assert (Hm2 : 0 <= m2 < B * 2 ^ (- e')).
  { destruct (Z_le_gt_dec n 0) as [Hn0|Hn0].
    - rewrite (Hid Hn0) in Hround. simpl in Hround.
      assert (e' = E) by (unfold e'; lia).
      destruct Hround as [-> | [_ Habs]]; [|discriminate].
      replace e' with E by lia. lia.
    - assert (Hmax : Z.max n 0 = n) by lia. rewrite Hmax in Hm1.
      assert (Hsplit : 2 ^ (- E) = 2 ^ (- e') * 2 ^ n).
      { rewrite <- Z.pow_add_r by lia. f_equal. unfold e'. lia. }
      pose proof (@pow2_pos n ltac:(lia)) as HY.
      pose proof (Z.div_mod (Z.pos P) (2 ^ n) ltac:(lia)) as Hdm.
      pose proof (Z.mod_pos_bound (Z.pos P) (2 ^ n) HY) as Hmb.
      rewrite <- Hm1 in Hdm.
      assert (Hm1lo : 0 <= shr_m res)
        by (rewrite Hm1; apply Z.div_pos; lia).
      rewrite Hsplit in Hlt, Hgap.
      set (X := 2 ^ (- e')) in *. set (Y := 2 ^ n) in *.
      assert (Hm1hi : shr_m res < B * X) by nia.
      destruct Hround as [-> | [-> Hbit]]; [lia|].
      split; [lia|].
      destruct (Hr Hbit) as [_ Hhalf]. fold Y in Hhalf. rewrite <- Hm1 in Hhalf.
      assert (HY2 : Y = 2 * 2 ^ (n - 1)).
      { unfold Y. rewrite <- Z.pow_succ_r by lia. f_equal; lia. }
      pose proof (@pow2_pos (n - 1) ltac:(lia)) as HH.
      set (H := 2 ^ (n - 1)) in *.
      destruct (Z_lt_ge_dec (shr_m res + 1) (B * X)) as [Hok|Hbad]; [exact Hok|].
      exfalso.
      assert (Hsmall : B * X * Y - Z.pos P <= H) by nia.
      destruct (Z_le_gt_dec (-1074 - E) (d - 53)) as [Hnorm|Hsub].
      + (* the result is a normal double: the shift is d - 53 *)
        assert (Hnd : n = d - 53) by lia.
        assert (HHd : H * 2 ^ 53 = 2 ^ (d - 1)).
        { unfold H. rewrite <- Z.pow_add_r by lia. f_equal; lia. }
        nia.
      + (* the result is subnormal: it is far below one *)
        assert (Hne : n = -1074 - E) by lia.
        assert (HYd : 2 ^ d <= Y * 2 ^ 52).
        { unfold Y. rewrite <- Z.pow_add_r by lia.
          apply Z.pow_le_mono_r; lia. }
        assert (Hm1small : shr_m res < 2 ^ 52) by nia.
        assert (HXbig : 2 ^ 52 < X).
        { unfold X. apply Z.pow_lt_mono_r; lia. }
        nia. }
  change (shr_record_of_loc m2 loc_Exact) with (Build_shr_record m2 false false).
  set (n2 := fexp prec emax (Zdigits2 m2 + e') - e').
  destruct (@shr_exact m2 e' n2 ltac:(lia)) as (res2 & Hshr2 & Hm3 & _ & _).
  rewrite Hshr2. clear Hshr2.
  (* the final exponent is negative as well *)
  assert (Hdig2 : Zdigits2 m2 <= 52 - e').
  { apply Zdigits2_le; [|lia]. split; [lia|].
    replace (52 - e') with (52 + - e') by lia. rewrite Z.pow_add_r by lia. nia. }
  assert (Hn2 : e' + Z.max n2 0 < 0)
    by (unfold n2, fexp, emin, prec, emax; lia).
  set (a2 := Z.max n2 0) in *.
  assert (Ha2 : 0 <= a2) by (unfold a2; lia).
  pose proof (@pow2_pos a2 Ha2) as HA.
  assert (Hm3lo : 0 <= shr_m res2) by (rewrite Hm3; apply Z.div_pos; lia).
  destruct (shr_m res2) as [|m3|m3] eqn:Em3; [| |lia].
  - exists 0. split; [reflexivity | lia].
  - assert (Hfit : (e' + a2 <=? emax - prec) = true)
      by (apply Z.leb_le; unfold emax, prec; lia).
    rewrite Hfit. unfold Math_floor.
    assert (Hneg : (0 <=? e' + a2) = false) by (apply Z.leb_gt; lia).
    rewrite Hneg. cbv zeta.
    set (q := Z.shiftr (Z.pos m3) (- (e' + a2))).
    assert (Hq : q = m2 / 2 ^ (- e')).
    { unfold q. rewrite Z.shiftr_div_pow2 by lia. rewrite Hm3.
      rewrite Z.div_div by (try apply pow2_pos; lia).
      rewrite <- Z.pow_add_r by lia. do 2 f_equal. lia. }
    assert (Hqb : 0 <= q < B).
    { rewrite Hq. split; [apply Z.div_pos; lia|].
      apply Z.div_lt_upper_bound; lia. }
    exists q. split; [|exact Hqb].
    destruct (Z.eqb_spec q 0) as [->|_]; reflexivity.
Qed.


(** *** The double of an integer below [2^53] *)

Lemma iter_xO (p k : positive) :
  Z.pos (Pos.iter xO p k) = Z.pos p * 2 ^ Z.pos k
  /\ Z.pos (digits2_pos (Pos.iter xO p k)) = Z.pos (digits2_pos p) + Z.pos k.
Proof.
  induction k as [|k [IHv IHd]] using Pos.peano_ind.
  - simpl. lia.
  - rewrite Pos.iter_succ. simpl digits2_pos.
    rewrite Pos2Z.inj_xO, IHv, !Pos2Z.inj_succ, IHd, Z.pow_succ_r by lia.
    lia.
Qed.

(** A mantissa of exactly 53 bits is kept as it is. *)
Lemma round_canonical (m : positive) (e : Z) :
  Z.pos (digits2_pos m) = 53 -> -1074 <= e <= 971 ->
  binary_round_aux prec emax false (Z.pos m) e loc_Exact = S754_finite false m e.
Proof.
  intros Hd He. unfold binary_round_aux, shr_fexp.
  change (Zdigits2 (Z.pos m)) with (Z.pos (digits2_pos m)). rewrite Hd.
  assert (H0 : fexp prec emax (53 + e) - e = 0)
    by (unfold fexp, emin, prec, emax; lia).
  rewrite H0. simpl shr. cbv iota beta.
  simpl round_nearest_even. simpl Zdigits2. rewrite Hd, H0. simpl.
  assert (Hfit : (e <=? 971) = true) by (apply Z.leb_le; lia).
  now rewrite Hfit.
Qed.

Lemma ofZ_pos (z : positive) :
  Z.pos z < 2 ^ 53 ->
  exists mz,
    ofZ (Z.pos z) = S754_finite false mz (Z.pos (digits2_pos z) - 53)
    /\ Z.pos mz = Z.pos z * 2 ^ (53 - Z.pos (digits2_pos z)).
Proof.
  intros Hz.
  assert (Hd : Z.pos (digits2_pos z) <= 53).
  { apply (@Zdigits2_le (Z.pos z) 53); lia. }
  unfold ofZ, binary_normalize, binary_round, shl_align.
  set (d := Z.pos (digits2_pos z)) in *.
  assert (Hf : fexp prec emax (d + 0) - 0 = d - 53)
    by (unfold fexp, emin, prec, emax; lia).
  rewrite Hf.
  replace (fexp prec emax (d + 0)) with (d - 53) by lia.
  destruct (d - 53) as [|k|k] eqn:Ek; [| lia |].
  - exists z. rewrite round_canonical by (fold d; lia).
    split; [reflexivity|]. replace (53 - d) with 0 by lia. lia.
  - destruct (iter_xO z k) as [Hv Hdig]. fold d in Hdig.
    exists (Pos.iter xO z k).
    rewrite round_canonical by lia.
    split; [reflexivity|]. rewrite Hv. do 2 f_equal. lia.
Qed.

Lemma ofZ_inj (a b : Z) :
  0 < a < 2 ^ 53 -> 0 < b < 2 ^ 53 -> ofZ a = ofZ b -> a = b.
Proof.
  intros Ha Hb H.
  destruct a as [|a|a]; try lia. destruct b as [|b|b]; try lia.
  destruct (@ofZ_pos a ltac:(lia)) as (ma & Ea & Va).
  destruct (@ofZ_pos b ltac:(lia)) as (mb & Eb & Vb).
  rewrite Ea, Eb in H.
  pose proof (f_equal (fun x => match x with S754_finite _ _ e => e | _ => 0 end) H) as He.
  pose proof (f_equal (fun x => match x with S754_finite _ m _ => m | _ => xH end) H) as Hm.
  cbv beta iota in He, Hm. clear H.
  assert (Hd : Z.pos (digits2_pos a) = Z.pos (digits2_pos b)) by lia.
  rewrite Hd in Va. subst mb. rewrite Va in Vb.
  assert (Hk : 0 <= 53 - Z.pos (digits2_pos b)).
  { pose proof (@Zdigits2_le (Z.pos b) 53 ltac:(lia) ltac:(lia)) as Hx.
    simpl in Hx. lia. }
  pose proof (@pow2_pos _ Hk). nia.
Qed.

(** *** [Math.floor(Math.random() * n)] *)

Lemma ofZ_one : ofZ 1 = S754_finite false 4503599627370496 (-52).
Proof. vm_compute. reflexivity. Qed.

Lemma below_one (m : positive) (e : Z) :
  SFltb (S754_finite false m e) (S754_finite false 4503599627370496 (-52)) = true ->
  e < -52 \/ (e = -52 /\ Z.pos m < 4503599627370496).
Proof.
  unfold SFltb, SFcompare.
  rewrite Pos.compare_cont_spec. unfold Pos.switch_Eq.
  destruct (Z.compare_spec e (-52)) as [He|He|He]; try discriminate.
  - destruct (Pos.compare_spec m 4503599627370496) as [|Hlt|]; try discriminate.
    intros _. right. split; [exact He|]. apply Pos2Z.pos_lt_pos in Hlt. exact Hlt.
  - intros _. left. exact He.
Qed.

(** A double of the unit interval is zero or [m * 2^e] with [m < 2^53] and
    [e <= -53]. *)
Lemma inUnitInterval_inv (u : number) :
  inUnitInterval u = true ->
  u = S754_zero false
  \/ exists m e, u = S754_finite false m e /\ Z.pos m < 2 ^ 53 /\ e <= -53.
Proof.
  unfold inUnitInterval.
  destruct u as [[|]|s| |[|] m e]; try discriminate; auto.
  simpl negb. rewrite andb_true_l. intros H. right. exists m, e.
  split; [reflexivity|].
  apply andb_prop in H as [Hb Hlt].
  rewrite ofZ_one in Hlt. apply below_one in Hlt.
  unfold bounded, canonical_mantissa in Hb.
  apply andb_prop in Hb as [Hc _]. apply Z.eqb_eq in Hc.
  unfold fexp, emin, prec, emax in Hc.
  pose proof (digits2_bounds m) as [_ Hhi].
  assert (Hd : Z.pos (digits2_pos m) <= 53) by lia.
  split.
  - eapply Z.lt_le_trans; [exact Hhi|]. apply Z.pow_le_mono_r; lia.
  - destruct Hlt as [He | [He Hm]]; [lia|]. exfalso.
    assert (Z.pos (digits2_pos m) <= 52); [|lia].
    apply (@Zdigits2_le (Z.pos m) 52); lia.
Qed.

(** [Math.floor(u * n)] for a double [u] of the unit interval and an integer
    [n] whose double is [nm * 2^-k]: an integer of [0 .. n-1]. *)
Lemma floor_random_times (u : number) (n : Z) (nm : positive) (k : Z) :
  ofZ n = S754_finite false nm (- k) ->
  Z.pos nm = n * 2 ^ k -> 0 <= k -> 1 <= n <= 2 ^ 52 ->
  inUnitInterval u = true ->
  exists z, Math_floor (mul u (ofZ n)) = ofZ z /\ 0 <= z < n.
Proof.
  intros Hn Hnm Hk HnB Hu. rewrite Hn.
  destruct (@inUnitInterval_inv u Hu) as [-> | (m & e & -> & Hm & He)].
  - exists 0. split; [reflexivity | lia].
  - unfold mul, SFmul. simpl xorb.
    assert (Hsplit : 2 ^ (- (e + - k)) = 2 ^ k * 2 ^ (- e)).
    { rewrite <- Z.pow_add_r by lia. f_equal; lia. }
    assert (Hbig : 2 ^ 53 <= 2 ^ (- e)) by (apply Z.pow_le_mono_r; lia).
    pose proof (@pow2_pos k Hk) as HK.
    apply floor_of_rounded_below; try lia;
      rewrite Pos2Z.inj_mul, Hsplit, Hnm; nia.
Qed.

Lemma ofZ_titan_factor :
  ofZ 2147483646 = S754_finite false 9007199246352384 (- 22).
Proof. vm_compute. reflexivity. Qed.

Lemma ofZ_stability_factor :
  ofZ 4294967294 = S754_finite false 9007199250546688 (- 21).
Proof. vm_compute. reflexivity. Qed.

(** The seed of the Titan branch and of the two Stability branches. *)
Lemma seed_below_titan (u : number) :
  inUnitInterval u = true ->
  exists z, Math_floor (mul u (ofZ 2147483646)) = ofZ z /\ 0 <= z < 2147483646.
Proof.
  apply (@floor_random_times u 2147483646 9007199246352384 22);
    [exact ofZ_titan_factor | reflexivity | lia | lia].
Qed.

Lemma seed_below_stability (u : number) :
  inUnitInterval u = true ->
  exists z, Math_floor (mul u (ofZ 4294967294)) = ofZ z /\ 0 <= z < 4294967294.
Proof.
  apply (@floor_random_times u 4294967294 9007199250546688 21);
    [exact ofZ_stability_factor | reflexivity | lia | lia].
Qed.

End FloatFacts.

(* ================================================================== *)
(** ** The request and the run of [generateImage] *)
(* ================================================================== *)

Module RequestFacts.
Import Js Dom JsString App Wire StringFacts.

Section WithBrowser.

Variable br : Browser.

Ltac run_requestBody :=
  unfold requestBody, adapterFor;
  repeat match goal with
         | |- context [startsWith ?m ?p] => destruct (startsWith m p)
         | |- context [nonEmpty ?n] => destruct (nonEmpty n) eqn:?
         end;
  cbv [bind ret randomBelow Math_random].

(** Building the request never throws; it draws one random number and
    changes nothing else. *)
Lemma requestBody_total (model prompt negative : string) (w : World) :
  exists req, requestBody br model prompt negative w = (Ok req, afterDraw w).
Proof. run_requestBody; eexists; reflexivity. Qed.

Lemma requestBody_prompt (model prompt negative : string) (w w' : World) req :
  requestBody br model prompt negative w = (Ok req, w') ->
  promptText (adapterFor model) req
  = Ok (Str (substring prompt 0 (promptLimit (adapterFor model)))).
Proof.
  revert req w'. run_requestBody; intros req w' H; inversion H; subst; reflexivity.
Qed.

Lemma requestBody_seed (model prompt negative : string) (w w' : World) req :
  requestBody br model prompt negative w = (Ok req, w') ->
  seedOf (adapterFor model) req
  = Ok (Num (seedFrom (adapterFor model) (random br (randomCalls w)))).
Proof.
  revert req w'. run_requestBody; intros req w' H; inversion H; subst; reflexivity.
Qed.

(** The size in the request: 1024 by 1024 where the format has one. *)
Lemma requestBody_size (model prompt negative : string) (w w' : World) req :
  requestBody br model prompt negative w = (Ok req, w') ->
  heightOf (adapterFor model) req
  = Ok (match adapterFor model with
        | Titan | SDXL => Num (JsNumber.ofZ 1024)
        | SD35 => Undefined
        end)
  /\ widthOf (adapterFor model) req
     = Ok (match adapterFor model with
           | Titan | SDXL => Num (JsNumber.ofZ 1024)
           | SD35 => Undefined
           end)
  /\ (adapterFor model = SD35 -> get req "aspect_ratio" = Ok (Str "1:1")).
Proof.
  revert req w'. run_requestBody; intros req w' H; inversion H; subst;
    repeat split; try reflexivity; discriminate.
Qed.

(** What one call of [generateImage] does, given the request it builds: the
    request is sent once, and the reply is decoded. *)
Lemma generateImage_run (model prompt negative : string) size (w : World) req :
  requestBody br model prompt negative w = (Ok req, afterDraw w) ->
  generateImage br model prompt negative size w
  = (decoded br (respond br (List.length (invocations w)) model req),
     mkWorld (awsCredentials w) (S (randomCalls w))
       (invocations w ++ [mkInvocation model req])%list (page w)).
Proof.
  intros H. unfold generateImage, bind at 1. rewrite H.
  unfold decoded, invokeModel, bind, lift, ret, afterDraw; simpl.
  destruct (respond br _ model req) as [body|e]; simpl; [|reflexivity].
  destruct (base64Image body) as [b64|e]; simpl; [|reflexivity].
  destruct (atob br b64) as [bin|e]; reflexivity.
Qed.

End WithBrowser.
End RequestFacts.

Module Payload.
Import Js Dom JsString App Wire StringFacts RequestFacts.

(** C2.  Whatever the model, prompt, negative prompt and size, the request
    that [generateImage] sends carries, at the place its wire format keeps
    the prompt, the first [limit] code units of the prompt it was given (the
    whole prompt when it is shorter), [limit] being 512 for a model id that
    starts with amazon.titan, 10000 for one that starts with stability.sd3
    and 2000 for every other.  The prompt itself is a string value and is
    not changed. *)
Theorem prompt_truncated_to_adapter_limit
    (br : Browser) (model prompt negative : string) (size : JsNumber.number)
    (w : World) :
  let limit :=
    if startsWith model "amazon.titan" then 512
    else if startsWith model "stability.sd3" then 10000
    else 2000 in
  exists req,
    invocations (snd (generateImage br model prompt negative size w))
    = (invocations w ++ [mkInvocation model req])%list
    /\ promptLimit (adapterFor model) = limit
    /\ promptText (adapterFor model) req = Ok (Str (substring prompt 0 limit))
    /\ String.length (substring prompt 0 limit)
       = Nat.min limit (String.length prompt)
    /\ String.length (substring prompt 0 limit) <= limit
    /\ isPrefixOf (substring prompt 0 limit) prompt
    /\ (String.length prompt <= limit -> substring prompt 0 limit = prompt).
Proof.
  intros limit.
  destruct (requestBody_total br model prompt negative w) as [req Hreq].
  exists req.
  assert (Hlimit : promptLimit (adapterFor model) = limit).
  { unfold limit, adapterFor.
    destruct (startsWith model "amazon.titan"); [reflexivity|].
    destruct (startsWith model "stability.sd3"); reflexivity. }
  repeat split.
  - rewrite (@generateImage_run br model prompt negative size w req Hreq); reflexivity.
  - exact Hlimit.
  - rewrite <- Hlimit. exact (@requestBody_prompt br model prompt negative w _ req Hreq).
  - apply substring_length.
  - apply substring_le.
  - apply substring_prefix.
  - apply substring_short.
Qed.

(** C3, as amended.  When the negative prompt is not empty, the request
    carries it as its wire format prescribes: Titan in [negativeText] beside
    [text], cut to 512 code units; SD3.5 in [negative_prompt], whole; SDXL
    as a second entry of [text_prompts] with weight -1, after the prompt's
    entry of weight 1. *)
Theorem negative_prompt_encoding
    (br : Browser) (model prompt negative : string) (size : JsNumber.number)
    (w : World) :
  negative <> "" ->
  exists req,
    invocations (snd (generateImage br model prompt negative size w))
    = (invocations w ++ [mkInvocation model req])%list
    /\ match adapterFor model with
       | Titan =>
           (params <~ get req "textToImageParams" ;; get params "negativeText")
           = Ok (Str (substring negative 0 512))
           /\ (params <~ get req "textToImageParams" ;; get params "text")
              = Ok (Str (substring prompt 0 512))
           /\ String.length (substring negative 0 512) <= 512
       | SD35 =>
           get req "negative_prompt" = Ok (Str negative)
           /\ get req "prompt" = Ok (Str (substring prompt 0 10000))
       | SDXL =>
           get req "text_prompts"
           = Ok (Arr [ weighted (substring prompt 0 2000) 1;
                       weighted negative (-1) ])
       end.
Proof.
  intros Hneg. apply nonEmpty_true in Hneg.
  destruct (requestBody_total br model prompt negative w) as [req Hreq].
  exists req. split.
  - rewrite (@generateImage_run br model prompt negative size w req Hreq); reflexivity.
  - revert Hreq. unfold requestBody, adapterFor. rewrite Hneg.
    destruct (startsWith model "amazon.titan");
      [|destruct (startsWith model "stability.sd3")];
      cbv [bind ret randomBelow Math_random]; intros H; inversion H; subst.
    + repeat split; try reflexivity. apply substring_le.
    + split; reflexivity.
    + reflexivity.
Qed.

Lemma negative_prompt_encoding_witness :
  exists req,
    invocations
      (snd (generateImage Demo.browser Demo.titanModel "A portrait"
              "text, watermark" (JsNumber.ofZ 64) Demo.connected))
    = [mkInvocation Demo.titanModel req]
    /\ (params <~ get req "textToImageParams" ;; get params "negativeText")
       = Ok (Str "text, watermark").
Proof.
  destruct (@negative_prompt_encoding Demo.browser Demo.titanModel "A portrait"
              "text, watermark" (JsNumber.ofZ 64) Demo.connected)
    as (req & Hsent & Henc); [discriminate|].
  exists req. split; [exact Hsent | exact (proj1 Henc)].
Defined.

(** C3, the claim as stated fails.  With an empty negative prompt nothing is
    encoded: Titan's request has no [negativeText] (reading it gives
    [undefined], not the empty string), SD3.5's has no [negative_prompt], and
    SDXL's [text_prompts] has the prompt's entry alone, none of weight -1. *)
Lemma empty_negative_prompt_is_not_encoded :
  exists titan sd35 sdxl,
    fst (requestBody Demo.browser Demo.titanModel "A portrait" "" Demo.connected)
    = Ok titan
    /\ (params <~ get titan "textToImageParams" ;; get params "negativeText")
       = Ok Undefined
    /\ (params <~ get titan "textToImageParams" ;; get params "negativeText")
       <> Ok (Str (substring "" 0 512))
    /\ fst (requestBody Demo.browser Demo.sd35Model "A portrait" "" Demo.connected)
       = Ok sd35
    /\ get sd35 "negative_prompt" = Ok Undefined
    /\ fst (requestBody Demo.browser Demo.sdxlModel "A portrait" "" Demo.connected)
       = Ok sdxl
    /\ get sdxl "text_prompts" = Ok (Arr [ weighted "A portrait" 1 ]).
Proof.
  do 3 eexists. repeat split; try (vm_compute; reflexivity).
  vm_compute. discriminate.
Qed.

(** C10.  With an empty negative prompt the request carries no negative
    encoding at all: Titan's [textToImageParams] has no [negativeText],
    SD3.5's body has no [negative_prompt], and SDXL's [text_prompts] is the
    single entry of the prompt with weight 1. *)
Theorem empty_negative_prompt_omitted
    (br : Browser) (model prompt : string) (size : JsNumber.number)
    (w : World) :
  exists req,
    invocations (snd (generateImage br model prompt "" size w))
    = (invocations w ++ [mkInvocation model req])%list
    /\ match adapterFor model with
       | Titan =>
           get req "textToImageParams"
           = Ok (Obj [ ("text", Str (substring prompt 0 512)) ])
           /\ (params <~ get req "textToImageParams" ;;
               Ok (hasOwn params "negativeText")) = Ok false
       | SD35 => hasOwn req "negative_prompt" = false
       | SDXL =>
           get req "text_prompts"
           = Ok (Arr [ weighted (substring prompt 0 2000) 1 ])
       end.
Proof.
  destruct (requestBody_total br model prompt "" w) as [req Hreq].
  exists req. split.
  - rewrite (@generateImage_run br model prompt "" size w req Hreq); reflexivity.
  - revert Hreq. unfold requestBody, adapterFor. simpl nonEmpty. cbv iota.
    destruct (startsWith model "amazon.titan");
      [|destruct (startsWith model "stability.sd3")];
      cbv [bind ret randomBelow Math_random]; intros H; inversion H; subst.
    + split; reflexivity.
    + reflexivity.
    + reflexivity.
Qed.

End Payload.

Module Seed.
Import Js Dom JsString App Wire RequestFacts FloatFacts.

(** C8, as amended.  [generateImage] takes no seed.  Every generation draws
    one value [u] from [Math.random] and places [Math.floor(u * F)] in the
    request, with [F = 2147483646 = 2^31 - 2] in the Titan branch and
    [F = 4294967294 = 2^32 - 2] in the SD3.5 and SDXL branches; for every
    double [u] of the unit interval that is an integer from [0] to [F - 1]:
    at most [2^31 - 3] for Titan and [2^32 - 3] for SD3.5 and SDXL. *)
Theorem seed_is_drawn_within_range
    (br : Browser) (model prompt negative : string) (size : JsNumber.number)
    (w : World) :
  JsNumber.inUnitInterval (random br (randomCalls w)) = true ->
  exists req z,
    invocations (snd (generateImage br model prompt negative size w))
    = (invocations w ++ [mkInvocation model req])%list
    /\ randomCalls (snd (generateImage br model prompt negative size w))
       = S (randomCalls w)
    /\ seedOf (adapterFor model) req = Ok (Num (JsNumber.ofZ z))
    /\ JsNumber.ofZ z
       = JsNumber.Math_floor
           (JsNumber.mul (random br (randomCalls w))
              (JsNumber.ofZ (seedFactor (adapterFor model))))
    /\ (0 <= z <= seedFactor (adapterFor model) - 1)%Z
    /\ seedFactor (adapterFor model)
       = (if startsWith model "amazon.titan" then 2 ^ 31 - 2 else 2 ^ 32 - 2)%Z.
Proof.
  intros Hu.
  destruct (requestBody_total br model prompt negative w) as [req Hreq].
  assert (Hz : exists z,
             seedFrom (adapterFor model) (random br (randomCalls w))
             = JsNumber.ofZ z
             /\ (0 <= z < seedFactor (adapterFor model))%Z).
  { unfold seedFrom. destruct (adapterFor model); simpl seedFactor.
    - exact (@seed_below_titan _ Hu).
    - exact (@seed_below_stability _ Hu).
    - exact (@seed_below_stability _ Hu). }
  destruct Hz as (z & Hz & Hrange).
  exists req, z.
  rewrite (@generateImage_run br model prompt negative size w req Hreq).
  repeat split; try lia.
  - rewrite (@requestBody_seed br model prompt negative w _ req Hreq).
    now rewrite Hz.
  - rewrite <- Hz. reflexivity.
  - unfold adapterFor.
    destruct (startsWith model "amazon.titan"); [reflexivity|].
    destruct (startsWith model "stability.sd3"); reflexivity.
Qed.

Lemma seed_is_drawn_within_range_witness :
  exists req z,
    invocations
      (snd (generateImage Demo.browser Demo.titanModel "A portrait" ""
              (JsNumber.ofZ 64) Demo.connected))
    = [mkInvocation Demo.titanModel req]
    /\ seedOf Titan req = Ok (Num (JsNumber.ofZ z))
    /\ (0 <= z <= 2 ^ 31 - 3)%Z.
Proof.
  destruct (@seed_is_drawn_within_range Demo.browser Demo.titanModel
              "A portrait" "" (JsNumber.ofZ 64) Demo.connected eq_refl)
    as (req & z & Hsent & _ & Hseed & _ & Hrange & _).
  exists req, z. repeat split; [exact Hsent | exact Hseed | apply Hrange ..].
Defined.

(** C8, the claim as stated fails.  The top of the declared range is never
    drawn: no double [u] of the unit interval gives the seed
    [2^31 - 2 = 2147483646] in the Titan branch, nor [2^32 - 2 = 4294967294]
    in the SD3.5 and SDXL branches, so the draw is not uniform over
    [0 .. 2^31 - 2] or [0 .. 2^32 - 2].  The largest seeds there are, those
    of the largest double below one, are [2^31 - 3] and [2^32 - 3]. *)
Lemma top_of_the_seed_range_is_never_drawn :
  ~ (exists u, JsNumber.inUnitInterval u = true
               /\ seedFrom Titan u = JsNumber.ofZ (2 ^ 31 - 2))
  /\ ~ (exists u, JsNumber.inUnitInterval u = true
                  /\ seedFrom SD35 u = JsNumber.ofZ (2 ^ 32 - 2))
  /\ ~ (exists u, JsNumber.inUnitInterval u = true
                  /\ seedFrom SDXL u = JsNumber.ofZ (2 ^ 32 - 2))
  /\ JsNumber.inUnitInterval Demo.almostOne = true
  /\ seedFrom Titan Demo.almostOne = JsNumber.ofZ (2 ^ 31 - 3)
  /\ seedFrom SD35 Demo.almostOne = JsNumber.ofZ (2 ^ 32 - 3)
  /\ seedFrom SDXL Demo.almostOne = JsNumber.ofZ (2 ^ 32 - 3).
Proof.
  assert (Hstability : forall u,
            JsNumber.inUnitInterval u = true ->
            JsNumber.Math_floor (JsNumber.mul u (JsNumber.ofZ 4294967294))
            <> JsNumber.ofZ 4294967294).
  { intros u Hu Htop.
    destruct (@seed_below_stability u Hu) as (z & Hz & Hrange).
    rewrite Hz in Htop.
    destruct (Z.eq_dec z 0) as [->|Hnz].
    - rewrite ofZ_stability_factor in Htop. discriminate.
    - apply ofZ_inj in Htop; lia. }
  split; [|split; [|split]].
  - intros (u & Hu & Htop).
    destruct (@seed_below_titan u Hu) as (z & Hz & Hrange).
    unfold seedFrom in Htop. simpl seedFactor in Htop. rewrite Hz in Htop.
    change (2 ^ 31 - 2)%Z with 2147483646%Z in Htop.
    destruct (Z.eq_dec z 0) as [->|Hnz].
    + rewrite ofZ_titan_factor in Htop. discriminate.
    + apply ofZ_inj in Htop; lia.
  - intros (u & Hu & Htop). exact (Hstability u Hu Htop).
  - intros (u & Hu & Htop). exact (Hstability u Hu Htop).
  - repeat split; vm_compute; reflexivity.
Qed.

End Seed.

Module Prompt.
Import Js Dom JsString App Wire StringFacts.

(** C4, as amended.  The composed prompt is four blocks separated by blank
    lines, in this order: the frame; the line [Character: name, role.]
    with the description on the very next line (no blank line between the
    two); the line [Setting: ] followed by the setting and a period; the line
    [Style: ] followed by the style.  The setting is the world context up to
    its second period, that period excluded: the whole context when it has
    at most one period. *)
Theorem buildPrompt_layout
    (context style name role description frame : string) :
  let setting := join (slice (split context ".") 0 2) "." in
  buildPrompt context style name role description frame
  = join [ frame;
           "Character: " ++ name ++ ", " ++ role ++ "." ++ LF ++ description;
           "Setting: " ++ setting ++ ".";
           "Style: " ++ style ]
         (LF ++ LF)
  /\ ((setting = context /\ count "." context <= 1)
      \/ (count "." setting = 1 /\ isPrefixOf (setting ++ ".") context)).
Proof.
  intros setting. split.
  - unfold buildPrompt, join, concat, LF. fold setting.
    rewrite ?append_assoc. simpl. rewrite ?append_assoc. simpl.
    reflexivity.
  - exact (join_first_two context ".").
Qed.

(** C4, the claim as stated fails: for the station scenario the composed
    prompt is not five segments with a blank line between each two, whatever
    the segments: it holds seven line feeds, and four blank-line separators
    alone would need eight. *)
Lemma buildPrompt_has_three_blank_lines :
  count "010"
    (buildPrompt "A far-future station. Humans trade lemonade. Second sentence."
       "Clean sci-fi cartoon portraits" "Tessa Quark" "Digger"
       "Optimistic smuggler-mechanic" "Centered face icon.") = 7
  /\ ~ exists a b c d e,
         buildPrompt "A far-future station. Humans trade lemonade. Second sentence."
           "Clean sci-fi cartoon portraits" "Tessa Quark" "Digger"
           "Optimistic smuggler-mechanic" "Centered face icon."
         = join [a; b; c; d; e] (LF ++ LF).
Proof.
  assert (Hseven :
    count "010"
      (buildPrompt "A far-future station. Humans trade lemonade. Second sentence."
         "Clean sci-fi cartoon portraits" "Tessa Quark" "Digger"
         "Optimistic smuggler-mechanic" "Centered face icon.") = 7)
    by reflexivity.
  split; [exact Hseven|].
  intros (a & b & c & d & e & H).
  apply (f_equal (count "010")) in H.
  rewrite Hseven in H.
  unfold join, concat in H. rewrite !count_append in H.
  change (count "010" LF) with 1 in H. lia.
Qed.

(** The station scenario: of the four sentences of the context, the prompt
    keeps the first two. *)
Example station_prompt :
  buildPrompt Demo.stationContext "Clean sci-fi cartoon portraits"
    "Tessa Quark" "Digger" "Optimistic smuggler-mechanic" "Centered face icon."
  = "Centered face icon." ++ LF ++ LF
    ++ "Character: Tessa Quark, Digger." ++ LF
    ++ "Optimistic smuggler-mechanic" ++ LF ++ LF
    ++ "Setting: A far-future station. Humans trade lemonade." ++ LF ++ LF
    ++ "Style: Clean sci-fi cartoon portraits".
Proof. reflexivity. Qed.

End Prompt.

Module Response.
Import Js Dom JsString App Wire StringFacts RequestFacts.

Lemma lookup_absent (k : string) (props : list (string * value)) :
  existsb (fun p => String.eqb (fst p) k) props = false ->
  lookup k props = Undefined.
Proof.
  induction props as [|[k' v] props IH]; simpl; [reflexivity|].
  destruct (String.eqb k' k); simpl; [discriminate | exact IH].
Qed.

(** Reading a property a value does not have gives [undefined], unless the
    value is [null] or [undefined]. *)
Lemma get_absent (v : value) (k : string) :
  v <> Null -> v <> Undefined -> hasOwn v k = false -> get v k = Ok Undefined.
Proof.
  destruct v; simpl; intros; try congruence.
  now rewrite lookup_absent.
Qed.

Lemma lookup_assign_other (k k' : string) (v : value) props :
  k <> k' -> lookup k (assign k' v props) = lookup k props.
Proof.
  intros Hne. induction props as [|[k0 v0] props IH]; simpl.
  - destruct (String.eqb_spec k' k); [congruence | reflexivity].
  - destruct (String.eqb_spec k0 k') as [->|Hk0]; simpl.
    + destruct (String.eqb_spec k' k); [congruence | reflexivity].
    + destruct (String.eqb k0 k); [reflexivity | exact IH].
Qed.

Lemma get_set_other (o : value) (k k' : string) (v : value) :
  k <> k' -> get (set o k' v) k = get o k.
Proof.
  intros Hne. destruct o; simpl; try reflexivity.
  now rewrite lookup_assign_other.
Qed.

(** The selection when [responseBody.images] is truthy, and when neither
    property is. *)
Lemma base64Image_images (responseBody images : value) :
  get responseBody "images" = Ok images -> truthy images = true ->
  base64Image responseBody = index images 0.
Proof. intros Hget Ht. unfold base64Image. rewrite Hget. simpl. now rewrite Ht. Qed.

Lemma base64Image_neither (responseBody images artifacts : value) :
  get responseBody "images" = Ok images -> truthy images = false ->
  get responseBody "artifacts" = Ok artifacts -> truthy artifacts = false ->
  base64Image responseBody = Throw (Error "No image in response").
Proof.
  intros Hi Hti Ha Hta. unfold base64Image.
  rewrite Hi; simpl; rewrite Hti, Ha; simpl; now rewrite Hta.
Qed.

(** C5, as amended.  When the parsed response (any JSON value but [null])
    has neither an [images] nor an [artifacts] property, [generateImage]
    throws a plain [Error] whose message is [No image in response], whatever
    the model id; the request has been sent by then. *)
Theorem no_image_in_response
    (br : Browser) (model prompt negative : string) (size : JsNumber.number)
    (w : World) (responseBody : value) :
  (forall req, respond br (List.length (invocations w)) model req = Ok responseBody) ->
  responseBody <> Null -> responseBody <> Undefined ->
  hasOwn responseBody "images" = false ->
  hasOwn responseBody "artifacts" = false ->
  base64Image responseBody = Throw (mkExn "Error" "No image in response")
  /\ fst (generateImage br model prompt negative size w)
     = Throw (mkExn "Error" "No image in response")
  /\ List.length (invocations (snd (generateImage br model prompt negative size w)))
     = S (List.length (invocations w)).
Proof.
  intros Hreply Hnull Hundef Himages Hartifacts.
  assert (Hsel : base64Image responseBody = Throw (Error "No image in response")).
  { apply base64Image_neither with (images := Undefined) (artifacts := Undefined);
      try reflexivity; now apply get_absent. }
  destruct (requestBody_total br model prompt negative w) as [req Hreq].
  rewrite (@generateImage_run br model prompt negative size w req Hreq).
  simpl fst; simpl snd. unfold decoded. rewrite Hreply. simpl andThen.
  rewrite Hsel. simpl.
  repeat split. rewrite length_app. simpl. lia.
Qed.

Lemma no_image_in_response_witness :
  fst (generateImage Demo.imagelessBrowser Demo.sdxlModel "A portrait" ""
         (JsNumber.ofZ 64) Demo.connected)
  = Throw (mkExn "Error" "No image in response")
  /\ List.length
       (invocations
          (snd (generateImage Demo.imagelessBrowser Demo.sdxlModel "A portrait"
                  "" (JsNumber.ofZ 64) Demo.connected)))
     = 1.
Proof.
  destruct (@no_image_in_response Demo.imagelessBrowser Demo.sdxlModel
              "A portrait" "" (JsNumber.ofZ 64) Demo.connected (Obj []))
    as (_ & Hthrown & Hsent);
    [ intros req; reflexivity | discriminate | discriminate
    | reflexivity | reflexivity | ].
  split; [exact Hthrown | exact Hsent].
Defined.

(** C5, the claim as stated fails.  For the reply [{}] the exception is a
    plain [Error] with the message [No image in response]; it is not a
    [DecodeError], and its message is not [no image in response].  For the
    reply [null] the property read itself throws a [TypeError]. *)
Lemma missing_image_error_is_a_plain_Error :
  fst (generateImage Demo.imagelessBrowser Demo.titanModel "A portrait" ""
         (JsNumber.ofZ 64) Demo.connected)
  = Throw (mkExn "Error" "No image in response")
  /\ fst (generateImage Demo.imagelessBrowser Demo.titanModel "A portrait" ""
            (JsNumber.ofZ 64) Demo.connected)
     <> Throw (mkExn "DecodeError" "no image in response")
  /\ exists e, base64Image Null = Throw e /\ name e = "TypeError".
Proof.
  split; [vm_compute; reflexivity|].
  split; [vm_compute; discriminate|].
  eexists. split; reflexivity.
Qed.

(** C9, as amended.  When [responseBody.images] is truthy (any array or
    object, a non-empty string, a non-zero number, [true]), the base64 text
    is [images[0]] whatever the model id, and the [artifacts] property plays
    no part: replacing it changes nothing. *)
Theorem image_selected_by_response_shape
    (br : Browser) (model prompt negative : string) (size : JsNumber.number)
    (w : World) (responseBody images : value) :
  (forall req, respond br (List.length (invocations w)) model req = Ok responseBody) ->
  get responseBody "images" = Ok images ->
  truthy images = true ->
  base64Image responseBody = index images 0
  /\ fst (generateImage br model prompt negative size w)
     = (base64 <~ index images 0 ;;
        binary <~ atob br base64 ;;
        Ok (Uint8Array_from binary))
  /\ (forall artifacts,
        base64Image (set responseBody "artifacts" artifacts)
        = base64Image responseBody).
Proof.
  intros Hreply Hget Htruthy.
  pose proof (@base64Image_images responseBody images Hget Htruthy) as Hsel.
  split; [exact Hsel|]. split.
  - destruct (requestBody_total br model prompt negative w) as [req Hreq].
    rewrite (@generateImage_run br model prompt negative size w req Hreq).
    simpl fst. unfold decoded. rewrite Hreply. simpl andThen.
    now rewrite Hsel.
  - intros artifacts. rewrite Hsel.
    apply base64Image_images; [|exact Htruthy].
    rewrite get_set_other by discriminate. exact Hget.
Qed.

Lemma image_selected_by_response_shape_witness :
  base64Image (Demo.imagesReply "QUJD") = Ok (Str "QUJD")
  /\ fst (generateImage Demo.browser Demo.sdxlModel "A portrait" ""
            (JsNumber.ofZ 64) Demo.connected)
     = Ok [x41; x42; x43]%byte.
Proof.
  destruct (@image_selected_by_response_shape Demo.browser Demo.sdxlModel
              "A portrait" "" (JsNumber.ofZ 64) Demo.connected
              (Demo.imagesReply "QUJD") (Arr [Str "QUJD"]))
    as (Hsel & Hbytes & _);
    [ intros req; reflexivity | reflexivity | reflexivity | ].
  split; [exact Hsel | exact Hbytes].
Defined.

(** C9, the claim as stated fails.  A reply can contain an [images] property
    and still be decoded from [artifacts]: when [images] holds [null] the
    test [if (responseBody.images)] fails, and the base64 text is
    [artifacts[0].base64], whatever that holds. *)
Lemma null_images_is_decoded_from_artifacts :
  hasOwn (Demo.nullImagesReply "QUJD") "images" = true
  /\ base64Image (Demo.nullImagesReply "QUJD") = Ok (Str "QUJD")
  /\ base64Image (Demo.nullImagesReply "WFla") = Ok (Str "WFla")
  /\ (images <~ get (Demo.nullImagesReply "QUJD") "images" ;; index images 0)
     <> base64Image (Demo.nullImagesReply "QUJD").
Proof.
  repeat split; try reflexivity. vm_compute. discriminate.
Qed.

End Response.

Module Session.
Import Js Dom JsString App Wire StringFacts RequestFacts.

(** C1, as amended.  [generateImage] keeps no cache and takes no seed: each
    call builds a request with a freshly drawn seed and sends it, so two
    calls in a row with the same arguments make two remote invocations, and
    the second call returns what the second reply decodes to. *)
Theorem generateImage_invokes_every_time
    (br : Browser) (model prompt negative : string) (size : JsNumber.number)
    (w : World) :
  let first := generateImage br model prompt negative size w in
  let second := generateImage br model prompt negative size (snd first) in
  let n := List.length (invocations w) in
  exists req1 req2,
    invocations (snd first) = (invocations w ++ [mkInvocation model req1])%list
    /\ invocations (snd second)
       = (invocations w ++ [mkInvocation model req1; mkInvocation model req2])%list
    /\ List.length (invocations (snd second)) = n + 2
    /\ fst first = decoded br (respond br n model req1)
    /\ fst second = decoded br (respond br (S n) model req2)
    /\ seedOf (adapterFor model) req1
       = Ok (Num (seedFrom (adapterFor model) (random br (randomCalls w))))
    /\ seedOf (adapterFor model) req2
       = Ok (Num (seedFrom (adapterFor model) (random br (S (randomCalls w))))).
Proof.
  intros first second n.
  destruct (requestBody_total br model prompt negative w) as [req1 H1].
  pose proof (@generateImage_run br model prompt negative size w req1 H1) as R1.
  fold first in R1.
  destruct (requestBody_total br model prompt negative (snd first)) as [req2 H2].
  pose proof (@generateImage_run br model prompt negative size (snd first) req2 H2) as R2.
  fold second in R2.
  exists req1, req2.
  assert (E1 : invocations (snd first)
               = (invocations w ++ [mkInvocation model req1])%list)
    by (rewrite R1; reflexivity).
  assert (E2 : invocations (snd second)
               = (invocations w ++ [mkInvocation model req1; mkInvocation model req2])%list).
  { rewrite R2. simpl. rewrite E1, <- app_assoc. reflexivity. }
  assert (L1 : List.length (invocations (snd first)) = S n).
  { rewrite E1, length_app. simpl. unfold n. lia. }
  repeat split.
  - exact E1.
  - exact E2.
  - rewrite E2, length_app. simpl. unfold n. lia.
  - rewrite R1. reflexivity.
  - rewrite R2. simpl fst. now rewrite L1.
  - exact (@requestBody_seed br model prompt negative w _ req1 H1).
  - pose proof (@requestBody_seed br model prompt negative (snd first) _ req2 H2) as S2.
    rewrite R1 in S2. exact S2.
Qed.

(** C1, the claim as stated fails.  Two calls with the same model, prompt,
    negative prompt and size, for which [Math.random] returns the same
    number, build the same request with the same seed, 1073741823; the
    backend is reached twice all the same, with that one request, and the
    second call returns the bytes of the backend's second picture (XYZ), not
    those of the first (ABC). *)
Lemma second_call_invokes_the_backend_again :
  let first :=
    generateImage Visit.sameDrawBrowser Demo.titanModel "A portrait"
      "text, watermark" (JsNumber.ofZ 64) Demo.connected in
  let second :=
    generateImage Visit.sameDrawBrowser Demo.titanModel "A portrait"
      "text, watermark" (JsNumber.ofZ 64) (snd first) in
  exists req,
    invocations (snd second)
    = [mkInvocation Demo.titanModel req; mkInvocation Demo.titanModel req]
    /\ seedOf Titan req = Ok (Num (JsNumber.ofZ 1073741823))
    /\ fst first = Ok [x41; x42; x43]%byte
    /\ fst second = Ok [x58; x59; x5a]%byte
    /\ fst second <> fst first.
Proof.
  cbv zeta. eexists. split; [vm_compute; reflexivity|].
  repeat split; try (vm_compute; reflexivity). vm_compute. discriminate.
Qed.

(** C6, as amended.  The size is never looked at: [generateImage] does the
    same for every size, above 1024 or not, which includes sending the
    request, and the request it sends asks for 1024 by 1024 wherever its
    wire format has a size (Titan's and SDXL's [height] and [width]; SD3.5's
    has none, only the aspect ratio [1:1]); and [handleGenerate] on two
    forms that differ in the size only ends in the same world. *)
Theorem size_is_never_validated
    (br : Browser) (model prompt negative : string)
    (size size' : JsNumber.number) (f : Form) (w : World) :
  generateImage br model prompt negative size w
  = generateImage br model prompt negative size' w
  /\ List.length (invocations (snd (generateImage br model prompt negative size w)))
     = S (List.length (invocations w))
  /\ (exists req,
        invocations (snd (generateImage br model prompt negative size w))
        = (invocations w ++ [mkInvocation model req])%list
        /\ heightOf (adapterFor model) req
           = Ok (match adapterFor model with
                 | Titan | SDXL => Num (JsNumber.ofZ 1024)
                 | SD35 => Undefined
                 end)
        /\ widthOf (adapterFor model) req
           = Ok (match adapterFor model with
                 | Titan | SDXL => Num (JsNumber.ofZ 1024)
                 | SD35 => Undefined
                 end)
        /\ (adapterFor model = SD35 ->
            get req "aspect_ratio" = Ok (Str "1:1")))
  /\ handleGenerate br (withSize f size) w = handleGenerate br (withSize f size') w.
Proof.
  split; [reflexivity|].
  destruct (requestBody_total br model prompt negative w) as [req Hreq].
  rewrite (@generateImage_run br model prompt negative size w req Hreq).
  split; [|split; [|reflexivity]].
  - simpl. rewrite length_app. simpl. lia.
  - exists req. split; [reflexivity|].
    exact (@requestBody_size br model prompt negative w _ req Hreq).
Qed.

(** C6, the claim as stated fails.  With 2048 selected as the size,
    [handleGenerate] sends the request and shows the picture it gets back;
    no error is raised or shown. *)
Lemma oversized_request_reaches_the_backend :
  let w :=
    handleGenerate Demo.browser
      (Demo.tessa "Centered face icon." Demo.stationContext 2048)
      Demo.connected in
  List.length (invocations w) = 1
  /\ errorShown (page w) = false
  /\ resultImage (page w) = Some [x41; x42; x43]%byte
  /\ fst (generateImage Demo.browser Demo.titanModel "A portrait" ""
            (JsNumber.ofZ 2048) Demo.connected)
     = Ok [x41; x42; x43]%byte.
Proof. repeat split; vm_compute; reflexivity. Qed.

(** C7, as amended.  In a connected session [handleGenerate] checks the
    world context, the world style and the character name, and nothing
    else.  If one of the three is empty it shows its error message and sends
    nothing.  If none is, it composes the prompt and sends one request that
    carries it (cut to the model's limit), whether or not the frame is
    empty. *)
Theorem handleGenerate_validation
    (br : Browser) (f : Form) (w : World) (creds : string * string) :
  awsCredentials w = Some creds ->
  ((world_context f = "" \/ world_style f = "" \/ char_name f = "") ->
     handleGenerate br f w
     = showError "Please fill in world context, style, and character name" w
     /\ invocations (handleGenerate br f w) = invocations w)
  /\ (world_context f <> "" -> world_style f <> "" -> char_name f <> "" ->
      exists req,
        invocations (handleGenerate br f w)
        = (invocations w ++ [mkInvocation (model_select f) req])%list
        /\ promptText (adapterFor (model_select f)) req
           = Ok (Str (substring
                        (buildPrompt (world_context f) (world_style f)
                           (char_name f) (char_role f) (char_description f)
                           (prompt_frame f))
                        0 (promptLimit (adapterFor (model_select f)))))).
Proof.
  intros Hcreds. split.
  - intros Hempty.
    assert (Hcheck : negb (nonEmpty (world_context f))
                     || negb (nonEmpty (world_style f))
                     || negb (nonEmpty (char_name f)) = true).
    { destruct Hempty as [-> | [-> | ->]]; simpl;
        rewrite ?orb_true_r; reflexivity. }
    unfold handleGenerate. rewrite Hcreds, Hcheck. split; reflexivity.
  - intros Hc Hs Hn.
    apply nonEmpty_true in Hc, Hs, Hn.
    unfold handleGenerate. rewrite Hcreds, Hc, Hs, Hn. simpl orb. cbv iota.
    set (prompt := buildPrompt _ _ _ _ _ _).
    set (w1 := setPage hideError (setPage (setBusy true) w)).
    destruct (requestBody_total br (model_select f) prompt (negative_prompt f) w1)
      as [req Hreq].
    rewrite (@generateImage_run br (model_select f) prompt (negative_prompt f)
               (size_select f) w1 req Hreq).
    exists req. split.
    + destruct (decoded br _); reflexivity.
    + exact (@requestBody_prompt br (model_select f) prompt (negative_prompt f)
               w1 _ req Hreq).
Qed.

Lemma handleGenerate_validation_witness :
  handleGenerate Demo.browser (Demo.tessa "Centered face icon." "" 64)
    Demo.connected
  = showError "Please fill in world context, style, and character name"
      Demo.connected
  /\ exists req,
       invocations
         (handleGenerate Demo.browser
            (Demo.tessa "Centered face icon." Demo.stationContext 64)
            Demo.connected)
       = [mkInvocation Demo.titanModel req].
Proof.
  destruct (@handleGenerate_validation Demo.browser
              (Demo.tessa "Centered face icon." "" 64) Demo.connected
              ("AKIAEXAMPLE", "secret") eq_refl) as [Hreject _].
  destruct (@handleGenerate_validation Demo.browser
              (Demo.tessa "Centered face icon." Demo.stationContext 64)
              Demo.connected ("AKIAEXAMPLE", "secret") eq_refl) as [_ Haccept].
  split.
  - apply Hreject. left. reflexivity.
  - destruct Haccept as (req & Hsent & _); try discriminate.
    exists req. exact Hsent.
Defined.

(** C7, the claim as stated fails, both ways.  With an empty frame (and the
    other fields filled in) nothing is rejected: the request is sent.  With
    frame and character name filled in but an empty world context, the form
    is rejected and nothing is composed or sent. *)
Lemma frame_is_not_what_is_validated :
  (let w :=
     handleGenerate Demo.browser (Demo.tessa "" Demo.stationContext 64)
       Demo.connected in
   List.length (invocations w) = 1 /\ errorShown (page w) = false)
  /\ (let w :=
        handleGenerate Demo.browser (Demo.tessa "Centered face icon." "" 64)
          Demo.connected in
      invocations w = [] /\ errorShown (page w) = true
      /\ errorText (page w)
         = "Please fill in world context, style, and character name").
Proof. repeat split; vm_compute; reflexivity. Qed.

End Session.

(* ================================================================== *)
(** ** What a click on Generate leaves behind *)
(* ================================================================== *)

Module GenerateFacts.
Import Js Dom JsString App Wire Observations StringFacts RequestFacts.

Section WithBrowser.

Variable br : Browser.

(** Building the request looks at the random draws only: on a world with
    another page it builds the same request. *)
Lemma requestBody_setPage (model prompt negative : string) (f : Page -> Page)
    (w : World) :
  requestBody br model prompt negative (setPage f w)
  = (fst (requestBody br model prompt negative w),
     setPage f (snd (requestBody br model prompt negative w))).
Proof.
  unfold requestBody.
  destruct (startsWith model "amazon.titan");
    [|destruct (startsWith model "stability.sd3")];
    destruct (nonEmpty negative); reflexivity.
Qed.

(** [generateImage] neither reads nor writes the page. *)
Lemma generateImage_setPage (model prompt negative : string)
    (size : JsNumber.number) (f : Page -> Page) (w : World) :
  generateImage br model prompt negative size (setPage f w)
  = (fst (generateImage br model prompt negative size w),
     setPage f (snd (generateImage br model prompt negative size w))).
Proof.
  destruct (requestBody_total br model prompt negative w) as [req Hreq].
  destruct (requestBody_total br model prompt negative (setPage f w))
    as [req' Hreq'].
  pose proof (requestBody_setPage model prompt negative f w) as H.
  rewrite Hreq, Hreq' in H. simpl in H.
  assert (req' = req) by congruence. subst req'.
  rewrite (@generateImage_run br model prompt negative size w req Hreq).
  rewrite (@generateImage_run br model prompt negative size (setPage f w) req Hreq').
  reflexivity.
Qed.

(** [handleGenerate] in a connected session with the three checked fields
    filled in, in terms of what [generateImage] returns. *)
Lemma handleGenerate_outcome (f : Form) (w : World) (creds : string * string) :
  awsCredentials w = Some creds ->
  world_context f <> "" -> world_style f <> "" -> char_name f <> "" ->
  let run :=
    generateImage br (model_select f)
      (buildPrompt (world_context f) (world_style f) (char_name f)
         (char_role f) (char_description f) (prompt_frame f))
      (negative_prompt f) (size_select f) w in
  handleGenerate br f w
  = setPage (setBusy false)
      (match fst run with
       | Ok imageBytes => displayResult imageBytes
       | Throw err => showError (shownMessage err)
       end (setPage hideError (setPage (setBusy true) (snd run)))).
Proof.
  intros Hcreds Hc Hs Hn run.
  apply nonEmpty_true in Hc, Hs, Hn.
  unfold handleGenerate. rewrite Hcreds, Hc, Hs, Hn. simpl orb. cbv iota.
  rewrite !generateImage_setPage. fold run.
  destruct (fst run); reflexivity.
Qed.

(** X1.  In a connected session with world context, style and character
    name filled in, when [generateImage] returns bytes, [handleGenerate]
    makes them the result image, hides the generator section and shows the
    results section, hides the error box and leaves the button enabled and
    the spinner hidden; the status line and the error text stay as they
    were. *)
Theorem generated_image_is_displayed
    (f : Form) (w : World) (creds : string * string) (imageBytes : list byte) :
  awsCredentials w = Some creds ->
  world_context f <> "" -> world_style f <> "" -> char_name f <> "" ->
  fst (generateImage br (model_select f)
         (buildPrompt (world_context f) (world_style f) (char_name f)
            (char_role f) (char_description f) (prompt_frame f))
         (negative_prompt f) (size_select f) w)
  = Ok imageBytes ->
  page (handleGenerate br f w)
  = mkPage (statusText (page w)) (statusClass (page w)) (errorText (page w))
      false false false (Some imageBytes) false true.
Proof.
  intros Hcreds Hc Hs Hn Hrun.
  rewrite (@handleGenerate_outcome f w creds Hcreds Hc Hs Hn). cbv zeta.
  rewrite Hrun.
  destruct (requestBody_total br (model_select f)
              (buildPrompt (world_context f) (world_style f) (char_name f)
                 (char_role f) (char_description f) (prompt_frame f))
              (negative_prompt f) w) as [req Hreq].
  rewrite (@generateImage_run br _ _ _ (size_select f) w req Hreq).
  reflexivity.
Qed.

(** X2.  In a connected session with the three checked fields filled in,
    when [generateImage] throws, [handleGenerate] shows the error box with
    the exception's message, or with [Generation failed] when the message is
    empty; the button is enabled again, the spinner hidden, and the result
    image and the two sections stay as they were. *)
Theorem failed_generation_is_reported
    (f : Form) (w : World) (creds : string * string) (err : exn) :
  awsCredentials w = Some creds ->
  world_context f <> "" -> world_style f <> "" -> char_name f <> "" ->
  fst (generateImage br (model_select f)
         (buildPrompt (world_context f) (world_style f) (char_name f)
            (char_role f) (char_description f) (prompt_frame f))
         (negative_prompt f) (size_select f) w)
  = Throw err ->
  page (handleGenerate br f w)
  = mkPage (statusText (page w)) (statusClass (page w))
      (if nonEmpty (message err) then message err else "Generation failed")
      true false false
      (resultImage (page w)) (generatorShown (page w)) (resultsShown (page w)).
Proof.
  intros Hcreds Hc Hs Hn Hrun.
  rewrite (@handleGenerate_outcome f w creds Hcreds Hc Hs Hn). cbv zeta.
  rewrite Hrun.
  destruct (requestBody_total br (model_select f)
              (buildPrompt (world_context f) (world_style f) (char_name f)
                 (char_role f) (char_description f) (prompt_frame f))
              (negative_prompt f) w) as [req Hreq].
  rewrite (@generateImage_run br _ _ _ (size_select f) w req Hreq).
  reflexivity.
Qed.

(** X3.  When the backend call itself is rejected, the request has still
    been sent and logged, the rejection's message (or [Generation failed])
    is what the error box shows, and an image displayed before stays. *)
Theorem rejected_call_is_reported
    (f : Form) (w : World) (creds : string * string) (err : exn) :
  awsCredentials w = Some creds ->
  world_context f <> "" -> world_style f <> "" -> char_name f <> "" ->
  (forall req,
     respond br (List.length (invocations w)) (model_select f) req = Throw err) ->
  List.length (invocations (handleGenerate br f w))
  = S (List.length (invocations w))
  /\ errorShown (page (handleGenerate br f w)) = true
  /\ errorText (page (handleGenerate br f w))
     = (if nonEmpty (message err) then message err else "Generation failed")
  /\ resultImage (page (handleGenerate br f w)) = resultImage (page w).
Proof.
  intros Hcreds Hc Hs Hn Hreject.
  rewrite (@handleGenerate_outcome f w creds Hcreds Hc Hs Hn). cbv zeta.
  destruct (requestBody_total br (model_select f)
              (buildPrompt (world_context f) (world_style f) (char_name f)
                 (char_role f) (char_description f) (prompt_frame f))
              (negative_prompt f) w) as [req Hreq].
  rewrite (@generateImage_run br _ _ _ (size_select f) w req Hreq).
  simpl fst. simpl snd. unfold decoded. rewrite Hreject. simpl.
  rewrite length_app. simpl. repeat split. lia.
Qed.

End WithBrowser.

Lemma generated_image_is_displayed_witness :
  page (handleGenerate Demo.browser Visit.portraitForm Demo.connected)
  = mkPage "" "" "" false false false (Some [x41; x42; x43]%byte) false true.
Proof.
  apply (@generated_image_is_displayed Demo.browser Visit.portraitForm
           Demo.connected ("AKIAEXAMPLE", "secret") [x41; x42; x43]%byte);
    [ reflexivity | discriminate | discriminate | discriminate
    | vm_compute; reflexivity ].
Defined.

Lemma failed_generation_is_reported_witness :
  page (handleGenerate Demo.imagelessBrowser Visit.portraitForm Demo.connected)
  = mkPage "" "" "No image in response" true false false None true false.
Proof.
  apply (@failed_generation_is_reported Demo.imagelessBrowser
           Visit.portraitForm Demo.connected ("AKIAEXAMPLE", "secret")
           (mkExn "Error" "No image in response"));
    [ reflexivity | discriminate | discriminate | discriminate
    | vm_compute; reflexivity ].
Defined.

Lemma rejected_call_is_reported_witness :
  List.length
    (invocations
       (handleGenerate Visit.rejectingBrowser Visit.portraitForm Demo.connected))
  = 1
  /\ errorText
       (page (handleGenerate Visit.rejectingBrowser Visit.portraitForm
                Demo.connected))
     = "Access denied".
Proof.
  destruct (@rejected_call_is_reported Visit.rejectingBrowser
              Visit.portraitForm Demo.connected ("AKIAEXAMPLE", "secret")
              (mkExn "AccessDeniedException" "Access denied"))
    as (Hsent & _ & Htext & _);
    [ reflexivity | discriminate | discriminate | discriminate
    | intros req; reflexivity | ].
  split; [exact Hsent | exact Htext].
Defined.

End GenerateFacts.

(* ================================================================== *)
(** ** Which part of a reply becomes the image *)
(* ================================================================== *)

Module ReplyFacts.
Import Js Dom JsString App Wire StringFacts RequestFacts.

(** X4.  When [images] is absent or falsy and [artifacts] is an array
    starting with an object, the base64 text is the [base64] property of
    that first object alone, whatever the model id and whatever follows in
    the array, and what [generateImage] returns is [atob] of it, unit by
    unit. *)
Theorem image_taken_from_first_artifact
    (br : Browser) (model prompt negative : string) (size : JsNumber.number)
    (w : World) (responseBody images : value)
    (props : list (string * value)) (others : list value) :
  (forall req, respond br (List.length (invocations w)) model req = Ok responseBody) ->
  get responseBody "images" = Ok images ->
  truthy images = false ->
  get responseBody "artifacts" = Ok (Arr (Obj props :: others)) ->
  base64Image responseBody = Ok (lookup "base64" props)
  /\ fst (generateImage br model prompt negative size w)
     = (binary <~ atob br (lookup "base64" props) ;;
        Ok (Uint8Array_from binary)).
Proof.
  intros Hreply Himages Hfalsy Hartifacts.
  assert (Hsel : base64Image responseBody = Ok (lookup "base64" props)).
  { unfold base64Image. rewrite Himages. simpl andThen. rewrite Hfalsy.
    rewrite Hartifacts. reflexivity. }
  split; [exact Hsel|].
  destruct (requestBody_total br model prompt negative w) as [req Hreq].
  rewrite (@generateImage_run br model prompt negative size w req Hreq).
  simpl fst. unfold decoded. rewrite Hreply. simpl andThen. now rewrite Hsel.
Qed.

Lemma image_taken_from_first_artifact_witness :
  base64Image (Demo.artifactsReply "QUJD") = Ok (Str "QUJD")
  /\ fst (generateImage Visit.artifactsBrowser Demo.titanModel "A portrait" ""
            (JsNumber.ofZ 64) Demo.connected)
     = Ok [x41; x42; x43]%byte.
Proof.
  destruct (@image_taken_from_first_artifact Visit.artifactsBrowser
              Demo.titanModel "A portrait" "" (JsNumber.ofZ 64) Demo.connected
              (Demo.artifactsReply "QUJD") Undefined
              [("base64", Str "QUJD"); ("finishReason", Str "SUCCESS")] [])
    as (Hsel & Hbytes);
    [ intros req; reflexivity | reflexivity | reflexivity | reflexivity | ].
  split; [exact Hsel | exact Hbytes].
Defined.


(** X5.  An empty [artifacts] array is truthy: with [images] absent or
    falsy, [generateImage] then throws the [TypeError] of reading [base64]
    of [undefined], not the error [No image in response]. *)
Theorem empty_artifacts_is_a_TypeError
    (br : Browser) (model prompt negative : string) (size : JsNumber.number)
    (w : World) (responseBody images : value) :
  (forall req, respond br (List.length (invocations w)) model req = Ok responseBody) ->
  get responseBody "images" = Ok images ->
  truthy images = false ->
  get responseBody "artifacts" = Ok (Arr []) ->
  exists err,
    fst (generateImage br model prompt negative size w) = Throw err
    /\ name err = "TypeError"
    /\ err <> Error "No image in response".
Proof.
  intros Hreply Himages Hfalsy Hartifacts.
  exists (readOfNullish Undefined "base64").
  split; [|split; [reflexivity | discriminate]].
  destruct (requestBody_total br model prompt negative w) as [req Hreq].
  rewrite (@generateImage_run br model prompt negative size w req Hreq).
  simpl fst. unfold decoded. rewrite Hreply. simpl andThen.
  unfold base64Image. rewrite Himages. simpl andThen. rewrite Hfalsy.
  rewrite Hartifacts. reflexivity.
Qed.

Lemma empty_artifacts_is_a_TypeError_witness :
  exists err,
    fst (generateImage Visit.emptyArtifactsBrowser Demo.sdxlModel "A portrait"
           "" (JsNumber.ofZ 64) Demo.connected)
    = Throw err
    /\ name err = "TypeError".
Proof.
  destruct (@empty_artifacts_is_a_TypeError Visit.emptyArtifactsBrowser
              Demo.sdxlModel "A portrait" "" (JsNumber.ofZ 64) Demo.connected
              (Obj [("artifacts", Arr [])]) Undefined)
    as (err & Hthrown & Hname & _);
    [ intros req; reflexivity | reflexivity | reflexivity | reflexivity | ].
  exists err. split; [exact Hthrown | exact Hname].
Defined.


End ReplyFacts.

(* ================================================================== *)
(** ** The prompt that reaches the backend *)
(* ================================================================== *)

Module PromptFacts.
Import Js Dom JsString App Wire StringFacts RequestFacts.

Lemma take_append (a b : string) (n : nat) :
  n <= String.length a ->
  String.substring 0 n (a ++ b) = String.substring 0 n a.
Proof.
  revert n; induction a as [|c a IH]; intros [|n] H; simpl in *;
    try reflexivity; try lia.
  - destruct b; reflexivity.
  - f_equal. apply IH. lia.
Qed.

(** Cutting at or before the end of the first part ignores what follows. *)
Lemma substring_append (a b : string) (n : nat) :
  n <= String.length a -> substring (a ++ b) 0 n = substring a 0 n.
Proof.
  intros H. rewrite !substring_from_0.
  assert (Hlen : String.length (a ++ b) = String.length a + String.length b).
  { clear. induction a as [|c a IH]; simpl; [reflexivity | now rewrite IH]. }
  rewrite Hlen, !Nat.min_l by lia. now apply take_append.
Qed.

(** X6.  [buildPrompt] puts the frame first and [generateImage] cuts the
    prompt at the adapter's limit, so with a frame at least as long as the
    limit the request carries the start of the frame and nothing of the
    character, the setting or the style. *)
Theorem long_frame_crowds_out_the_rest
    (br : Browser) (context style name role description frame : string)
    (model negative : string) (size : JsNumber.number) (w : World) :
  promptLimit (adapterFor model) <= String.length frame ->
  exists req,
    invocations
      (snd (generateImage br model
              (buildPrompt context style name role description frame)
              negative size w))
    = (invocations w ++ [mkInvocation model req])%list
    /\ promptText (adapterFor model) req
       = Ok (Str (substring frame 0 (promptLimit (adapterFor model)))).
Proof.
  intros Hlong.
  set (prompt := buildPrompt context style name role description frame).
  destruct (requestBody_total br model prompt negative w) as [req Hreq].
  exists req. split.
  - rewrite (@generateImage_run br model prompt negative size w req Hreq).
    reflexivity.
  - rewrite (@requestBody_prompt br model prompt negative w _ req Hreq).
    unfold prompt, buildPrompt. now rewrite substring_append.
Qed.

Lemma long_frame_crowds_out_the_rest_witness :
  exists req,
    invocations
      (snd (generateImage Demo.browser Demo.titanModel
              (buildPrompt Demo.stationContext "Clean sci-fi cartoon portraits"
                 "Tessa Quark" "Digger" "Optimistic smuggler-mechanic"
                 Visit.longFrame)
              "" (JsNumber.ofZ 64) Demo.connected))
    = [mkInvocation Demo.titanModel req]
    /\ promptText Titan req = Ok (Str (substring Visit.longFrame 0 512)).
Proof.
  apply (@long_frame_crowds_out_the_rest Demo.browser Demo.stationContext
           "Clean sci-fi cartoon portraits" "Tessa Quark" "Digger"
           "Optimistic smuggler-mechanic" Visit.longFrame Demo.titanModel ""
           (JsNumber.ofZ 64) Demo.connected).
  apply Nat.leb_le. vm_compute. reflexivity.
Defined.


(** X7.  A world context with at most one period is kept whole by
    [buildPrompt], which still appends its own period: a context that ends
    with its only period appears followed by two. *)
Theorem short_context_is_kept_whole
    (context style name role description frame : string) :
  count "." context <= 1 ->
  buildPrompt context style name role description frame
  = frame ++ LF ++ LF
    ++ "Character: " ++ name ++ ", " ++ role ++ "." ++ LF
    ++ description ++ LF ++ LF
    ++ "Setting: " ++ context ++ "." ++ LF ++ LF
    ++ "Style: " ++ style.
Proof.
  intros Hcount. unfold buildPrompt.
  destruct (join_first_two context ".") as [[Hwhole _] | [Hone [rest Hrest]]].
  - now rewrite Hwhole.
  - exfalso.
    apply (f_equal (count ".")) in Hrest.
    rewrite !count_append in Hrest. simpl in Hrest. lia.
Qed.

Lemma short_context_is_kept_whole_witness :
  buildPrompt "A far-future station." "Clean sci-fi" "Tessa Quark" "Digger"
    "Optimistic smuggler-mechanic" "Centered face icon."
  = "Centered face icon." ++ LF ++ LF
    ++ "Character: Tessa Quark, Digger." ++ LF
    ++ "Optimistic smuggler-mechanic" ++ LF ++ LF
    ++ "Setting: A far-future station.." ++ LF ++ LF
    ++ "Style: Clean sci-fi".
Proof.
  apply (@short_context_is_kept_whole "A far-future station." "Clean sci-fi"
           "Tessa Quark" "Digger" "Optimistic smuggler-mechanic"
           "Centered face icon.").
  apply Nat.leb_le. vm_compute. reflexivity.
Defined.


End PromptFacts.

(* ================================================================== *)
(** ** The seed, once more *)
(* ================================================================== *)

Module SeedFacts.
Import Js Dom JsString App Wire RequestFacts FloatFacts.




End SeedFacts.

(* ================================================================== *)
(** ** Facts about [trim], [toLowerCase] and [replace] *)
(* ================================================================== *)

Module TextFacts.
Import JsString JsText StringFacts.

Lemma trimEnd_empty (s : string) : trimEnd s = EmptyString <-> blank s = true.
Proof.
  induction s as [|c s IH]; simpl; [tauto|].
  destruct (trimEnd s) as [|d kept] eqn:E.
  - destruct (isWhiteSpace c); simpl.
    + split; intros _; [now apply IH | reflexivity].
    + split; discriminate.
  - split; [discriminate|]. intros H. apply andb_prop in H as [_ H].
    apply IH in H. discriminate.
Qed.

Lemma trimStart_blank (s : string) : blank s = true -> trimStart s = EmptyString.
Proof.
  induction s as [|c s IH]; simpl; [reflexivity|].
  intros H. apply andb_prop in H as [Hc Hs]. rewrite Hc. now apply IH.
Qed.

Lemma trimStart_suffix (s : string) :
  exists spaces, s = spaces ++ trimStart s /\ blank spaces = true.
Proof.
  induction s as [|c s (spaces & Hs & Hb)]; simpl.
  - exists EmptyString. now split.
  - destruct (isWhiteSpace c) eqn:Ec.
    + exists (String c spaces). simpl. rewrite Ec, Hb. split; [now f_equal | reflexivity].
    + exists EmptyString. now split.
Qed.

Lemma blank_append (a b : string) :
  blank (a ++ b) = blank a && blank b.
Proof.
  induction a as [|c a IH]; simpl; [reflexivity|].
  now rewrite IH, andb_assoc.
Qed.

(** A field of white space only, the empty field included, trims to the
    empty string, and no other does. *)
Lemma trim_empty (s : string) : trim s = EmptyString <-> blank s = true.
Proof.
  unfold trim. rewrite trimEnd_empty.
  destruct (trimStart_suffix s) as (spaces & Hs & Hb).
  split; intros H.
  - rewrite Hs, blank_append, Hb, H. reflexivity.
  - rewrite Hs, blank_append, Hb in H. exact H.
Qed.

(** What [trimStart] returns does not start with white space. *)
Lemma trimStart_head (s : string) :
  match trimStart s with
  | EmptyString => True
  | String c _ => isWhiteSpace c = false
  end.
Proof.
  induction s as [|c s IH]; simpl; [exact I|].
  destruct (isWhiteSpace c) eqn:Ec; [exact IH | exact Ec].
Qed.

Lemma trimStart_fixed (s : string) :
  match s with
  | EmptyString => True
  | String c _ => isWhiteSpace c = false
  end ->
  trimStart s = s.
Proof. destruct s as [|c s]; simpl; [reflexivity|]. now intros ->. Qed.

Lemma trimEnd_idempotent (s : string) : trimEnd (trimEnd s) = trimEnd s.
Proof.
  induction s as [|c s IH]; simpl; [reflexivity|].
  destruct (trimEnd s) as [|d kept] eqn:E.
  - destruct (isWhiteSpace c) eqn:Ec; simpl; [reflexivity | now rewrite Ec].
  - simpl in IH. simpl.
    destruct (trimEnd kept) as [|e kept'] eqn:E'.
    + destruct (isWhiteSpace d) eqn:Ed; [discriminate|].
      now rewrite IH.
    + now rewrite IH.
Qed.

(** [trimEnd] keeps the first unit of a string that does not start with
    white space. *)
Lemma trimEnd_head (s : string) :
  match s with
  | EmptyString => True
  | String c _ => isWhiteSpace c = false
  end ->
  match trimEnd s with
  | EmptyString => True
  | String c _ => isWhiteSpace c = false
  end.
Proof.
  destruct s as [|c s]; simpl; [trivial|].
  intros Hc. destruct (trimEnd s); [rewrite Hc|]; exact Hc.
Qed.

(** Trimming twice is trimming once: what is stored after [trim] has no
    white space left at either end. *)
Lemma trim_idempotent (s : string) : trim (trim s) = trim s.
Proof.
  unfold trim.
  rewrite (@trimStart_fixed (trimEnd (trimStart s))).
  - apply trimEnd_idempotent.
  - apply trimEnd_head, trimStart_head.
Qed.

Lemma trim_spaceless (s : string) : spaceless s = true -> trim s = s.
Proof.
  intros H. unfold trim.
  assert (Hstart : trimStart s = s).
  { destruct s as [|c s]; simpl in *; [reflexivity|].
    apply andb_prop in H as [Hc _]. apply negb_true_iff in Hc. now rewrite Hc. }
  rewrite Hstart. clear Hstart.
  induction s as [|c s IH]; simpl in *; [reflexivity|].
  apply andb_prop in H as [Hc Hs]. apply negb_true_iff in Hc.
  rewrite (IH Hs). destruct s; [now rewrite Hc | reflexivity].
Qed.

End TextFacts.

(* ================================================================== *)
(** ** Connecting, generating, downloading: single steps *)
(* ================================================================== *)

Module ConsoleFacts.
Import Js Dom JsString JsText App Wire Observations StringFacts RequestFacts
  GenerateFacts TextFacts Console.

Section WithServices.

Variable br : Browser.
Variable aws : Aws.

(** What a click on Generate does, by cases. *)
Lemma handleGenerate_cases (f : Form) (w : World) :
  (awsCredentials w = None
   /\ App.handleGenerate br f w
      = App.showStatus "Not connected. Please enter your AWS credentials."
          "error" w)
  \/ (awsCredentials w <> None
      /\ (world_context f = "" \/ world_style f = "" \/ char_name f = "")
      /\ App.handleGenerate br f w
         = showError "Please fill in world context, style, and character name" w)
  \/ (awsCredentials w <> None
      /\ world_context f <> "" /\ world_style f <> "" /\ char_name f <> ""
      /\ exists req result,
           App.handleGenerate br f w
           = setPage (setBusy false)
               (match result with
                | Ok imageBytes => displayResult imageBytes
                | Throw err => showError (shownMessage err)
                end
                  (setPage hideError
                     (setPage (setBusy true)
                        (mkWorld (awsCredentials w) (S (randomCalls w))
                           (invocations w ++ [mkInvocation (model_select f) req])
                           (page w)))))).
Proof.
  destruct (awsCredentials w) as [creds|] eqn:Hcreds.
  - destruct (world_context f) as [|c1 r1] eqn:Hc;
      [right; left; repeat split; try discriminate; auto;
       unfold App.handleGenerate; rewrite Hcreds, Hc; reflexivity|].
    destruct (world_style f) as [|c2 r2] eqn:Hs;
      [right; left; repeat split; try discriminate; auto;
       unfold App.handleGenerate; rewrite Hcreds, Hc, Hs; reflexivity|].
    destruct (char_name f) as [|c3 r3] eqn:Hn;
      [right; left; repeat split; try discriminate; auto;
       unfold App.handleGenerate; rewrite Hcreds, Hc, Hs, Hn; reflexivity|].
    right; right. repeat split; try discriminate.
    assert (Hc' : world_context f <> "") by (rewrite Hc; discriminate).
    assert (Hs' : world_style f <> "") by (rewrite Hs; discriminate).
    assert (Hn' : char_name f <> "") by (rewrite Hn; discriminate).
    pose proof (@handleGenerate_outcome br f w creds Hcreds Hc' Hs' Hn') as H.
    cbv zeta in H. rewrite Hc, Hs, Hn in H.
    set (prompt := buildPrompt _ _ _ _ _ _) in H.
    destruct (requestBody_total br (model_select f) prompt (negative_prompt f) w)
      as [req Hreq].
    rewrite (@generateImage_run br _ _ _ (size_select f) w req Hreq) in H.
    simpl fst in H. simpl snd in H.
    exists req, (decoded br (respond br (List.length (invocations w)) (model_select f) req)).
    rewrite Hcreds in H. exact H.
  - left. split; [reflexivity|]. unfold App.handleGenerate. now rewrite Hcreds.
Qed.

(** X9.  [handleConnect] refuses keys it can see are wrong without
    calling AWS: when either key is empty or all white space, or the trimmed
    access key starts with neither [AKIA] nor [ASIA], no validation call is
    made, the stored account and the SDK configuration stay as they were,
    and the status line shows the matching message with the class
    [status error]. *)
Theorem malformed_keys_are_rejected_locally (s : Site) :
  blank (accessKeyField s) = true
  \/ blank (secretKeyField s) = true
  \/ (startsWith (trim (accessKeyField s)) "AKIA" = false
      /\ startsWith (trim (accessKeyField s)) "ASIA" = false) ->
  validations (handleConnect aws s) = validations s
  /\ awsCredentials (world (handleConnect aws s)) = awsCredentials (world s)
  /\ sdkCredentials (handleConnect aws s) = sdkCredentials s
  /\ sdkRegion (handleConnect aws s) = sdkRegion s
  /\ statusClass (page (world (handleConnect aws s))) = "status error"
  /\ statusText (page (world (handleConnect aws s)))
     = (if blank (accessKeyField s) || blank (secretKeyField s)
        then "Please enter both Access Key ID and Secret Access Key"
        else "Access Key ID should start with AKIA or ASIA").
Proof.
  intros H. unfold handleConnect.
  destruct (blank (accessKeyField s)) eqn:Bk.
  - apply trim_empty in Bk. rewrite Bk. simpl. repeat split.
  - destruct (blank (secretKeyField s)) eqn:Bs.
    + apply trim_empty in Bs. rewrite Bs. simpl. rewrite orb_true_r.
      repeat split.
    + destruct H as [H | [H | [Ha Hb]]]; try discriminate.
      assert (Hk : nonEmpty (trim (accessKeyField s)) = true).
      { apply nonEmpty_true. intros E. apply trim_empty in E. congruence. }
      assert (Hs : nonEmpty (trim (secretKeyField s)) = true).
      { apply nonEmpty_true. intros E. apply trim_empty in E. congruence. }
      rewrite Hk, Hs, Ha, Hb. simpl. repeat split.
Qed.

Lemma handleConnect_malformed (s : Site) :
  wellFormedKeys (trim (accessKeyField s)) (trim (secretKeyField s)) = false ->
  exists msg, handleConnect aws s = showStatus msg "error" s.
Proof.
  unfold wellFormedKeys, handleConnect. intros H.
  destruct (nonEmpty (trim (accessKeyField s))); simpl in *; [| eauto].
  destruct (nonEmpty (trim (secretKeyField s))); simpl in *; [| eauto].
  apply orb_false_iff in H. destruct H as [-> ->]. simpl. eauto.
Qed.

Lemma handleConnect_wellFormed (s : Site) :
  let key := trim (accessKeyField s) in
  let secret := trim (secretKeyField s) in
  let call := mkValidation (regionField s) key secret in
  let asked :=
    mkSite (App.showStatus "Validating credentials..." "" (world s))
      (awsRegion s) (Some (regionField s)) (Some (key, secret))
      (regionField s) (accessKeyField s) (secretKeyField s) (form s)
      (credentialsFormShown s) (connectedViewShown s) (connectedRegion s)
      (validations s ++ [call])%list (downloads s) in
  wellFormedKeys key secret = true ->
  handleConnect aws s
  = match listFoundationModels aws (List.length (validations s)) call with
    | Ok _ =>
        showStatus "Connected successfully" "success"
          (showConnectedState
             (setAccount (Some (key, secret)) (Some (regionField s)) asked))
    | Throw err =>
        setAccount None None
          (showStatus
             ("Connection failed: "
                ++ (if nonEmpty (message err) then message err
                    else "Invalid credentials"))
             "error" asked)
    end.
Proof.
  intros key secret call asked H. unfold wellFormedKeys in H.
  apply andb_true_iff in H. destruct H as [H Hp].
  apply andb_true_iff in H. destruct H as [Hk Hs].
  unfold handleConnect. fold key secret. rewrite Hk, Hs. simpl orb.
  assert (Hn : negb (startsWith key "AKIA") && negb (startsWith key "ASIA") = false).
  { apply orb_true_iff in Hp. destruct Hp as [-> | ->]; simpl;
      [reflexivity | apply andb_false_r]. }
  rewrite Hn. reflexivity.
Qed.

Lemma wellFormedKeys_intro (key secret : string) :
  key <> "" -> secret <> "" ->
  startsWith key "AKIA" = true \/ startsWith key "ASIA" = true ->
  wellFormedKeys key secret = true.
Proof.
  intros Hk Hs Hp. unfold wellFormedKeys.
  apply nonEmpty_true in Hk, Hs. rewrite Hk, Hs. simpl.
  apply orb_true_iff. exact Hp.
Qed.

(** X10.  When the trimmed keys pass the local checks and AWS accepts the
    validation call, that call was made with the trimmed keys and the
    selected region, the page stores exactly those, hides the credentials
    form, shows the connected view with the region in parentheses and the
    generator section, and reports [Connected successfully]. *)
Theorem accepted_credentials_are_stored_trimmed (s : Site) :
  let key := trim (accessKeyField s) in
  let secret := trim (secretKeyField s) in
  let call := mkValidation (regionField s) key secret in
  key <> "" -> secret <> "" ->
  startsWith key "AKIA" = true \/ startsWith key "ASIA" = true ->
  listFoundationModels aws (List.length (validations s)) call = Ok tt ->
  let after := handleConnect aws s in
  awsCredentials (world after) = Some (key, secret)
  /\ awsRegion after = Some (regionField s)
  /\ validations after = (validations s ++ [call])%list
  /\ credentialsFormShown after = false
  /\ connectedViewShown after = true
  /\ connectedRegion after = "(" ++ regionField s ++ ")"
  /\ generatorShown (page (world after)) = true
  /\ statusText (page (world after)) = "Connected successfully"
  /\ statusClass (page (world after)) = "status success".
Proof.
  intros key secret call Hk Hs Hprefix Hok after.
  unfold after. rewrite (@handleConnect_wellFormed s).
  - fold key secret call. rewrite Hok. repeat split.
  - apply wellFormedKeys_intro; assumption.
Qed.

(** X11.  When AWS rejects the validation call, the page holds no account
    and no region afterwards, also when it held one before, and the status
    line reads [Connection failed: ] followed by the error's message, or by
    [Invalid credentials] when the message is empty.  The sections are left
    as they were, and the SDK stays configured with the rejected keys. *)
Theorem refused_credentials_are_forgotten (s : Site) (err : exn) :
  let key := trim (accessKeyField s) in
  let secret := trim (secretKeyField s) in
  let call := mkValidation (regionField s) key secret in
  key <> "" -> secret <> "" ->
  startsWith key "AKIA" = true \/ startsWith key "ASIA" = true ->
  listFoundationModels aws (List.length (validations s)) call = Throw err ->
  let after := handleConnect aws s in
  awsCredentials (world after) = None
  /\ awsRegion after = None
  /\ validations after = (validations s ++ [call])%list
  /\ sdkCredentials after = Some (key, secret)
  /\ credentialsFormShown after = credentialsFormShown s
  /\ connectedViewShown after = connectedViewShown s
  /\ generatorShown (page (world after)) = generatorShown (page (world s))
  /\ resultsShown (page (world after)) = resultsShown (page (world s))
  /\ statusText (page (world after))
     = "Connection failed: "
       ++ (if nonEmpty (message err) then message err else "Invalid credentials")
  /\ statusClass (page (world after)) = "status error".
Proof.
  intros key secret call Hk Hs Hprefix Hko after.
  unfold after. rewrite (@handleConnect_wellFormed s).
  - fold key secret call. rewrite Hko. repeat split.
  - apply wellFormedKeys_intro; assumption.
Qed.

(** X12.  [handleDisconnect] forgets the account, the region and the SDK
    credentials, empties the two key fields (not the region), shows the
    credentials form and hides the connected view, the generator and the
    results, but keeps the result image.  Right after it, a click on
    Generate sends nothing and a click on Connect is refused without a
    validation call. *)
Theorem disconnect_forgets_the_account (s : Site) :
  let after := handleDisconnect s in
  awsCredentials (world after) = None
  /\ awsRegion after = None
  /\ sdkCredentials after = None
  /\ accessKeyField after = "" /\ secretKeyField after = ""
  /\ regionField after = regionField s
  /\ credentialsFormShown after = true
  /\ connectedViewShown after = false
  /\ generatorShown (page (world after)) = false
  /\ resultsShown (page (world after)) = false
  /\ resultImage (page (world after)) = resultImage (page (world s))
  /\ invocations (world (handleGenerate br after)) = invocations (world s)
  /\ validations (handleConnect aws after) = validations s
  /\ awsCredentials (world (handleConnect aws after)) = None.
Proof. cbv zeta. repeat split. Qed.

End WithServices.

Lemma malformed_keys_are_rejected_locally_witness :
  validations (handleConnect Visit.accepting (Visit.arrival "   " "secret")) = []
  /\ statusText
       (page (world (handleConnect Visit.accepting (Visit.arrival "   " "secret"))))
     = "Please enter both Access Key ID and Secret Access Key".
Proof.
  destruct (@malformed_keys_are_rejected_locally Visit.accepting
              (Visit.arrival "   " "secret"))
    as (Hcalls & _ & _ & _ & _ & Htext); [left; reflexivity|].
  split; [exact Hcalls | exact Htext].
Defined.

Lemma accepted_credentials_are_stored_trimmed_witness :
  awsCredentials
    (world (handleConnect Visit.accepting
              (Visit.arrival "  AKIAEXAMPLE " " secret")))
  = Some ("AKIAEXAMPLE", "secret")
  /\ validations
       (handleConnect Visit.accepting (Visit.arrival "  AKIAEXAMPLE " " secret"))
     = [mkValidation "us-east-1" "AKIAEXAMPLE" "secret"].
Proof.
  destruct (@accepted_credentials_are_stored_trimmed Visit.accepting
              (Visit.arrival "  AKIAEXAMPLE " " secret"))
    as (Hstored & _ & Hcalls & _);
    [ discriminate | discriminate | left; reflexivity | reflexivity | ].
  split; [exact Hstored | exact Hcalls].
Defined.

Lemma refused_credentials_are_forgotten_witness :
  awsCredentials
    (world (handleConnect Visit.refusing (Visit.arrival "ASIAEXAMPLE" "secret")))
  = None
  /\ statusText
       (page (world (handleConnect Visit.refusing
                       (Visit.arrival "ASIAEXAMPLE" "secret"))))
     = "Connection failed: The security token included in the request is invalid.".
Proof.
  destruct (@refused_credentials_are_forgotten Visit.refusing
              (Visit.arrival "ASIAEXAMPLE" "secret")
              (mkExn "UnrecognizedClientException"
                 "The security token included in the request is invalid."))
    as (Hnone & _ & _ & _ & _ & _ & _ & _ & Htext & _);
    [ discriminate | discriminate | right; reflexivity | reflexivity | ].
  split; [exact Hnone | exact Htext].
Defined.

End ConsoleFacts.

(* ================================================================== *)
(** ** What holds after every sequence of events *)
(* ================================================================== *)

Module TraceFacts.
Import Js Dom JsString JsText App Console Wire StringFacts TextFacts
  GenerateFacts ConsoleFacts Observations.

Section WithServices.

Variable br : Browser.
Variable aws : Aws.

Lemma run_invariant (P : Site -> Prop) :
  (forall s ev, P s -> P (dispatch br aws s ev)) ->
  forall events s, P s -> P (run br aws events s).
Proof.
  intros step events. unfold run.
  induction events as [|ev events IH]; simpl; intros s H; [exact H|].
  apply IH. now apply step.
Qed.

Lemma run_app (before after : list Event) (s : Site) :
  run br aws (before ++ after)%list s = run br aws after (run br aws before s).
Proof. unfold run. apply fold_left_app. Qed.

Lemma handleGenerate_credentials (f : Form) (w : World) :
  awsCredentials (App.handleGenerate br f w) = awsCredentials w.
Proof.
  destruct (handleGenerate_cases br f w)
    as [[_ ->] | [(_ & _ & ->) | (_ & _ & _ & _ & req & [b|e] & ->)]];
    reflexivity.
Qed.

Lemma handleConnect_preserves (P : Site -> Prop) (s : Site) :
  (forall msg, P (showStatus msg "error" s)) ->
  (wellFormedKeys (trim (accessKeyField s)) (trim (secretKeyField s)) = true ->
   forall outcome,
     outcome = listFoundationModels aws (List.length (validations s))
                 (mkValidation (regionField s) (trim (accessKeyField s))
                    (trim (secretKeyField s))) ->
     handleConnect aws s
     = match outcome with
       | Ok _ =>
           showStatus "Connected successfully" "success"
             (showConnectedState
                (setAccount
                   (Some (trim (accessKeyField s), trim (secretKeyField s)))
                   (Some (regionField s))
                   (mkSite (App.showStatus "Validating credentials..." "" (world s))
                      (awsRegion s) (Some (regionField s))
                      (Some (trim (accessKeyField s), trim (secretKeyField s)))
                      (regionField s) (accessKeyField s) (secretKeyField s) (form s)
                      (credentialsFormShown s) (connectedViewShown s)
                      (connectedRegion s)
                      (validations s
                         ++ [mkValidation (regionField s) (trim (accessKeyField s))
                               (trim (secretKeyField s))])%list
                      (downloads s))))
       | Throw err =>
           setAccount None None
             (showStatus
                ("Connection failed: "
                   ++ (if nonEmpty (message err) then message err
                       else "Invalid credentials"))
                "error"
                (mkSite (App.showStatus "Validating credentials..." "" (world s))
                   (awsRegion s) (Some (regionField s))
                   (Some (trim (accessKeyField s), trim (secretKeyField s)))
                   (regionField s) (accessKeyField s) (secretKeyField s) (form s)
                   (credentialsFormShown s) (connectedViewShown s)
                   (connectedRegion s)
                   (validations s
                      ++ [mkValidation (regionField s) (trim (accessKeyField s))
                            (trim (secretKeyField s))])%list
                   (downloads s)))
       end ->
     P (handleConnect aws s)) ->
  P (handleConnect aws s).
Proof.
  intros Hbad Hgood.
  destruct (wellFormedKeys (trim (accessKeyField s)) (trim (secretKeyField s)))
    eqn:W.
  - apply (Hgood eq_refl _ eq_refl). now apply handleConnect_wellFormed.
  - destruct (@handleConnect_malformed aws s W) as [msg ->]. apply Hbad.
Qed.

Lemma dispatch_accountConsistent (s : Site) (ev : Event) :
  accountConsistent s -> accountConsistent (dispatch br aws s ev).
Proof.
  intros H.
  assert (Hconnect : accountConsistent (handleConnect aws s)).
  { apply handleConnect_preserves.
    - intros msg. exact H.
    - intros W outcome _ ->. destruct outcome as [[]|err].
      + unfold accountConsistent. simpl. rewrite W.
        repeat split; try apply trim_idempotent.
        exists (regionField s). repeat split.
      + reflexivity. }
  destruct ev; simpl; try exact H; try exact Hconnect.
  - reflexivity.
  - unfold accountConsistent, handleGenerate. simpl.
    rewrite handleGenerate_credentials. exact H.
  - unfold accountConsistent, handleDownload.
    destruct (resultImage (page (world s))); exact H.
  - destruct (String.eqb key "Enter"); [exact Hconnect | exact H].
Qed.

Lemma dispatch_idle (s : Site) (ev : Event) :
  idle s -> idle (dispatch br aws s ev).
Proof.
  intros H.
  assert (Hconnect : idle (handleConnect aws s)).
  { apply handleConnect_preserves.
    - intros msg. exact H.
    - intros W outcome _ ->. destruct outcome as [[]|err]; exact H. }
  destruct ev; simpl; try exact H; try exact Hconnect.
  - unfold idle, handleGenerate. simpl.
    destruct (handleGenerate_cases br (form s) (world s))
      as [[_ ->] | [(_ & _ & ->) | (_ & _ & _ & _ & req & [b|e] & ->)]];
      try exact H; split; reflexivity.
  - unfold idle, handleDownload.
    destruct (resultImage (page (world s))); exact H.
  - destruct (String.eqb key "Enter"); [exact Hconnect | exact H].
Qed.

Lemma dispatch_resultsBacked (s : Site) (ev : Event) :
  resultsBacked s -> resultsBacked (dispatch br aws s ev).
Proof.
  intros H.
  assert (Hconnect : resultsBacked (handleConnect aws s)).
  { apply handleConnect_preserves.
    - intros msg. exact H.
    - intros W outcome _ ->. destruct outcome as [[]|err]; exact H. }
  destruct ev; simpl; try exact H; try exact Hconnect.
  - intros H'. discriminate H'.
  - unfold resultsBacked, handleGenerate. simpl.
    destruct (handleGenerate_cases br (form s) (world s))
      as [[_ ->] | [(_ & _ & ->) | (_ & _ & _ & _ & req & [b|e] & ->)]];
      try exact H. simpl. discriminate.
  - unfold resultsBacked, handleDownload.
    destruct (resultImage (page (world s))); exact H.
  - intros H'. discriminate H'.
  - destruct (String.eqb key "Enter"); [exact Hconnect | exact H].
Qed.

Lemma dispatch_keeps_an_image (s : Site) (ev : Event) :
  resultImage (page (world s)) <> None ->
  resultImage (page (world (dispatch br aws s ev))) <> None.
Proof.
  intros H.
  assert (Hconnect : resultImage (page (world (handleConnect aws s))) <> None).
  { apply (@handleConnect_preserves
             (fun s => resultImage (page (world s)) <> None)).
    - intros msg. exact H.
    - intros W outcome _ ->. destruct outcome as [[]|err]; exact H. }
  destruct ev; simpl; try exact H; try exact Hconnect.
  - destruct (handleGenerate_cases br (form s) (world s))
      as [[_ ->] | [(_ & _ & ->) | (_ & _ & _ & _ & req & [b|e] & ->)]];
      try exact H. simpl. discriminate.
  - unfold handleDownload.
    destruct (resultImage (page (world s))) eqn:E; simpl; rewrite ?E; congruence.
  - destruct (String.eqb key "Enter"); [exact Hconnect | exact H].
Qed.

(** X13.  Over any sequence of events, an account held by the page is
    consistent: its keys are trimmed, non-empty, the access key starts with
    [AKIA] or [ASIA], the SDK is configured with the same keys and region,
    the region label shows that region, the connected view is shown and the
    credentials form hidden; and without an account no region is held. *)
Theorem stored_account_stays_consistent (events : list Event) (s : Site) :
  accountConsistent s -> accountConsistent (run br aws events s).
Proof.
  apply (@run_invariant accountConsistent). intros s' ev.
  apply dispatch_accountConsistent.
Qed.

(** X14.  No sequence of events leaves the page busy: after each handler
    has run, the Generate button is enabled and the spinner hidden, whatever
    the backend answered. *)
Theorem page_is_never_left_busy (events : list Event) (s : Site) :
  idle s -> idle (run br aws events s).
Proof.
  apply (@run_invariant idle). intros s' ev. apply dispatch_idle.
Qed.

(** X15.  Over any sequence of events, the results section is shown only
    with an image in it, and an image once displayed is never removed, not
    even by disconnecting: it can only be replaced. *)
Theorem results_always_hold_an_image (events : list Event) (s : Site) :
  resultsBacked s ->
  resultsBacked (run br aws events s)
  /\ (resultImage (page (world s)) <> None ->
      resultImage (page (world (run br aws events s))) <> None).
Proof.
  intros H. split.
  - revert H. apply (@run_invariant resultsBacked). intros s' ev.
    apply dispatch_resultsBacked.
  - apply (@run_invariant (fun s => resultImage (page (world s)) <> None)).
    intros s' ev. apply dispatch_keeps_an_image.
Qed.

End WithServices.

Lemma stored_account_stays_consistent_witness :
  accountConsistent
    (run Demo.browser Visit.accepting
       [EditCredentials "eu-west-1" "ASIAEXAMPLE " "secret"; ClickConnect;
        ClickGenerate]
       (Visit.arrival "" "")).
Proof.
  apply (@stored_account_stays_consistent Demo.browser Visit.accepting).
  reflexivity.
Defined.

Lemma page_is_never_left_busy_witness :
  idle
    (run Visit.rejectingBrowser Visit.accepting [ClickGenerate; ClickGenerate]
       Visit.signedIn).
Proof.
  apply (@page_is_never_left_busy Visit.rejectingBrowser Visit.accepting).
  split; reflexivity.
Defined.

Lemma results_always_hold_an_image_witness :
  resultsShown
    (page (world (run Demo.browser Visit.accepting [ClickGenerate] Visit.signedIn)))
  = true
  /\ resultImage
       (page (world (run Demo.browser Visit.accepting [ClickGenerate] Visit.signedIn)))
     <> None
  /\ resultImage
       (page
          (world
             (run Demo.browser Visit.accepting [ClickRegenerate; ClickDisconnect]
                (run Demo.browser Visit.accepting [ClickGenerate] Visit.signedIn))))
     <> None.
Proof.
  destruct (@results_always_hold_an_image Demo.browser Visit.accepting
              [ClickGenerate] Visit.signedIn) as [Hbacked _];
    [intros H; discriminate H|].
  destruct (@results_always_hold_an_image Demo.browser Visit.accepting
              [ClickRegenerate; ClickDisconnect]
              (run Demo.browser Visit.accepting [ClickGenerate] Visit.signedIn))
    as [_ Hkept];
    [intros _; vm_compute; discriminate|].
  split; [vm_compute; reflexivity|]. split.
  - apply Hbacked. vm_compute. reflexivity.
  - apply Hkept. vm_compute. discriminate.
Defined.

End TraceFacts.

(* ================================================================== *)
(** ** What the page sends, and when *)
(* ================================================================== *)

Module LogFacts.
Import Js Dom JsString JsText App Console Wire StringFacts TextFacts
  GenerateFacts ConsoleFacts Observations TraceFacts.

Section WithServices.

Variable br : Browser.
Variable aws : Aws.

(** What one event adds to the log of requests and to the log of
    validation calls. *)
Lemma dispatch_logs (s : Site) (ev : Event) :
  let after := dispatch br aws s ev in
  (exists sent,
     invocations (world after) = (invocations (world s) ++ sent)%list
     /\ (List.length sent <= if isGenerate ev then 1 else 0)%nat
     /\ randomCalls (world after) = (randomCalls (world s) + List.length sent)%nat
     /\ (awsCredentials (world s) = None -> sent = []))
  /\ (exists asked,
        validations after = (validations s ++ asked)%list
        /\ (List.length asked <= if isConnect ev then 1 else 0)%nat
        /\ Forall checkedCall asked).
Proof.
  cbv zeta.
  assert (Hconnect :
    (exists sent,
       invocations (world (handleConnect aws s)) = (invocations (world s) ++ sent)%list
       /\ (List.length sent <= 0)%nat
       /\ randomCalls (world (handleConnect aws s))
          = (randomCalls (world s) + List.length sent)%nat
       /\ (awsCredentials (world s) = None -> sent = []))
    /\ (exists asked,
          validations (handleConnect aws s) = (validations s ++ asked)%list
          /\ (List.length asked <= 1)%nat
          /\ Forall checkedCall asked)).
  { apply (@handleConnect_preserves aws
      (fun after =>
         (exists sent,
            invocations (world after) = (invocations (world s) ++ sent)%list
            /\ (List.length sent <= 0)%nat
            /\ randomCalls (world after)
               = (randomCalls (world s) + List.length sent)%nat
            /\ (awsCredentials (world s) = None -> sent = []))
         /\ (exists asked,
               validations after = (validations s ++ asked)%list
               /\ (List.length asked <= 1)%nat
               /\ Forall checkedCall asked))).
    - intros msg. split.
      + exists []. simpl. rewrite app_nil_r. repeat split; auto.
      + exists []. simpl. rewrite app_nil_r. repeat split; auto.
    - intros W outcome _ ->. split.
      + exists []. destruct outcome as [[]|err]; simpl; rewrite app_nil_r;
          repeat split; auto.
      + exists [mkValidation (regionField s) (trim (accessKeyField s))
                  (trim (secretKeyField s))].
        destruct outcome as [[]|err]; simpl; (split; [reflexivity|]);
          (split; [lia|]); constructor; auto; unfold checkedCall; simpl;
          repeat split; auto using trim_idempotent. }
  assert (Hnone :
    forall after : Site,
      invocations (world after) = invocations (world s) ->
      randomCalls (world after) = randomCalls (world s) ->
      validations after = validations s ->
      forall a b : nat,
      (exists sent,
         invocations (world after) = (invocations (world s) ++ sent)%list
         /\ (List.length sent <= a)%nat
         /\ randomCalls (world after)
            = (randomCalls (world s) + List.length sent)%nat
         /\ (awsCredentials (world s) = None -> sent = []))
      /\ (exists asked,
            validations after = (validations s ++ asked)%list
            /\ (List.length asked <= b)%nat
            /\ Forall checkedCall asked)).
  { intros after Hi Hr Hv a b. split.
    - exists []. rewrite app_nil_r. simpl. repeat split; auto; lia.
    - exists []. rewrite app_nil_r. simpl. repeat split; auto; lia. }
  destruct ev; simpl dispatch; simpl isGenerate; simpl isConnect.
  - exact Hconnect.
  - apply Hnone; reflexivity.
  - split.
    + unfold handleGenerate. simpl world.
      destruct (handleGenerate_cases br (form s) (world s))
        as [[Hc ->] | [(Hc & _ & ->) | (Hc & _ & _ & _ & req & result & ->)]].
      * exists []. simpl. rewrite app_nil_r. repeat split; auto.
      * exists []. simpl. rewrite app_nil_r. repeat split; auto.
      * exists [mkInvocation (model_select (form s)) req].
        destruct result; simpl; repeat split; auto; try lia; contradiction.
    + exists []. simpl. rewrite app_nil_r. repeat split; auto.
  - unfold handleDownload. destruct (resultImage (page (world s)));
      apply Hnone; reflexivity.
  - apply Hnone; reflexivity.
  - destruct (String.eqb key "Enter").
    + exact Hconnect.
    + apply Hnone; reflexivity.
  - apply Hnone; reflexivity.
  - apply Hnone; reflexivity.
Qed.

(** X16.  The log of backend requests only grows, by at most one request
    for each click on Generate, and every request sent has drawn exactly one
    number from [Math.random]. *)
Theorem requests_follow_generate_clicks (events : list Event) (s : Site) :
  exists sent,
    invocations (world (run br aws events s))
    = (invocations (world s) ++ sent)%list
    /\ (List.length sent <= List.length (filter isGenerate events))%nat
    /\ randomCalls (world (run br aws events s))
       = (randomCalls (world s) + List.length sent)%nat.
Proof.
  revert s. unfold run.
  induction events as [|ev events IH]; intros s; simpl fold_left.
  - exists []. simpl. rewrite app_nil_r. repeat split; auto.
  - destruct (IH (dispatch br aws s ev)) as (later & Hi & Hl & Hr).
    destruct (dispatch_logs s ev) as [(sent & Hi0 & Hl0 & Hr0 & _) _].
    exists (sent ++ later)%list. rewrite Hi, Hi0, Hr, Hr0, app_assoc.
    rewrite length_app. repeat split; [| lia].
    simpl filter. destruct (isGenerate ev); simpl; lia.
Qed.

(** X17.  The log of validation calls only grows, by at most one call for
    each click on Connect or Enter in the secret key field, and each call
    made carries keys that are trimmed, non-empty and whose access key
    starts with [AKIA] or [ASIA]. *)
Theorem only_well_formed_keys_reach_aws (events : list Event) (s : Site) :
  exists asked,
    validations (run br aws events s) = (validations s ++ asked)%list
    /\ (List.length asked <= List.length (filter isConnect events))%nat
    /\ Forall checkedCall asked.
Proof.
  revert s. unfold run.
  induction events as [|ev events IH]; intros s; simpl fold_left.
  - exists []. simpl. rewrite app_nil_r. repeat split; auto.
  - destruct (IH (dispatch br aws s ev)) as (later & Hv & Hl & Hf).
    destruct (dispatch_logs s ev) as [_ (asked & Hv0 & Hl0 & Hf0)].
    exists (asked ++ later)%list. rewrite Hv, Hv0, app_assoc.
    rewrite length_app. repeat split.
    + simpl filter. destruct (isConnect ev); simpl; lia.
    + apply Forall_app. split; assumption.
Qed.

Lemma handleConnect_refused (s : Site) :
  (forall n v, listFoundationModels aws n v <> Ok tt) ->
  awsCredentials (world s) = None ->
  awsCredentials (world (handleConnect aws s)) = None
  /\ resultImage (page (world (handleConnect aws s)))
     = resultImage (page (world s))
  /\ downloads (handleConnect aws s) = downloads s.
Proof.
  intros Hno Hc.
  apply (@handleConnect_preserves aws
    (fun after =>
       awsCredentials (world after) = None
       /\ resultImage (page (world after)) = resultImage (page (world s))
       /\ downloads after = downloads s)).
  - intros msg. simpl. auto.
  - intros W outcome Ho ->. destruct outcome as [[]|err].
    + symmetry in Ho. now apply Hno in Ho.
    + simpl. auto.
Qed.

Lemma dispatch_disconnected (s : Site) (ev : Event) :
  (forall n v, listFoundationModels aws n v <> Ok tt) \/ isConnect ev = false ->
  awsCredentials (world s) = None ->
  awsCredentials (world (dispatch br aws s ev)) = None
  /\ invocations (world (dispatch br aws s ev)) = invocations (world s)
  /\ resultImage (page (world (dispatch br aws s ev)))
     = resultImage (page (world s))
  /\ (resultImage (page (world s)) = None ->
      downloads (dispatch br aws s ev) = downloads s).
Proof.
  intros Hno Hc.
  destruct (dispatch_logs s ev) as [(sent & Hi & _ & _ & Hs) _].
  cbv zeta in Hi. rewrite Hi, (Hs Hc), app_nil_r. clear Hi Hs.
  enough (awsCredentials (world (dispatch br aws s ev)) = None
          /\ resultImage (page (world (dispatch br aws s ev)))
             = resultImage (page (world s))
          /\ (resultImage (page (world s)) = None ->
              downloads (dispatch br aws s ev) = downloads s)) by tauto.
  destruct ev; simpl in *; auto.
  - destruct Hno as [Hno | Hno]; [| discriminate].
    destruct (handleConnect_refused s Hno Hc) as (? & ? & ?). auto.
  - destruct (handleGenerate_cases br (form s) (world s))
      as [[_ E] | [(Hc' & _) | (Hc' & _)]]; try contradiction.
    unfold handleGenerate. simpl. rewrite E. simpl. auto.
  - unfold handleDownload. destruct (resultImage (page (world s))) eqn:E;
      simpl; rewrite ?E; repeat split; auto. discriminate.
  - destruct (String.eqb key "Enter"); auto.
    destruct Hno as [Hno | Hno]; [| discriminate].
    destruct (handleConnect_refused s Hno Hc) as (? & ? & ?). auto.
Qed.

(** X18.  From a page without an account, when AWS accepts no validation
    call or no event is a connection attempt, no sequence of events sends a
    backend request, stores an account or changes the result image; and when
    there was no image, nothing is downloaded. *)
Theorem nothing_is_sent_without_an_accepted_account
    (events : list Event) (s : Site) :
  awsCredentials (world s) = None ->
  (forall n v, listFoundationModels aws n v <> Ok tt)
  \/ forallb (fun ev => negb (isConnect ev)) events = true ->
  let after := run br aws events s in
  awsCredentials (world after) = None
  /\ invocations (world after) = invocations (world s)
  /\ resultImage (page (world after)) = resultImage (page (world s))
  /\ (resultImage (page (world s)) = None -> downloads after = downloads s).
Proof.
  intros Hc Hno. cbv zeta. revert s Hc. unfold run.
  induction events as [|ev events IH]; intros s Hc; simpl fold_left.
  - auto.
  - assert (Hev : (forall n v, listFoundationModels aws n v <> Ok tt)
                  \/ isConnect ev = false).
    { destruct Hno as [Hno | Hno]; [now left | right].
      simpl in Hno. apply andb_prop in Hno as [Hno _].
      now apply negb_true_iff in Hno. }
    assert (Hrest : (forall n v, listFoundationModels aws n v <> Ok tt)
                    \/ forallb (fun ev => negb (isConnect ev)) events = true).
    { destruct Hno as [Hno | Hno]; [now left | right].
      simpl in Hno. now apply andb_prop in Hno as [_ Hno]. }
    destruct (dispatch_disconnected s ev Hev Hc) as (Hc1 & Hi1 & Hr1 & Hd1).
    destruct (IH Hrest (dispatch br aws s ev) Hc1) as (Hc2 & Hi2 & Hr2 & Hd2).
    rewrite Hc2, Hi2, Hi1, Hr2, Hr1. repeat split.
    intros Hnone. rewrite Hd2; [now apply Hd1 | now rewrite Hr1].
Qed.

(** X19.  After a successful generation, a click on Download saves exactly
    the bytes [generateImage] returned.  The file is named after the
    character name in the form at the time of the click, not the one the
    image was generated for; and the download still works after a
    disconnect. *)
Theorem download_saves_the_displayed_image
    (s : Site) (creds : string * string) (bytes : list byte) (f' : Form) :
  let f := form s in
  let prompt :=
    buildPrompt (world_context f) (world_style f) (char_name f)
      (char_role f) (char_description f) (prompt_frame f) in
  awsCredentials (world s) = Some creds ->
  world_context f <> "" -> world_style f <> "" -> char_name f <> "" ->
  fst (generateImage br (model_select f) prompt (negative_prompt f)
         (size_select f) (world s)) = Ok bytes ->
  downloads (run br aws [ClickGenerate; EditForm f'; ClickDownload] s)
  = (downloads s ++ [mkDownload (downloadName (char_name f')) bytes])%list
  /\ downloads (run br aws [ClickGenerate; ClickDisconnect; ClickDownload] s)
     = (downloads s ++ [mkDownload (downloadName (char_name f)) bytes])%list.
Proof.
  intros f prompt Hc Hw Hs Hn Hok.
  pose proof (@handleGenerate_outcome br f (world s) creds Hc Hw Hs Hn) as H.
  cbv zeta in H. fold prompt in H. rewrite Hok in H.
  unfold run. simpl fold_left. unfold handleGenerate. fold f. rewrite H.
  split; reflexivity.
Qed.

End WithServices.

Lemma nothing_is_sent_without_an_accepted_account_witness :
  invocations
    (world
       (run Demo.browser Visit.refusing
          [EditCredentials "us-east-1" "AKIAEXAMPLE" "secret"; ClickConnect;
           ClickGenerate; ClickDownload]
          (Visit.arrival "" "")))
  = []
  /\ downloads
       (run Demo.browser Visit.refusing
          [EditCredentials "us-east-1" "AKIAEXAMPLE" "secret"; ClickConnect;
           ClickGenerate; ClickDownload]
          (Visit.arrival "" ""))
     = [].
Proof.
  destruct (@nothing_is_sent_without_an_accepted_account Demo.browser
              Visit.refusing
              [EditCredentials "us-east-1" "AKIAEXAMPLE" "secret"; ClickConnect;
               ClickGenerate; ClickDownload]
              (Visit.arrival "" ""))
    as (_ & Hsent & _ & Hsaved);
    [ reflexivity | left; intros n v; discriminate | ].
  split; [exact Hsent | exact (Hsaved eq_refl)].
Defined.

Lemma download_saves_the_displayed_image_witness :
  downloads
    (run Demo.browser Visit.accepting
       [ClickGenerate; EditForm (Demo.tessa "" "" 64); ClickDownload]
       Visit.signedIn)
  = [mkDownload "tessa_quark_portrait.png" [x41; x42; x43]%byte].
Proof.
  destruct (@download_saves_the_displayed_image Demo.browser Visit.accepting
              Visit.signedIn ("AKIAEXAMPLE", "secret") [x41; x42; x43]%byte
              (Demo.tessa "" "" 64))
    as [Hsaved _];
    [ reflexivity | discriminate | discriminate | discriminate
    | vm_compute; reflexivity | ].
  exact Hsaved.
Defined.

End LogFacts.

(* ================================================================== *)
(** ** The file a download is saved as *)
(* ================================================================== *)

Module DownloadFacts.
Import Js Dom JsString JsText App Console StringFacts TextFacts.

Lemma spaceless_append (a b : string) :
  spaceless (a ++ b) = spaceless a && spaceless b.
Proof.
  induction a as [|c a IH]; simpl; [reflexivity|].
  rewrite IH. now rewrite andb_assoc.
Qed.

Lemma replaceWhiteSpaceRuns_spaceless (s by_ : string) :
  spaceless by_ = true -> spaceless (replaceWhiteSpaceRuns s by_) = true.
Proof.
  intros Hby. induction s as [|c s IH]; simpl; [reflexivity|].
  destruct (isWhiteSpace c) eqn:Ec.
  - destruct s as [|d s]; [exact Hby|].
    destruct (isWhiteSpace d); [exact IH|].
    rewrite spaceless_append, Hby. exact IH.
  - simpl. rewrite Ec. exact IH.
Qed.

Lemma replaceWhiteSpaceRuns_fixed (s by_ : string) :
  spaceless s = true -> replaceWhiteSpaceRuns s by_ = s.
Proof.
  induction s as [|c s IH]; simpl; [reflexivity|].
  intros H. apply andb_prop in H as [Hc Hs].
  apply negb_true_iff in Hc. rewrite Hc. f_equal. now apply IH.
Qed.

Lemma replaceWhiteSpaceRuns_nonEmpty (s by_ : string) :
  s <> "" -> by_ <> "" -> replaceWhiteSpaceRuns s by_ <> "".
Proof.
  intros Hs Hby. induction s as [|c s IH]; [contradiction|].
  simpl. destruct (isWhiteSpace c).
  - destruct s as [|d s]; [exact Hby|].
    destruct (isWhiteSpace d); [apply IH; discriminate|].
    destruct by_; [contradiction | discriminate].
  - discriminate.
Qed.

Lemma lowerUnit_idempotent (c : ascii) : lowerUnit (lowerUnit c) = lowerUnit c.
Proof.
  destruct c as [[] [] [] [] [] [] [] []]; vm_compute; reflexivity.
Qed.

Lemma lowerUnit_isWhiteSpace (c : ascii) :
  isWhiteSpace (lowerUnit c) = isWhiteSpace c.
Proof.
  destruct c as [[] [] [] [] [] [] [] []]; vm_compute; reflexivity.
Qed.

Lemma toLowerCase_idempotent (s : string) :
  toLowerCase (toLowerCase s) = toLowerCase s.
Proof.
  induction s as [|c s IH]; simpl; [reflexivity|].
  now rewrite lowerUnit_idempotent, IH.
Qed.

Lemma toLowerCase_append (a b : string) :
  toLowerCase (a ++ b) = toLowerCase a ++ toLowerCase b.
Proof.
  induction a as [|c a IH]; simpl; [reflexivity | now rewrite IH].
Qed.

Lemma toLowerCase_nonEmpty (s : string) :
  nonEmpty (toLowerCase s) = nonEmpty s.
Proof. destruct s; reflexivity. Qed.

Lemma toLowerCase_replace (s by_ : string) :
  toLowerCase (replaceWhiteSpaceRuns s by_)
  = replaceWhiteSpaceRuns (toLowerCase s) (toLowerCase by_).
Proof.
  induction s as [|c s IH]; simpl; [reflexivity|].
  rewrite lowerUnit_isWhiteSpace.
  destruct (isWhiteSpace c) eqn:Ec.
  - destruct s as [|d s]; simpl; [reflexivity|].
    rewrite lowerUnit_isWhiteSpace.
    destruct (isWhiteSpace d) eqn:Ed.
    + simpl in IH. rewrite lowerUnit_isWhiteSpace, Ed in IH. exact IH.
    + rewrite toLowerCase_append. simpl in IH.
      rewrite lowerUnit_isWhiteSpace, Ed in IH. now rewrite IH.
  - simpl. now rewrite IH.
Qed.

(** X20.  The name [handleDownload] gives the file holds no white space,
    is its own lower-case form, does not depend on the letter case of the
    character name, and is a non-empty stem followed by [_portrait.png]. *)
Theorem download_name_is_a_safe_file_name (charName : string) :
  spaceless (downloadName charName) = true
  /\ toLowerCase (downloadName charName) = downloadName charName
  /\ downloadName (toLowerCase charName) = downloadName charName
  /\ exists stem,
       downloadName charName = stem ++ "_portrait.png" /\ stem <> "".
Proof.
  unfold downloadName.
  set (given := if nonEmpty charName then charName else "portrait").
  assert (Hgiven : given <> "").
  { unfold given. destruct charName; discriminate. }
  repeat split.
  - rewrite spaceless_append, replaceWhiteSpaceRuns_spaceless; reflexivity.
  - rewrite toLowerCase_append, toLowerCase_replace, toLowerCase_idempotent.
    reflexivity.
  - rewrite toLowerCase_nonEmpty.
    replace (if nonEmpty charName then toLowerCase charName else "portrait")
      with (toLowerCase given).
    + now rewrite toLowerCase_idempotent.
    + unfold given. destruct (nonEmpty charName); reflexivity.
  - exists (replaceWhiteSpaceRuns (toLowerCase given) "_"). split; [reflexivity|].
    apply replaceWhiteSpaceRuns_nonEmpty; [|discriminate].
    destruct given; [contradiction | discriminate].
Qed.

(** X21.  A character name that is not empty, holds no white space and is
    in lower case is used as it is: the file is the name followed by
    [_portrait.png]. *)
Theorem safe_name_is_used_as_it_is (charName : string) :
  charName <> "" ->
  spaceless charName = true ->
  toLowerCase charName = charName ->
  downloadName charName = charName ++ "_portrait.png".
Proof.
  intros Hn Hs Hl. unfold downloadName.
  apply nonEmpty_true in Hn. rewrite Hn, Hl.
  now rewrite replaceWhiteSpaceRuns_fixed.
Qed.

Lemma safe_name_is_used_as_it_is_witness :
  downloadName "tessa" = "tessa_portrait.png".
Proof.
  apply (@safe_name_is_used_as_it_is "tessa");
    [discriminate | reflexivity | reflexivity].
Defined.


End DownloadFacts.

(* ================================================================== *)
(** ** Facts about the page that signs in with Cognito *)
(* ================================================================== *)

Module PortalFacts.
Import Js Dom JsString App Observations StringFacts Portal Watch.

Section WithServices.

Variable config : Config.
Variable br : Browser.
Variable cognito : Cognito.

Lemma handleGenerate_signed_out (s : Screen) :
  awsCredentials (world s) = None ->
  handleGenerate br s
  = showStatus "Not authenticated. Please sign in." "error" s.
Proof. intros H. unfold handleGenerate. now rewrite H. Qed.

(** X22.  With a configuration that [isConfigured] rejects (one of the
    three ids is still its placeholder, as in the file shipped), loading the
    page attaches no listener: whatever is clicked or typed afterwards, no
    call reaches Cognito or the backend, no credentials appear, nothing is
    downloaded, the setup section stays shown and the status line asks to
    configure AWS Cognito. *)
Theorem unconfigured_page_is_inert (events : list Event) (s : Screen) :
  isConfigured config = false ->
  listening s = false ->
  let after := visit config br cognito events s in
  setupShown after = true
  /\ statusText (page (world after))
     = "Please configure AWS Cognito in aws-config.js"
  /\ authentications after = authentications s
  /\ signUps after = signUps s
  /\ refreshes after = refreshes s
  /\ signOuts after = signOuts s
  /\ invocations (world after) = invocations (world s)
  /\ awsCredentials (world after) = awsCredentials (world s)
  /\ downloads after = downloads s.
Proof.
  intros Hconf Hdeaf. cbv zeta. unfold visit, load. rewrite Hconf. simpl negb.
  cbv iota.
  set (start :=
         setSetupShown true
           (showStatus "Please configure AWS Cognito in aws-config.js" "error" s)).
  assert (Hstart :
    listening start = false
    /\ setupShown start = true
    /\ statusText (page (world start))
       = "Please configure AWS Cognito in aws-config.js"
    /\ authentications start = authentications s
    /\ signUps start = signUps s
    /\ refreshes start = refreshes s
    /\ signOuts start = signOuts s
    /\ invocations (world start) = invocations (world s)
    /\ awsCredentials (world start) = awsCredentials (world s)
    /\ downloads start = downloads s).
  { unfold start. simpl. rewrite Hdeaf. repeat split. }
  clearbody start. revert start Hstart.
  induction events as [|ev events IH]; intros start Hstart; simpl fold_left.
  - tauto.
  - apply IH. destruct Hstart as (Hl & Hrest).
    destruct ev as [| | | | | |key| |]; simpl; unfold heard;
      try destruct (String.eqb key "Enter"); rewrite ?Hl;
      (split; [first [reflexivity | exact Hl] | exact Hrest]).
Qed.

Lemma getAWSCredentials_refused (session : Login) (s : Screen) :
  (forall n identity, refresh cognito n identity <> None) ->
  exists msg,
    world (getAWSCredentials config cognito session s)
    = App.showStatus msg "error" (world s)
    /\ downloads (getAWSCredentials config cognito session s) = downloads s.
Proof.
  intros Hno. unfold getAWSCredentials.
  destruct (refresh cognito _ _) as [err|] eqn:E.
  - eexists. split; reflexivity.
  - now apply Hno in E.
Qed.

Lemma handleSignedIn_refused (user : string) (session : Login) (s : Screen) :
  (forall n identity, refresh cognito n identity <> None) ->
  awsCredentials (world s) = None ->
  quiet s (handleSignedIn config cognito user session s).
Proof.
  intros Hno Hc. unfold handleSignedIn, quiet.
  match goal with
  | |- context [getAWSCredentials config cognito session ?t] =>
      destruct (@getAWSCredentials_refused session t Hno) as (msg & -> & ->)
  end.
  simpl. repeat split. exact Hc.
Qed.

Lemma load_refused (s : Screen) :
  (forall n identity, refresh cognito n identity <> None) ->
  awsCredentials (world s) = None ->
  quiet s (load config cognito s).
Proof.
  intros Hno Hc. unfold load.
  destruct (isConfigured config); simpl negb; cbv iota.
  - unfold initCognito. simpl cognitoUser.
    destruct (getCurrentUser cognito) as [user|].
    + destruct (getSession cognito user) as [session|err].
      * destruct (isValid session); simpl negb; cbv iota.
        -- match goal with
           | |- quiet _ (setListening true (handleSignedIn _ _ _ _ ?t)) =>
               destruct (@handleSignedIn_refused user session t Hno Hc)
                 as (H1 & H2 & H3 & H4)
           end.
           unfold quiet. simpl. rewrite H1, H2, H3, H4. repeat split.
        -- unfold quiet. simpl. repeat split. exact Hc.
      * unfold quiet. simpl. repeat split. exact Hc.
    + unfold quiet. simpl. repeat split. exact Hc.
  - unfold quiet. simpl. repeat split. exact Hc.
Qed.

Lemma dispatch_refused (s : Screen) (ev : Event) :
  (forall n identity, refresh cognito n identity <> None) ->
  awsCredentials (world s) = None ->
  awsCredentials (world (dispatch config br cognito s ev)) = None
  /\ invocations (world (dispatch config br cognito s ev))
     = invocations (world s)
  /\ resultImage (page (world (dispatch config br cognito s ev)))
     = resultImage (page (world s))
  /\ (resultImage (page (world s)) = None ->
      downloads (dispatch config br cognito s ev) = downloads s).
Proof.
  intros Hno Hc.
  assert (Hweak : forall after, quiet s after ->
            awsCredentials (world after) = None
            /\ invocations (world after) = invocations (world s)
            /\ resultImage (page (world after)) = resultImage (page (world s))
            /\ (resultImage (page (world s)) = None ->
                downloads after = downloads s)).
  { intros after (H1 & H2 & H3 & H4). auto. }
  assert (Hsame : quiet s s) by (unfold quiet; auto).
  assert (HsignIn : quiet s (handleSignIn config cognito s)).
  { unfold handleSignIn.
    destruct (negb (nonEmpty (emailField s)) || negb (nonEmpty (passwordField s))).
    - unfold quiet. simpl. auto.
    - destruct (authenticateUser cognito _ _ _) as [session|err|].
      + cbn [cognitoUser setLogs showStatus withWorld setUser].
        match goal with
        | |- quiet _ (handleSignedIn _ _ _ _ ?t) =>
            destruct (@handleSignedIn_refused (emailField s) session t Hno Hc)
              as (H1 & H2 & H3 & H4)
        end.
        unfold quiet. rewrite H1, H2, H3, H4. repeat split.
      + unfold quiet. simpl. auto.
      + unfold quiet. simpl. auto. }
  destruct ev; simpl; unfold heard.
  - destruct (listening s); auto.
  - destruct (listening s); auto. apply Hweak. unfold handleSignUp.
    destruct (negb (nonEmpty (emailField s)) || negb (nonEmpty (passwordField s))).
    + unfold quiet. simpl. auto.
    + destruct (signUp cognito _ _ _); unfold quiet; simpl; auto.
  - destruct (listening s); auto. apply Hweak. unfold handleSignOut.
    destruct (cognitoUser s); unfold quiet; simpl; auto.
  - destruct (listening s); auto. apply Hweak.
    rewrite handleGenerate_signed_out by exact Hc. unfold quiet. simpl. auto.
  - destruct (listening s); auto. unfold handleDownload.
    destruct (resultImage (page (world s))) eqn:E; simpl; rewrite ?E;
      repeat split; auto. discriminate.
  - destruct (listening s); auto.
  - destruct (String.eqb key "Enter"); auto. destruct (listening s); auto.
  - auto.
  - auto.
Qed.

(** X23.  From a page without credentials, when the identity pool grants
    none, loading and any sequence of events send no backend request, hold
    no credentials afterwards and leave the result image alone, whatever
    Cognito answers to a sign-in and whether or not it remembers a valid
    session; and when there was no image, nothing is downloaded. *)
Theorem nothing_is_sent_before_credentials_arrive
    (events : list Event) (s : Screen) :
  awsCredentials (world s) = None ->
  (forall n identity, refresh cognito n identity <> None) ->
  let after := visit config br cognito events s in
  awsCredentials (world after) = None
  /\ invocations (world after) = invocations (world s)
  /\ resultImage (page (world after)) = resultImage (page (world s))
  /\ (resultImage (page (world s)) = None -> downloads after = downloads s).
Proof.
  intros Hc Hno. cbv zeta. unfold visit.
  destruct (load_refused s Hno Hc) as (Hc0 & Hi0 & Hr0 & Hd0).
  rewrite <- Hi0, <- Hr0, <- Hd0.
  set (start := load config cognito s) in *. clearbody start.
  clear Hc Hi0 Hr0 Hd0. revert start Hc0.
  induction events as [|ev events IH]; intros start Hc; simpl fold_left.
  - auto.
  - destruct (dispatch_refused start ev Hno Hc) as (Hc1 & Hi1 & Hr1 & Hd1).
    destruct (IH (dispatch config br cognito start ev) Hc1)
      as (Hc2 & Hi2 & Hr2 & Hd2).
    rewrite Hc2, Hi2, Hi1, Hr2, Hr1. repeat split.
    intros Hnone. rewrite Hd2; [now apply Hd1 | now rewrite Hr1].
Qed.

Lemma getAWSCredentials_logs (session : Login) (s : Screen) :
  authentications (getAWSCredentials config cognito session s) = authentications s
  /\ signUps (getAWSCredentials config cognito session s) = signUps s
  /\ emailField (getAWSCredentials config cognito session s) = emailField s
  /\ passwordField (getAWSCredentials config cognito session s) = passwordField s
  /\ listening (getAWSCredentials config cognito session s) = listening s.
Proof.
  unfold getAWSCredentials. destruct (refresh cognito _ _); repeat split.
Qed.

Lemma handleSignedIn_logs (user : string) (session : Login) (s : Screen) :
  authentications (handleSignedIn config cognito user session s)
  = authentications s
  /\ signUps (handleSignedIn config cognito user session s) = signUps s
  /\ emailField (handleSignedIn config cognito user session s) = emailField s
  /\ passwordField (handleSignedIn config cognito user session s)
     = passwordField s
  /\ listening (handleSignedIn config cognito user session s) = listening s.
Proof.
  unfold handleSignedIn.
  match goal with
  | |- context [getAWSCredentials config cognito session ?t] =>
      destruct (getAWSCredentials_logs session t) as (-> & -> & -> & -> & ->)
  end.
  repeat split.
Qed.

Lemma load_logs (s : Screen) :
  authentications (load config cognito s) = authentications s
  /\ signUps (load config cognito s) = signUps s
  /\ emailField (load config cognito s) = emailField s
  /\ passwordField (load config cognito s) = passwordField s
  /\ listening (load config cognito s) = isConfigured config || listening s.
Proof.
  unfold load. destruct (isConfigured config); simpl negb; simpl orb; cbv iota;
    [| repeat split].
  unfold initCognito. simpl cognitoUser.
  destruct (getCurrentUser cognito) as [user|]; [| repeat split].
  destruct (getSession cognito user) as [session|err]; [| repeat split].
  destruct (isValid session); simpl negb; cbv iota; [| repeat split].
  cbn [authentications signUps emailField passwordField listening setListening].
  match goal with
  | |- context [handleSignedIn config cognito user session ?t] =>
      destruct (handleSignedIn_logs user session t) as (-> & -> & -> & -> & _)
  end.
  repeat split.
Qed.

Lemma handleSignIn_logs (s : Screen) :
  authentications (handleSignIn config cognito s)
  = (authentications s
       ++ (if nonEmpty (emailField s) && nonEmpty (passwordField s)
           then [(emailField s, passwordField s)] else []))%list
  /\ signUps (handleSignIn config cognito s) = signUps s
  /\ emailField (handleSignIn config cognito s) = emailField s
  /\ passwordField (handleSignIn config cognito s) = passwordField s
  /\ listening (handleSignIn config cognito s) = listening s.
Proof.
  unfold handleSignIn.
  destruct (nonEmpty (emailField s)); simpl;
    [| rewrite app_nil_r; repeat split].
  destruct (nonEmpty (passwordField s)); simpl;
    [| rewrite app_nil_r; repeat split].
  destruct (authenticateUser cognito _ _ _) as [session|err|];
    [| repeat split ..].
  match goal with
  | |- context [handleSignedIn config cognito ?u session ?t] =>
      destruct (handleSignedIn_logs u session t) as (Ha & Hu & He & Hp & Hl)
  end.
  repeat split; [exact Ha | exact Hu | exact He | exact Hp | exact Hl].
Qed.

Lemma handleSignUp_logs (s : Screen) :
  signUps (handleSignUp cognito s)
  = (signUps s
       ++ (if nonEmpty (emailField s) && nonEmpty (passwordField s)
           then [(emailField s, passwordField s)] else []))%list
  /\ authentications (handleSignUp cognito s) = authentications s
  /\ emailField (handleSignUp cognito s) = emailField s
  /\ passwordField (handleSignUp cognito s) = passwordField s
  /\ listening (handleSignUp cognito s) = listening s.
Proof.
  unfold handleSignUp.
  destruct (nonEmpty (emailField s)); simpl;
    [| rewrite app_nil_r; repeat split].
  destruct (nonEmpty (passwordField s)); simpl;
    [| rewrite app_nil_r; repeat split].
  destruct (signUp cognito _ _ _); repeat split.
Qed.

(** The entries of [typed] are filled in, and there is at most one for each
    event of the kind. *)
Lemma typed_filledIn (which : Event -> bool) (events : list Event)
    (email password : string) :
  Forall filledIn (typed which email password events).
Proof.
  revert email password.
  induction events as [|ev events IH]; intros email password; [constructor|].
  assert (Hhere : Forall filledIn
            ((if which ev && nonEmpty email && nonEmpty password
              then [(email, password)] else [])
             ++ typed which email password events)%list).
  { apply Forall_app. split; [| apply IH].
    destruct (which ev); simpl; [| constructor].
    destruct (nonEmpty email) eqn:He; simpl; [| constructor].
    destruct (nonEmpty password) eqn:Hp; simpl; [| constructor].
    constructor; [| constructor].
    split; simpl; intros H; rewrite H in *; discriminate. }
  destruct ev; simpl typed; try exact Hhere. apply IH.
Qed.

Lemma typed_length (which : Event -> bool) (events : list Event)
    (email password : string) :
  which (EditLogin "" "") = false ->
  (forall e p e' p', which (EditLogin e p) = which (EditLogin e' p')) ->
  (List.length (typed which email password events)
   <= List.length (filter which events))%nat.
Proof.
  intros Hnot Hsame. revert email password.
  induction events as [|ev events IH]; intros email password; [simpl; lia|].
  assert (Hhere :
            (List.length
               ((if which ev && nonEmpty email && nonEmpty password
                 then [(email, password)] else [])
                ++ typed which email password events)%list
             <= List.length (filter which (ev :: events)))%nat).
  { rewrite length_app. specialize (IH email password). simpl filter.
    destruct (which ev); simpl.
    - destruct (nonEmpty email && nonEmpty password); simpl; lia.
    - lia. }
  destruct ev; simpl typed; try exact Hhere.
  simpl filter. rewrite (Hsame email0 password0 "" ""), Hnot. apply IH.
Qed.

(** What one event adds to the two logs of accounts, and what it leaves in
    the two fields. *)
Lemma dispatch_asks (s : Screen) (ev : Event) :
  authentications (dispatch config br cognito s ev)
  = (authentications s
       ++ (if listening s && isSignIn ev
              && nonEmpty (emailField s) && nonEmpty (passwordField s)
           then [(emailField s, passwordField s)] else []))%list
  /\ signUps (dispatch config br cognito s ev)
     = (signUps s
          ++ (if listening s && isSignUp ev
                 && nonEmpty (emailField s) && nonEmpty (passwordField s)
              then [(emailField s, passwordField s)] else []))%list
  /\ listening (dispatch config br cognito s ev) = listening s
  /\ (emailField (dispatch config br cognito s ev),
      passwordField (dispatch config br cognito s ev))
     = match ev with
       | EditLogin email password => (email, password)
       | _ => (emailField s, passwordField s)
       end.
Proof.
  remember (listening s) as l eqn:Hl.
  assert (Hsame : forall after : Screen,
            authentications after = authentications s ->
            signUps after = signUps s ->
            emailField after = emailField s ->
            passwordField after = passwordField s ->
            listening after = listening s ->
            authentications after = (authentications s ++ [])%list
            /\ signUps after = (signUps s ++ [])%list
            /\ listening after = l
            /\ (emailField after, passwordField after)
               = (emailField s, passwordField s)).
  { intros after Ha Hu He Hp Hl'. rewrite !app_nil_r, He, Hp, Hl', Hl. auto. }
  assert (HsignIn :
            authentications (handleSignIn config cognito s)
            = (authentications s
                 ++ (if nonEmpty (emailField s) && nonEmpty (passwordField s)
                     then [(emailField s, passwordField s)] else []))%list
            /\ signUps (handleSignIn config cognito s) = (signUps s ++ [])%list
            /\ listening (handleSignIn config cognito s) = l
            /\ (emailField (handleSignIn config cognito s),
                passwordField (handleSignIn config cognito s))
               = (emailField s, passwordField s)).
  { destruct (handleSignIn_logs s) as (Ha & Hu & He & Hp & Hl').
    rewrite app_nil_r, He, Hp, Hl', Hl. auto. }
  assert (HsignUp :
            authentications (handleSignUp cognito s)
            = (authentications s ++ [])%list
            /\ signUps (handleSignUp cognito s)
               = (signUps s
                    ++ (if nonEmpty (emailField s) && nonEmpty (passwordField s)
                        then [(emailField s, passwordField s)] else []))%list
            /\ listening (handleSignUp cognito s) = l
            /\ (emailField (handleSignUp cognito s),
                passwordField (handleSignUp cognito s))
               = (emailField s, passwordField s)).
  { destruct (handleSignUp_logs s) as (Hu & Ha & He & Hp & Hl').
    rewrite app_nil_r, He, Hp, Hl', Hl. auto. }
  destruct ev as [| | | | | |key| |]; simpl dispatch; unfold heard;
    simpl isSignIn; simpl isSignUp; rewrite <- ?Hl, ?andb_false_r; simpl andb.
  - destruct l; simpl andb; [exact HsignIn | now apply Hsame].
  - destruct l; simpl andb; [exact HsignUp | now apply Hsame].
  - destruct l; [| now apply Hsame].
    apply Hsame; unfold handleSignOut; destruct (cognitoUser s); reflexivity.
  - destruct l; [| now apply Hsame].
    apply Hsame; unfold handleGenerate;
      destruct (awsCredentials (world s)); reflexivity.
  - destruct l; [| now apply Hsame].
    apply Hsame; unfold handleDownload;
      destruct (resultImage (page (world s))); reflexivity.
  - destruct l; now apply Hsame.
  - destruct (String.eqb key "Enter"); rewrite ?andb_false_r; simpl andb;
      [| now apply Hsame].
    destruct l; simpl andb; [exact HsignIn | now apply Hsame].
  - rewrite !app_nil_r. repeat split. simpl. symmetry. exact Hl.
  - now apply Hsame.
Qed.

Lemma run_asks (events : list Event) (start : Screen) :
  authentications (fold_left (dispatch config br cognito) events start)
  = (authentications start
       ++ (if listening start
           then typed isSignIn (emailField start) (passwordField start) events
           else []))%list
  /\ signUps (fold_left (dispatch config br cognito) events start)
     = (signUps start
          ++ (if listening start
              then typed isSignUp (emailField start) (passwordField start) events
              else []))%list.
Proof.
  revert start.
  induction events as [|ev events IH]; intros start; simpl fold_left.
  - destruct (listening start); simpl; rewrite !app_nil_r; split; reflexivity.
  - destruct (IH (dispatch config br cognito start ev)) as [Ha Hu].
    destruct (dispatch_asks start ev) as (Ha1 & Hu1 & Hl1 & Hf1).
    rewrite Ha, Hu, Ha1, Hu1, Hl1, <- !app_assoc. clear Ha Hu Ha1 Hu1 Hl1 IH.
    assert (He : emailField (dispatch config br cognito start ev)
                 = fst (match ev with
                        | EditLogin email password => (email, password)
                        | _ => (emailField start, passwordField start)
                        end)) by (rewrite <- Hf1; reflexivity).
    assert (Hp : passwordField (dispatch config br cognito start ev)
                 = snd (match ev with
                        | EditLogin email password => (email, password)
                        | _ => (emailField start, passwordField start)
                        end)) by (rewrite <- Hf1; reflexivity).
    rewrite He, Hp. clear He Hp Hf1.
    destruct (listening start); simpl andb.
    + destruct ev; simpl; split; reflexivity.
    + destruct ev; simpl; split; reflexivity.
Qed.

(** X24.  Loading the page asks Cognito neither to authenticate nor to
    sign up.  Afterwards, when the listeners are attached, each click on
    Sign in or Enter in the password field with both fields filled in asks
    Cognito to authenticate once, with the e-mail and the password the two
    fields hold at that moment, exactly as typed, and each click on Sign up
    does the same for an account; with a field empty nothing is asked.  So
    every call carries an e-mail and a password that are both non-empty, and
    there is at most one for each such event. *)
Theorem cognito_is_asked_with_both_fields_filled
    (events : list Event) (s : Screen) :
  let after := visit config br cognito events s in
  let attached := isConfigured config || listening s in
  let signedIn :=
    if attached then typed isSignIn (emailField s) (passwordField s) events
    else [] in
  let signedUp :=
    if attached then typed isSignUp (emailField s) (passwordField s) events
    else [] in
  authentications after = (authentications s ++ signedIn)%list
  /\ signUps after = (signUps s ++ signedUp)%list
  /\ (List.length signedIn <= List.length (filter isSignIn events))%nat
  /\ (List.length signedUp <= List.length (filter isSignUp events))%nat
  /\ Forall filledIn signedIn /\ Forall filledIn signedUp.
Proof.
  cbv zeta. unfold visit.
  destruct (run_asks events (load config cognito s)) as [Ha Hu].
  destruct (load_logs s) as (Ha0 & Hu0 & He0 & Hp0 & Hl0).
  rewrite Ha0, Hu0, He0, Hp0, Hl0 in *.
  split; [exact Ha|]. split; [exact Hu|].
  destruct (isConfigured config || listening s).
  - repeat split.
    + apply typed_length; reflexivity.
    + apply typed_length; reflexivity.
    + apply typed_filledIn.
    + apply typed_filledIn.
  - repeat split; simpl; try lia; constructor.
Qed.

(** X25.  When Cognito accepts the sign-in and the identity pool then
    refuses, the page shows the signed-in view with the e-mail and the
    generator section all the same; the credentials are what they were, the
    SDK is left configured with the refused identity, and the status line
    reads [Failed to get AWS credentials: ] followed by the message.  When
    no credentials were held before, a click on Generate from there sends
    nothing and answers [Not authenticated. Please sign in.]. *)
Theorem sign_in_without_credentials_shows_the_generator
    (s : Screen) (session : Login) (err : exn) :
  let email := emailField s in
  let password := passwordField s in
  let identity :=
    mkIdentity (identityPoolId config)
      ("cognito-idp." ++ region config ++ ".amazonaws.com/" ++ userPoolId config)
      (jwtToken session) in
  email <> "" -> password <> "" ->
  authenticateUser cognito (List.length (authentications s)) email password
  = OnSuccess session ->
  refresh cognito (List.length (refreshes s)) identity = Some err ->
  let after := handleSignIn config cognito s in
  awsCredentials (world after) = awsCredentials (world s)
  /\ cognitoUser after = Some email
  /\ userEmail after = email
  /\ signInFormShown after = false
  /\ signedInViewShown after = true
  /\ generatorShown (page (world after)) = true
  /\ sdkCredentials after = Some identity
  /\ statusText (page (world after))
     = "Failed to get AWS credentials: " ++ message err
  /\ statusClass (page (world after)) = "status error"
  /\ (awsCredentials (world s) = None ->
      invocations (world (handleGenerate br after)) = invocations (world s)
      /\ statusText (page (world (handleGenerate br after)))
         = "Not authenticated. Please sign in.").
Proof.
  intros email password identity He Hp Hauth Hrefresh after.
  apply nonEmpty_true in He, Hp.
  unfold after, handleSignIn. fold email password. rewrite He, Hp.
  simpl orb. cbv iota zeta.
  cbn [authentications showStatus withWorld setUser]. rewrite Hauth.
  cbn [cognitoUser setLogs showStatus withWorld setUser].
  unfold handleSignedIn, getAWSCredentials.
  cbn [refreshes setSdk setLogs showStatus withWorld setUser setViews
       setUserEmail onPage].
  fold identity. rewrite Hrefresh.
  repeat split;
    unfold handleGenerate; simpl;
    match goal with H : _ = None |- _ => rewrite H end; reflexivity.
Qed.

(** X26.  When Cognito accepts the sign-in and the identity pool grants,
    the credentials held are those built from the configured identity pool
    and the session's id token, filed under
    [cognito-idp.<region>.amazonaws.com/<userPoolId>]; Cognito was asked once,
    with the e-mail and password as typed, and the page shows the signed-in
    view, the generator and [Signed in successfully]. *)
Theorem granted_credentials_come_from_the_identity_pool
    (s : Screen) (session : Login) :
  let email := emailField s in
  let password := passwordField s in
  let identity :=
    mkIdentity (identityPoolId config)
      ("cognito-idp." ++ region config ++ ".amazonaws.com/" ++ userPoolId config)
      (jwtToken session) in
  email <> "" -> password <> "" ->
  authenticateUser cognito (List.length (authentications s)) email password
  = OnSuccess session ->
  refresh cognito (List.length (refreshes s)) identity = None ->
  let after := handleSignIn config cognito s in
  awsCredentials (world after) = Some (identityPoolId config, jwtToken session)
  /\ sdkCredentials after = Some identity
  /\ sdkRegion after = Some (region config)
  /\ authentications after = (authentications s ++ [(email, password)])%list
  /\ refreshes after = (refreshes s ++ [identity])%list
  /\ userEmail after = email
  /\ signInFormShown after = false
  /\ signedInViewShown after = true
  /\ generatorShown (page (world after)) = true
  /\ statusText (page (world after)) = "Signed in successfully"
  /\ statusClass (page (world after)) = "status success".
Proof.
  intros email password identity He Hp Hauth Hrefresh after.
  apply nonEmpty_true in He, Hp.
  unfold after, handleSignIn. fold email password. rewrite He, Hp.
  simpl orb. cbv iota zeta.
  cbn [authentications showStatus withWorld setUser]. rewrite Hauth.
  cbn [cognitoUser setLogs showStatus withWorld setUser].
  unfold handleSignedIn, getAWSCredentials.
  cbn [refreshes setSdk setLogs showStatus withWorld setUser setViews
       setUserEmail onPage].
  fold identity. rewrite Hrefresh.
  repeat split.
Qed.

(** X27.  [handleSignOut] forgets the user and the credentials, shows the
    sign-in form and hides the signed-in view and the generator; it leaves
    [AWS.config.credentials], the typed e-mail and password, the results
    section and the result image as they were.  A click on Generate right
    after it sends nothing. *)
Theorem sign_out_keeps_the_sdk_and_the_result (s : Screen) :
  let after := handleSignOut s in
  awsCredentials (world after) = None
  /\ cognitoUser after = None
  /\ signInFormShown after = true
  /\ signedInViewShown after = false
  /\ generatorShown (page (world after)) = false
  /\ statusText (page (world after)) = "Signed out"
  /\ sdkCredentials after = sdkCredentials s
  /\ emailField after = emailField s
  /\ passwordField after = passwordField s
  /\ resultsShown (page (world after)) = resultsShown (page (world s))
  /\ resultImage (page (world after)) = resultImage (page (world s))
  /\ invocations (world (handleGenerate br after)) = invocations (world s)
  /\ statusText (page (world (handleGenerate br after)))
     = "Not authenticated. Please sign in.".
Proof.
  cbv zeta. unfold handleSignOut. destruct (cognitoUser s); repeat split.
Qed.

End WithServices.

Lemma unconfigured_page_is_inert_witness :
  authentications
    (visit AWS_CONFIG Demo.browser Guest.welcoming
       [EditLogin "tessa@example.org" "lemonade"; ClickSignIn; ClickGenerate]
       (Guest.doorstep "" ""))
  = []
  /\ statusText
       (page
          (world
             (visit AWS_CONFIG Demo.browser Guest.welcoming
                [EditLogin "tessa@example.org" "lemonade"; ClickSignIn;
                 ClickGenerate]
                (Guest.doorstep "" ""))))
     = "Please configure AWS Cognito in aws-config.js".
Proof.
  destruct (@unconfigured_page_is_inert AWS_CONFIG Demo.browser Guest.welcoming
              [EditLogin "tessa@example.org" "lemonade"; ClickSignIn;
               ClickGenerate]
              (Guest.doorstep "" ""))
    as (_ & Htext & Hasked & _); [reflexivity | reflexivity |].
  split; [exact Hasked | exact Htext].
Defined.

Lemma nothing_is_sent_before_credentials_arrive_witness :
  invocations
    (world
       (visit Guest.configured Demo.browser Guest.poolless
          [EditLogin "tessa@example.org" "lemonade"; ClickSignIn; ClickGenerate]
          (Guest.doorstep "" "")))
  = [].
Proof.
  destruct (@nothing_is_sent_before_credentials_arrive Guest.configured
              Demo.browser Guest.poolless
              [EditLogin "tessa@example.org" "lemonade"; ClickSignIn;
               ClickGenerate]
              (Guest.doorstep "" ""))
    as (_ & Hsent & _); [reflexivity | intros n identity; discriminate |].
  exact Hsent.
Defined.

Lemma cognito_is_asked_with_both_fields_filled_witness :
  authentications
    (visit Guest.configured Demo.browser Guest.welcoming
       [EditLogin " tessa@example.org" "lemonade "; ClickSignIn;
        EditLogin "tessa@example.org" ""; ClickSignIn; ClickSignUp]
       (Guest.doorstep "" ""))
  = [(" tessa@example.org", "lemonade ")]
  /\ signUps
       (visit Guest.configured Demo.browser Guest.welcoming
          [EditLogin " tessa@example.org" "lemonade "; ClickSignIn;
           EditLogin "tessa@example.org" ""; ClickSignIn; ClickSignUp]
          (Guest.doorstep "" ""))
     = [].
Proof.
  destruct (@cognito_is_asked_with_both_fields_filled Guest.configured
              Demo.browser Guest.welcoming
              [EditLogin " tessa@example.org" "lemonade "; ClickSignIn;
               EditLogin "tessa@example.org" ""; ClickSignIn; ClickSignUp]
              (Guest.doorstep "" ""))
    as (Hin & Hup & _).
  split; [exact Hin | exact Hup].
Defined.

Lemma sign_in_without_credentials_shows_the_generator_witness :
  generatorShown
    (page
       (world
          (handleSignIn Guest.configured Guest.poolless
             (Guest.doorstep "tessa@example.org" "lemonade"))))
  = true
  /\ statusText
       (page
          (world
             (handleSignIn Guest.configured Guest.poolless
                (Guest.doorstep "tessa@example.org" "lemonade"))))
     = "Failed to get AWS credentials: Invalid identity pool configuration.".
Proof.
  destruct (@sign_in_without_credentials_shows_the_generator Guest.configured
              Demo.browser Guest.poolless
              (Guest.doorstep "tessa@example.org" "lemonade")
              (mkLogin true "token")
              (Error "Invalid identity pool configuration."))
    as (_ & _ & _ & _ & _ & Hshown & _ & Htext & _);
    [discriminate | discriminate | reflexivity | reflexivity |].
  split; [exact Hshown | exact Htext].
Defined.

Lemma granted_credentials_come_from_the_identity_pool_witness :
  awsCredentials
    (world
       (handleSignIn Guest.configured Guest.welcoming
          (Guest.doorstep "tessa@example.org" "lemonade")))
  = Some ("us-east-1:example-pool", "token")
  /\ sdkCredentials
       (handleSignIn Guest.configured Guest.welcoming
          (Guest.doorstep "tessa@example.org" "lemonade"))
     = Some (mkIdentity "us-east-1:example-pool"
               "cognito-idp.us-east-1.amazonaws.com/us-east-1_EXAMPLE" "token").
Proof.
  destruct (@granted_credentials_come_from_the_identity_pool Guest.configured
              Guest.welcoming (Guest.doorstep "tessa@example.org" "lemonade")
              (mkLogin true "token"))
    as (Hheld & Hsdk & _);
    [discriminate | discriminate | reflexivity | reflexivity |].
  split; [exact Hheld | exact Hsdk].
Defined.

End PortalFacts.
